(** * Game-statistics services of the portfolio: a shallow embedding

    The development follows the JavaScript services of the repository:
    - [src/services/steam.js]     (module [Steam]),
    - [src/services/blizzard.js]  (modules [Blizzard] and [Poe]: the file
      holds the World of Warcraft service followed by the Path of Exile one),
    - the NFT service             (module [Nft]).

    JavaScript values are kept dynamic ([Js.value]); a service is a
    computation in a state-and-exception monad over the module variables of
    [blizzard.js], the clock read by [Date.now()] and the list of HTTP
    requests issued so far. *)

From Stdlib Require Import List String Ascii ZArith QArith Qround Lia Lqa Bool.
From Stdlib Require Import Sorted Permutation DecimalString.
Import ListNotations.

Open Scope string_scope.
Open Scope list_scope.

Set Warnings "-register-all".

(* ================================================================= *)
(** ** JavaScript values *)

Module Js.

(** A number: a rational, or [NaN].  JSON carries no [NaN]; it only arises
    from arithmetic on a value that is not a number.  A double is read as
    the rational it stands for and arithmetic is exact: rounding error and
    the infinities are outside the model. *)
Inductive num : Type :=
| NaN
| Fin (q : Q).

(** What [JSON.parse] returns, plus [undefined]; an object is the list of its
    properties, in insertion order. *)
Inductive value : Type :=
| VUndef
| VNull
| VBool (b : bool)
| VNum (n : num)
| VStr (s : string)
| VArr (items : list value)
| VObj (fields : list (string * value)).

(** A thrown [Error] object: its [name] and its [message]. *)
Record exn : Type := mkExn { ename : string; emessage : string }.

Definition Error (msg : string) : exn := mkExn "Error" msg.
Definition TypeError (msg : string) : exn := mkExn "TypeError" msg.
Definition SyntaxError (msg : string) : exn := mkExn "SyntaxError" msg.

(** Completion of an evaluation: a value, or a thrown exception. *)
Inductive result (A : Type) : Type :=
| Ok (a : A)
| Throw (e : exn).
Arguments Ok {A} a.
Arguments Throw {A} e.

Definition ret {A} (a : A) : result A := Ok a.

Definition bind {A B} (r : result A) (k : A -> result B) : result B :=
  match r with
  | Ok a => k a
  | Throw e => Throw e
  end.

(** What the host supplies and the services never inspect: the decimal
    rendering of a number that is not a plain integer, the reading of a
    string as a number, and [btoa]. *)
Record Platform : Type := {
  NumberToString : Q -> string;
  StringToNumber : string -> num;
  btoa : string -> string
}.

Definition of_Z (z : Z) : num := Fin (inject_Z z).
Definition of_nat (n : nat) : num := of_Z (Z.of_nat n).
Definition vnat (n : nat) : value := VNum (of_nat n).
Definition vint (z : Z) : value := VNum (of_Z z).

Definition string_of_Z (z : Z) : string := NilZero.string_of_int (Z.to_int z).

(** ToBoolean. *)
Definition truthy (v : value) : bool :=
  match v with
  | VUndef | VNull => false
  | VBool b => b
  | VNum NaN => false
  | VNum (Fin q) => negb (Qeq_bool q 0)
  | VStr s => negb (s =? "")
  | VArr _ | VObj _ => true
  end.

Definition nullish (v : value) : bool :=
  match v with
  | VUndef | VNull => true
  | _ => false
  end.

(** [a || b] and [!a]. *)
Definition or_ (a b : value) : value := if truthy a then a else b.
Definition not_ (a : value) : bool := negb (truthy a).

Fixpoint lookup (k : string) (fields : list (string * value)) : option value :=
  match fields with
  | [] => None
  | (k', v) :: rest => if k =? k' then Some v else lookup k rest
  end.

Definition char_at (s : string) (i : nat) : value :=
  match String.get i s with
  | Some c => VStr (String c EmptyString)
  | None => VUndef
  end.

(** [v.k] for a [v] that is neither [null] nor [undefined].  Only data
    properties are modelled: the keys the services read are never names of
    methods. *)
Definition prop (v : value) (k : string) : value :=
  match v with
  | VObj fields => match lookup k fields with Some x => x | None => VUndef end
  | VArr items => if k =? "length" then vnat (List.length items) else VUndef
  | VStr s => if k =? "length" then vnat (String.length s) else VUndef
  | _ => VUndef
  end.

(** [v[i]] for a [v] that is neither [null] nor [undefined]. *)
Definition at_index (v : value) (i : nat) : value :=
  match v with
  | VArr items => nth i items VUndef
  | VStr s => char_at s i
  | VObj fields => prop v (string_of_Z (Z.of_nat i))
  | _ => VUndef
  end.

Definition describe (v : value) : string :=
  match v with VNull => "null" | _ => "undefined" end.

(** [v.k]: reading a property of [null] or [undefined] throws a TypeError. *)
Definition get (v : value) (k : string) : result value :=
  if nullish v
  then Throw (TypeError ("Cannot read properties of " ++ describe v
                           ++ " (reading '" ++ k ++ "')"))
  else Ok (prop v k).

(** [v?.k] and [v?.[i]]. *)
Definition opt (v : value) (k : string) : value :=
  if nullish v then VUndef else prop v k.

Definition opt_index (v : value) (i : nat) : value :=
  if nullish v then VUndef else at_index v i.

(** [{...o, k: v}] on the property list of [o]. *)
Fixpoint set_field (k : string) (v : value) (fields : list (string * value))
  : list (string * value) :=
  match fields with
  | [] => [(k, v)]
  | (k', v') :: rest =>
      if k =? k' then (k', v) :: rest else (k', v') :: set_field k v rest
  end.

Definition spread (o : value) : list (string * value) :=
  match o with
  | VObj fields => fields
  | _ => []
  end.

Definition keys (v : value) : list string :=
  match v with
  | VObj fields => map fst fields
  | _ => []
  end.

(** *** Strings *)

Fixpoint includes (needle hay : string) : bool :=
  String.prefix needle hay
  || match hay with
     | EmptyString => false
     | String _ rest => includes needle rest
     end.

Definition lower_ascii (c : ascii) : ascii :=
  let n := nat_of_ascii c in
  if (65 <=? n)%nat && (n <=? 90)%nat then ascii_of_nat (n + 32) else c.

(** [toLowerCase], on the ASCII letters. *)
Fixpoint toLowerCase (s : string) : string :=
  match s with
  | EmptyString => EmptyString
  | String c rest => String (lower_ascii c) (toLowerCase rest)
  end.

Fixpoint join (sep : string) (parts : list string) : string :=
  match parts with
  | [] => ""
  | [p] => p
  | p :: rest => p ++ sep ++ join sep rest
  end.

(** *** Numbers *)

Definition num_add (a b : num) : num :=
  match a, b with
  | Fin p, Fin q => Fin (p + q)
  | _, _ => NaN
  end.

Definition num_sub (a b : num) : num :=
  match a, b with
  | Fin p, Fin q => Fin (p - q)
  | _, _ => NaN
  end.

Definition num_mul (a b : num) : num :=
  match a, b with
  | Fin p, Fin q => Fin (p * q)
  | _, _ => NaN
  end.

(** Division by a non-zero constant (the services divide by 60, 10 and 1000
    only). *)
Definition num_div (a : num) (d : Z) : num :=
  match a with
  | Fin p => Fin (p / inject_Z d)
  | NaN => NaN
  end.

(** [a < b]: false as soon as one side is [NaN]. *)
Definition num_lt (a b : num) : bool :=
  match a, b with
  | Fin p, Fin q => negb (Qle_bool q p)
  | _, _ => false
  end.

Definition num_le (a b : num) : bool :=
  match a, b with
  | Fin p, Fin q => Qle_bool p q
  | _, _ => false
  end.

(** The same number, whatever the fraction that writes it. *)
Definition num_eq (a b : num) : Prop :=
  match a, b with
  | Fin p, Fin q => Qeq p q
  | NaN, NaN => True
  | _, _ => False
  end.

(** [Math.round] rounds half-way cases up; [Math.floor]. *)
Definition Math_round (a : num) : num :=
  match a with
  | Fin p => of_Z (Qfloor (p + (1 # 2)))
  | NaN => NaN
  end.

Definition Math_floor (a : num) : num :=
  match a with
  | Fin p => of_Z (Qfloor p)
  | NaN => NaN
  end.

Section Conversions.

Variable P : Platform.

(** Number::toString: a plain integer below 10^21 prints as its decimal
    digits, the rest is the platform's rendering. *)
Definition number_to_string (q : Q) : string :=
  let r := Qred q in
  if (Zpos (Qden r) =? 1)%Z && (Z.abs (Qnum r) <? 10 ^ 21)%Z
  then string_of_Z (Qnum r)
  else NumberToString P q.

(** ToString. *)
Fixpoint to_string (v : value) : string :=
  match v with
  | VUndef => "undefined"
  | VNull => "null"
  | VBool true => "true"
  | VBool false => "false"
  | VNum NaN => "NaN"
  | VNum (Fin q) => number_to_string q
  | VStr s => s
  | VArr items =>
      join "," (map (fun x => if nullish x then "" else to_string x) items)
  | VObj _ => "[object Object]"
  end.

(** ToNumber. *)
Definition to_number (v : value) : num :=
  match v with
  | VUndef => NaN
  | VNull => of_Z 0
  | VBool true => of_Z 1
  | VBool false => of_Z 0
  | VNum n => n
  | VStr s => StringToNumber P s
  | VArr _ | VObj _ => StringToNumber P (to_string v)
  end.

(** [a - b] and [a / d] on values. *)
Definition js_sub (a b : value) : num := num_sub (to_number a) (to_number b).
Definition js_div (a : value) (d : Z) : num := num_div (to_number a) d.

End Conversions.

(** *** Arrays *)

(** [v[n]] for a computed number [n] and a [v] that is neither [null] nor
    [undefined]. *)
Definition at_num (P : Platform) (v : value) (n : num) : value :=
  match v with
  | VArr _ | VStr _ =>
      match n with
      | Fin q =>
          let r := Qred q in
          if (Zpos (Qden r) =? 1)%Z && (0 <=? Qnum r)%Z
          then at_index v (Z.to_nat (Qnum r))
          else VUndef
      | NaN => VUndef
      end
  | VObj _ => prop v (to_string P (VNum n))
  | _ => VUndef
  end.

(** [xs.find(p)] for a callback that may throw; [undefined] when no element
    passes. *)
Fixpoint find_r (p : value -> result bool) (xs : list value) : result value :=
  match xs with
  | [] => Ok VUndef
  | x :: rest => bind (p x) (fun b => if b then Ok x else find_r p rest)
  end.

(** [xs.includes(s)] for a string [s]. *)
Definition array_includes (s : string) (xs : list value) : bool :=
  existsb (fun x => match x with VStr t => t =? s | _ => false end) xs.

(** [xs.map(f)] for a callback that may throw. *)
Fixpoint map_r {A B} (f : A -> result B) (xs : list A) : result (list B) :=
  match xs with
  | [] => Ok []
  | x :: rest =>
      bind (f x) (fun y => bind (map_r f rest) (fun ys => Ok (y :: ys)))
  end.

(** The receiver of [.map]/[.slice(...).map]: anything but an array has no
    callable [map]. *)
Definition as_array (v : value) (what : string) : result (list value) :=
  match v with
  | VArr items => Ok items
  | _ => Throw (TypeError (what ++ " is not a function"))
  end.

(** [xs.slice(start, stop)] with integer bounds. *)
Definition slice {A} (xs : list A) (start stop : Z) : list A :=
  let len := Z.of_nat (List.length xs) in
  let rel k := if (k <? 0)%Z then Z.max (len + k) 0 else Z.min k len in
  let a := rel start in
  let b := rel stop in
  firstn (Z.to_nat (b - a)) (skipn (Z.to_nat a) xs).

(** [Array.prototype.sort(cmp)]: a stable sort; [x] goes before [y] when
    [cmp x y <= 0], a [NaN] from the comparator counting as 0.  The
    algorithm is the engine's choice; with a consistent comparator every
    stable sort gives the list that insertion gives here. *)
Definition before {A} (cmp : A -> A -> num) (x y : A) : bool :=
  match cmp x y with
  | NaN => true
  | Fin q => Qle_bool q 0
  end.

Fixpoint insert {A} (cmp : A -> A -> num) (x : A) (sorted : list A) : list A :=
  match sorted with
  | [] => [x]
  | y :: rest =>
      if before cmp x y then x :: y :: rest else y :: insert cmp x rest
  end.

Fixpoint sort {A} (cmp : A -> A -> num) (xs : list A) : list A :=
  match xs with
  | [] => []
  | x :: rest => insert cmp x (sort cmp rest)
  end.

End Js.

Close Scope Q_scope.

(* ================================================================= *)
(** ** Configuration, network and the service monad *)

(** [config.js] is not among the sources: its entries are taken here as
    strings, the empty string standing for an entry left blank. *)
Record Config : Type := {
  steam_steamId : string;
  steam_apiKey : string;
  wow_clientId : string;
  wow_clientSecret : string;
  wow_region : string;
  wow_realm : string;
  wow_characterName : string;
  poe2_accountName : string;
  poe2_realm : string;
  wallet_address : string;
  apis_steam : string;
  apis_blizzard : string;
  apis_poe : string
}.

Module Net.
Import Js.

(** An outbound request.  [query] holds what the code puts in a
    [URLSearchParams]; a query written inside a template literal stays in
    [url]. *)
Record Request : Type := {
  method : string;
  url : string;
  query : list (string * string);
  headers : list (string * string);
  body : string
}.

Definition GET (u : string) (q hs : list (string * string)) : Request :=
  {| method := "GET"; url := u; query := q; headers := hs; body := "" |}.

(** What [response.json()] yields: the parsed body, or the message of the
    SyntaxError the parser throws. *)
Inductive Parsed : Type :=
| Json (v : value)
| Unparsable (msg : string).

Record Response : Type := {
  status : Z;
  statusText : string;
  text : string;
  json : Parsed
}.

(** [response.ok]. *)
Definition ok (r : Response) : bool :=
  ((200 <=? status r) && (status r <=? 299))%Z.

(** [fetch] resolves to a response, or rejects with a TypeError when the
    request cannot be carried out (connectivity, CORS). *)
Inductive Outcome : Type :=
| Responds (r : Response)
| NetworkFailure (msg : string).

(** The environment of a run: the host platform, and the upstream servers
    as a function of the time of the request and of the request, with the
    time each exchange takes. *)
Record World : Type := {
  platform : Platform;
  transport : Z -> Request -> Outcome;
  latency : Z -> Request -> Z
}.

(** The mutable state: the clock, the two module variables of
    [blizzard.js], and the requests issued so far (oldest first). *)
Record State : Type := {
  clock : Z;
  accessToken : value;
  tokenExpiry : num;
  requests : list Request
}.

(** The state in which the modules are loaded: [accessToken = null],
    [tokenExpiry = 0]. *)
Definition initial (now : Z) : State :=
  {| clock := now; accessToken := VNull; tokenExpiry := of_Z 0; requests := [] |}.

(** An [async] function body: it may read and write the state and completes
    with a value or a thrown exception (a rejected promise). *)
Definition M (A : Type) : Type := State -> result A * State.

Definition mret {A} (a : A) : M A := fun s => (Ok a, s).

Definition mbind {A B} (m : M A) (k : A -> M B) : M B :=
  fun s =>
    match m s with
    | (Ok a, s') => k a s'
    | (Throw e, s') => (Throw e, s')
    end.

Definition throw {A} (e : exn) : M A := fun s => (Throw e, s).

(** A synchronous computation inside an [async] body. *)
Definition lift {A} (r : result A) : M A := fun s => (r, s).

(** [try { m } catch (error) { h error }]. *)
Definition try_catch {A} (m : M A) (h : exn -> M A) : M A :=
  fun s =>
    match m s with
    | (Ok a, s') => (Ok a, s')
    | (Throw e, s') => h e s'
    end.

(** [Date.now()]. *)
Definition Date_now : M Z := fun s => (Ok (clock s), s).

Definition record_request (W : World) (req : Request) (s : State) : State :=
  {| clock := clock s + latency W (clock s) req;
     accessToken := accessToken s;
     tokenExpiry := tokenExpiry s;
     requests := requests s ++ [req] |}.

(** [await fetch(...)]. *)
Definition fetch (W : World) (req : Request) : M Response :=
  fun s =>
    match transport W (clock s) req with
    | Responds r => (Ok r, record_request W req s)
    | NetworkFailure msg => (Throw (TypeError msg), record_request W req s)
    end.

(** [await response.json()]. *)
Definition response_json (r : Response) : M value :=
  match json r with
  | Json v => mret v
  | Unparsable msg => throw (SyntaxError msg)
  end.

(** [await response.text()]. *)
Definition response_text (r : Response) : M string := mret (text r).

(** [await Promise.all([a, b, ...])] is written below as the constituents
    run one after the other in array order, each to completion.  JavaScript
    starts all of them before the first one resumes and lets the others run
    on after a rejection.  Against an upstream whose answers do not depend
    on the time of the request the values are the same under both readings;
    the requests logged may differ (their order, those of the constituents
    after a rejected one, and a token request spared by the token a
    predecessor cached). *)

End Net.

Declare Scope service_scope.
Delimit Scope service_scope with service.
Notation "x <- m ;; k" := (Net.mbind m (fun x => k))
  (at level 61, m at next level, right associativity) : service_scope.
Notation "m ;;; k" := (Net.mbind m (fun _ => k))
  (at level 61, right associativity) : service_scope.
Notation "x <~ r ;; k" := (Js.bind r (fun x => k))
  (at level 61, r at next level, right associativity) : service_scope.

(* ================================================================= *)
(** ** Steam: [src/services/steam.js] *)

Module Steam.
Import Js Net.
Local Open Scope service_scope.
Local Open Scope string_scope.

(** *** Mock data (development / CORS fallback) *)

Definition seconds_ago (now : Z) (offset : Z) : value :=
  VNum (num_sub (Math_floor (num_div (of_Z now) 1000)) (of_Z offset)).

Definition getMockPlayerSummary : M value :=
  now <- Date_now ;;
  mret (VObj [
    ("steamId", VStr "76561198000000000");
    ("personaName", VStr "GamerTag");
    ("avatarUrl", VStr "https://avatars.steamstatic.com/fef49e7fa7e1997310d705b2a6158ff8dc1cdfeb_full.jpg");
    ("profileUrl", VStr "https://steamcommunity.com/profiles/76561198000000000");
    ("personaState", vint 1);
    ("lastLogoff", seconds_ago now 3600);
    ("timeCreated", vint 1293753600);
    ("realName", VNull);
    ("countryCode", VStr "US")]).

Definition getMockSteamLevel : M value := mret (vint 42).

Definition mockOwnedGame (now appId : Z) (name : string)
    (minutes hours twoWeeks : Z) (logo : string) (lastPlayedAgo : Z) : value :=
  VObj [
    ("appId", vint appId);
    ("name", VStr name);
    ("playtimeMinutes", vint minutes);
    ("playtimeHours", vint hours);
    ("playtime2Weeks", vint twoWeeks);
    ("iconUrl", VNull);
    ("logoUrl", VStr logo);
    ("lastPlayed", seconds_ago now lastPlayedAgo)].

Definition getMockOwnedGames : M value :=
  now <- Date_now ;;
  mret (VObj [
    ("totalCount", vint 247);
    ("games", VArr [
      mockOwnedGame now 730 "Counter-Strike 2" 18420 307 840
        "https://steamcdn-a.akamaihd.net/steam/apps/730/header.jpg" 86400;
      mockOwnedGame now 1245620 "Elden Ring" 9600 160 420
        "https://steamcdn-a.akamaihd.net/steam/apps/1245620/header.jpg" 172800;
      mockOwnedGame now 570 "Dota 2" 7200 120 0
        "https://steamcdn-a.akamaihd.net/steam/apps/570/header.jpg" 604800;
      mockOwnedGame now 1172470 "Apex Legends" 5400 90 180
        "https://steamcdn-a.akamaihd.net/steam/apps/1172470/header.jpg" 259200;
      mockOwnedGame now 292030 "The Witcher 3: Wild Hunt" 4800 80 0
        "https://steamcdn-a.akamaihd.net/steam/apps/292030/header.jpg" 2592000;
      mockOwnedGame now 1086940 "Baldur's Gate 3" 4200 70 300
        "https://steamcdn-a.akamaihd.net/steam/apps/1086940/header.jpg" 43200;
      mockOwnedGame now 413150 "Stardew Valley" 3600 60 120
        "https://steamcdn-a.akamaihd.net/steam/apps/413150/header.jpg" 86400;
      mockOwnedGame now 1091500 "Cyberpunk 2077" 3000 50 0
        "https://steamcdn-a.akamaihd.net/steam/apps/1091500/header.jpg" 1209600])]).

Definition mockRecentGame (appId : Z) (name : string)
    (minutes hours twoWeeksMinutes twoWeeksHours : Z) (logo : string) : value :=
  VObj [
    ("appId", vint appId);
    ("name", VStr name);
    ("playtimeMinutes", vint minutes);
    ("playtimeHours", vint hours);
    ("playtime2WeeksMinutes", vint twoWeeksMinutes);
    ("playtime2WeeksHours", vint twoWeeksHours);
    ("iconUrl", VNull);
    ("logoUrl", VStr logo)].

Definition getMockRecentGames : M value :=
  mret (VObj [
    ("totalCount", vint 5);
    ("games", VArr [
      mockRecentGame 1086940 "Baldur's Gate 3" 4200 70 300 5
        "https://steamcdn-a.akamaihd.net/steam/apps/1086940/header.jpg";
      mockRecentGame 730 "Counter-Strike 2" 18420 307 840 14
        "https://steamcdn-a.akamaihd.net/steam/apps/730/header.jpg";
      mockRecentGame 1245620 "Elden Ring" 9600 160 420 7
        "https://steamcdn-a.akamaihd.net/steam/apps/1245620/header.jpg";
      mockRecentGame 1172470 "Apex Legends" 5400 90 180 3
        "https://steamcdn-a.akamaihd.net/steam/apps/1172470/header.jpg";
      mockRecentGame 413150 "Stardew Valley" 3600 60 120 2
        "https://steamcdn-a.akamaihd.net/steam/apps/413150/header.jpg"])]).

Section Service.

Variable W : World.
Variable config : Config.

Definition STEAM_API_BASE : string := apis_steam config.
Definition STEAM_ID : string := steam_steamId config.
Definition API_KEY : string := steam_apiKey config.

(** [API_KEY && API_KEY.length > 0 && STEAM_ID &&
     !STEAM_ID.includes('0000000000')]. *)
Definition hasValidCredentials : bool :=
  negb (API_KEY =? "") && (0 <? String.length API_KEY)%nat
  && negb (STEAM_ID =? "") && negb (includes "0000000000" STEAM_ID).

(** The test of the [catch] blocks: a CORS or network error. *)
Definition is_cors_error (error : exn) : bool :=
  includes "CORS" (emessage error)
  || includes "NetworkError" (emessage error)
  || (ename error =? "TypeError").

Definition api_error (response : Response) : exn :=
  Error ("Steam API error: " ++ string_of_Z (status response)).

Definition summary_request : Request :=
  GET (STEAM_API_BASE ++ "/ISteamUser/GetPlayerSummaries/v2/?key="
         ++ API_KEY ++ "&steamids=" ++ STEAM_ID) [] [].

Definition fetchPlayerSummary : M value :=
  if negb hasValidCredentials then getMockPlayerSummary
  else
    try_catch
      (response <- fetch W summary_request ;;
       if negb (ok response) then throw (api_error response)
       else
         data <- response_json response ;;
         response_field <- lift (get data "response") ;;
         let player := opt_index (opt response_field "players") 0 in
         if negb (truthy player) then throw (Error "Player not found")
         else
           mret (VObj [
             ("steamId", prop player "steamid");
             ("personaName", prop player "personaname");
             ("avatarUrl", prop player "avatarfull");
             ("profileUrl", prop player "profileurl");
             ("personaState", prop player "personastate");
             ("lastLogoff", prop player "lastlogoff");
             ("timeCreated", prop player "timecreated");
             ("realName", prop player "realname");
             ("countryCode", prop player "loccountrycode")]))
      (fun error =>
         if is_cors_error error then getMockPlayerSummary else throw error).

Definition level_request : Request :=
  GET (STEAM_API_BASE ++ "/IPlayerService/GetSteamLevel/v1/?key="
         ++ API_KEY ++ "&steamid=" ++ STEAM_ID) [] [].

Definition fetchSteamLevel : M value :=
  if negb hasValidCredentials then getMockSteamLevel
  else
    try_catch
      (response <- fetch W level_request ;;
       if negb (ok response) then throw (api_error response)
       else
         data <- response_json response ;;
         response_field <- lift (get data "response") ;;
         mret (or_ (opt response_field "player_level") (vint 0)))
      (fun _ => getMockSteamLevel).

(** [Math.round((minutes / 60) * 10) / 10], in exact arithmetic. *)
Definition hours_of (minutes : value) : value :=
  VNum (num_div
          (Math_round (num_mul (js_div (platform W) minutes 60) (of_Z 10)))
          10).

Definition icon_url (game : value) : value :=
  if truthy (prop game "img_icon_url")
  then VStr ("https://media.steampowered.com/steamcommunity/public/images/apps/"
               ++ to_string (platform W) (prop game "appid") ++ "/"
               ++ to_string (platform W) (prop game "img_icon_url") ++ ".jpg")
  else VNull.

Definition logo_url (game : value) : value :=
  VStr ("https://steamcdn-a.akamaihd.net/steam/apps/"
          ++ to_string (platform W) (prop game "appid") ++ "/header.jpg").

(** The callback of [games.map] in [fetchOwnedGames]. *)
Definition ownedGame (game : value) : result value :=
  appid <~ get game "appid" ;;
  Ok (VObj [
    ("appId", appid);
    ("name", prop game "name");
    ("playtimeMinutes", prop game "playtime_forever");
    ("playtimeHours", hours_of (prop game "playtime_forever"));
    ("playtime2Weeks", or_ (prop game "playtime_2weeks") (vint 0));
    ("iconUrl", icon_url game);
    ("logoUrl", logo_url game);
    ("lastPlayed", prop game "rtime_last_played")]).

(** [(a, b) => b.playtimeMinutes - a.playtimeMinutes]. *)
Definition byPlaytime (a b : value) : num :=
  js_sub (platform W) (prop b "playtimeMinutes") (prop a "playtimeMinutes").

Definition owned_request : Request :=
  GET (STEAM_API_BASE ++ "/IPlayerService/GetOwnedGames/v1/?key="
         ++ API_KEY ++ "&steamid=" ++ STEAM_ID
         ++ "&include_appinfo=true&include_played_free_games=true") [] [].

Definition fetchOwnedGames : M value :=
  if negb hasValidCredentials then getMockOwnedGames
  else
    try_catch
      (response <- fetch W owned_request ;;
       if negb (ok response) then throw (api_error response)
       else
         data <- response_json response ;;
         response_field <- lift (get data "response") ;;
         let games := or_ (opt response_field "games") (VArr []) in
         let totalCount :=
           or_ (opt response_field "game_count") (prop games "length") in
         items <- lift (as_array games "games.map") ;;
         mapped <- lift (map_r ownedGame items) ;;
         mret (VObj [
           ("totalCount", totalCount);
           ("games", VArr (sort byPlaytime mapped))]))
      (fun error =>
         if is_cors_error error then getMockOwnedGames else throw error).

(** The callback of [games.map] in [fetchRecentGames]. *)
Definition recentGame (game : value) : result value :=
  appid <~ get game "appid" ;;
  Ok (VObj [
    ("appId", appid);
    ("name", prop game "name");
    ("playtimeMinutes", prop game "playtime_forever");
    ("playtimeHours", hours_of (prop game "playtime_forever"));
    ("playtime2WeeksMinutes", prop game "playtime_2weeks");
    ("playtime2WeeksHours", hours_of (prop game "playtime_2weeks"));
    ("iconUrl", icon_url game);
    ("logoUrl", logo_url game)]).

Definition recent_request (count : Z) : Request :=
  GET (STEAM_API_BASE ++ "/IPlayerService/GetRecentlyPlayedGames/v1/?key="
         ++ API_KEY ++ "&steamid=" ++ STEAM_ID
         ++ "&count=" ++ string_of_Z count) [] [].

Definition fetchRecentGames (count : Z) : M value :=
  if negb hasValidCredentials then getMockRecentGames
  else
    try_catch
      (response <- fetch W (recent_request count) ;;
       if negb (ok response) then throw (api_error response)
       else
         data <- response_json response ;;
         response_field <- lift (get data "response") ;;
         let games := or_ (opt response_field "games") (VArr []) in
         let totalCount :=
           or_ (opt response_field "total_count") (prop games "length") in
         items <- lift (as_array games "games.map") ;;
         mapped <- lift (map_r recentGame items) ;;
         mret (VObj [
           ("totalCount", totalCount);
           ("games", VArr mapped)]))
      (fun error =>
         if is_cors_error error then getMockRecentGames else throw error).

(** [fetchAllSteamData]: the four fetches of its [Promise.all], then the
    bundle. *)
Definition fetchAllSteamData : M value :=
  playerSummary <- fetchPlayerSummary ;;
  steamLevel <- fetchSteamLevel ;;
  ownedGames <- fetchOwnedGames ;;
  recentGames <- fetchRecentGames 10 ;;
  mret (VObj [
    ("profile", VObj (set_field "level" steamLevel (spread playerSummary)));
    ("ownedGames", ownedGames);
    ("recentGames", recentGames);
    ("isMockData", VBool (negb hasValidCredentials))]).

End Service.

End Steam.

(* ================================================================= *)
(** ** World of Warcraft: [src/services/blizzard.js], first part *)

Module Blizzard.
Import Js Net.
Local Open Scope service_scope.
Local Open Scope string_scope.

(** The module variables [accessToken] and [tokenExpiry]. *)
Definition read_accessToken : M value := fun s => (Ok (accessToken s), s).
Definition read_tokenExpiry : M num := fun s => (Ok (tokenExpiry s), s).

Definition write_accessToken (v : value) : M unit :=
  fun s => (Ok tt, {| clock := clock s; accessToken := v;
                      tokenExpiry := tokenExpiry s; requests := requests s |}).

Definition write_tokenExpiry (n : num) : M unit :=
  fun s => (Ok tt, {| clock := clock s; accessToken := accessToken s;
                      tokenExpiry := n; requests := requests s |}).

(** *** Mock data *)

Definition mockRun (dungeon : string) (level : Z) (completedInTime : bool)
    (duration : Z) (affix1 affix2 : string) : value :=
  VObj [
    ("dungeon", VStr dungeon);
    ("level", vint level);
    ("completedInTime", VBool completedInTime);
    ("duration", vint duration);
    ("affixes", VArr [VStr affix1; VStr affix2])].

Definition getMockMythicPlusProfile : M value :=
  mret (VObj [
    ("rating", vint 2847);
    ("ratingColor", VObj [("r", vint 255); ("g", vint 128); ("b", vint 0)]);
    ("bestRuns", VArr [
      mockRun "The Stonevault" 12 true 1800000 "Fortified" "Entangling";
      mockRun "Mists of Tirna Scithe" 11 true 1650000 "Tyrannical" "Incorporeal";
      mockRun "The Dawnbreaker" 11 false 2100000 "Fortified" "Afflicted";
      mockRun "Ara-Kara" 10 true 1500000 "Tyrannical" "Spiteful";
      mockRun "City of Threads" 10 true 1700000 "Fortified" "Bursting"])]).

Definition mockMode (difficulty status progress : string) : value :=
  VObj [
    ("difficulty", VStr difficulty);
    ("status", VStr status);
    ("progress", VStr progress)].

Definition getMockRaidProgress : M value :=
  mret (VObj [
    ("expansionName", VStr "The War Within");
    ("raids", VArr [
      VObj [
        ("name", VStr "Nerub-ar Palace");
        ("modes", VArr [
          mockMode "LFR" "COMPLETE" "8/8";
          mockMode "Normal" "COMPLETE" "8/8";
          mockMode "Heroic" "COMPLETE" "8/8";
          mockMode "Mythic" "IN_PROGRESS" "5/8"])]])]).

Section Service.

Variable W : World.
Variable config : Config.

Definition getMockCharacterProfile : M value :=
  now <- Date_now ;;
  mret (VObj [
    ("name", or_ (VStr (wow_characterName config)) (VStr "Hero"));
    ("realm", or_ (VStr (wow_realm config)) (VStr "Area-52"));
    ("class", VStr "Death Knight");
    ("race", VStr "Blood Elf");
    ("level", vint 80);
    ("faction", VStr "Horde");
    ("itemLevel", vint 623);
    ("averageItemLevel", vint 625);
    ("guild", VStr "Sample Guild");
    ("lastLogin", vint now)]).

(** The OAuth request of the client credentials flow. *)
Definition token_request : Request :=
  {| method := "POST";
     url := "https://" ++ wow_region config ++ ".battle.net/oauth/token";
     query := [];
     headers := [
       ("Authorization",
        "Basic " ++ btoa (platform W)
                      (wow_clientId config ++ ":" ++ wow_clientSecret config));
       ("Content-Type", "application/x-www-form-urlencoded")];
     body := "grant_type=client_credentials" |}.

Definition getAccessToken : M value :=
  cached <- read_accessToken ;;
  now <- Date_now ;;
  expiry <- read_tokenExpiry ;;
  (* Check if we have valid cached token *)
  if truthy cached && num_lt (of_Z now) expiry then mret cached
  (* Validate credentials exist *)
  else if (wow_clientId config =? "") || (wow_clientSecret config =? "")
  then mret VNull
  else
    try_catch
      (response <- fetch W token_request ;;
       if negb (ok response)
       then throw (Error ("OAuth failed: " ++ string_of_Z (status response)
                            ++ " " ++ statusText response))
       else
         data <- response_json response ;;
         access_token <- lift (get data "access_token") ;;
         write_accessToken access_token ;;;
         (* Set expiry 5 minutes before actual expiry for safety *)
         issued <- Date_now ;;
         write_tokenExpiry
           (num_add (of_Z issued)
              (num_mul
                 (js_sub (platform W) (prop data "expires_in") (vint 300))
                 (of_Z 1000))) ;;;
         read_accessToken)
      (fun _ => mret VNull).

(** [apis.blizzard] is taken to be an absolute URL, so that [new URL(...)]
    does not throw. *)
Definition api_request (endpoint : string) (params : list (string * string))
    (token : value) : Request :=
  GET (apis_blizzard config ++ endpoint)
    (List.app [("namespace", "profile-" ++ wow_region config);
               ("locale", "en_US")] params)
    [("Authorization", "Bearer " ++ to_string (platform W) token)].

Definition blizzardFetch (endpoint : string) (params : list (string * string))
  : M value :=
  token <- getAccessToken ;;
  if negb (truthy token) then mret VNull
  else
    try_catch
      (response <- fetch W (api_request endpoint params token) ;;
       if negb (ok response)
       then throw (Error ("API request failed: "
                            ++ string_of_Z (status response)
                            ++ " " ++ statusText response))
       else response_json response)
      (fun _ => mret VNull).

Definition character_endpoint : string :=
  "/profile/wow/character/" ++ wow_realm config ++ "/"
    ++ toLowerCase (wow_characterName config).

Definition fetchCharacterProfile : M value :=
  data <- blizzardFetch character_endpoint [] ;;
  if truthy data then
    mret (VObj [
      ("name", prop data "name");
      ("realm", or_ (opt (prop data "realm") "name") (VStr (wow_realm config)));
      ("class", or_ (opt (prop data "character_class") "name") (VStr "Unknown"));
      ("race", or_ (opt (prop data "race") "name") (VStr "Unknown"));
      ("level", or_ (prop data "level") (vint 80));
      ("faction", or_ (opt (prop data "faction") "name") (VStr "Unknown"));
      ("itemLevel", or_ (prop data "equipped_item_level") (vint 0));
      ("averageItemLevel", or_ (prop data "average_item_level") (vint 0));
      ("guild", or_ (opt (prop data "guild") "name") VNull);
      ("lastLogin", prop data "last_login_timestamp")])
  else
    (* Return mock data if API fails or no credentials *)
    getMockCharacterProfile.

(** The callbacks of [fetchMythicPlusProfile]. *)
Definition affixName (a : value) : result value := get a "name".

Definition bestRun (run : value) : result value :=
  dungeon <~ get run "dungeon" ;;
  affixes <~ as_array (or_ (prop run "keystone_affixes") (VArr []))
               "(run.keystone_affixes || []).map" ;;
  names <~ map_r affixName affixes ;;
  Ok (VObj [
    ("dungeon", or_ (opt dungeon "name") (VStr "Unknown"));
    ("level", or_ (prop run "keystone_level") (vint 0));
    ("completedInTime", or_ (prop run "is_completed_within_time") (VBool false));
    ("duration", or_ (prop run "duration") (vint 0));
    ("affixes", VArr names)]).

(** [(data.best_runs || []).slice(0, 5)]: an array is cut to its first five
    items; a string has a [slice] but the result no [map]; nothing else has
    a [slice]. *)
Definition first_five (runs : value) : result (list value) :=
  match runs with
  | VArr items => Ok (slice items 0 5)
  | VStr _ => Throw (TypeError "(data.best_runs || []).slice(...).map is not a function")
  | _ => Throw (TypeError "(data.best_runs || []).slice is not a function")
  end.

Definition fetchMythicPlusProfile : M value :=
  data <- blizzardFetch
            (character_endpoint ++ "/mythic-keystone-profile/season/current") [] ;;
  if truthy data then
    let rating := or_ (opt (prop data "mythic_rating") "rating") (vint 0) in
    let ratingColor :=
      or_ (opt (prop data "mythic_rating") "color")
          (VObj [("r", vint 255); ("g", vint 255); ("b", vint 255)]) in
    runs <- lift (first_five (or_ (prop data "best_runs") (VArr []))) ;;
    bestRuns <- lift (map_r bestRun runs) ;;
    mret (VObj [
      ("rating", rating);
      ("ratingColor", ratingColor);
      ("bestRuns", VArr bestRuns)])
  else getMockMythicPlusProfile.

(** The callbacks of [fetchRaidProgress]. *)
Definition raidMode (mode : value) : result value :=
  difficulty <~ get mode "difficulty" ;;
  Ok (VObj [
    ("difficulty", or_ (opt difficulty "name") (VStr "Unknown"));
    ("status", or_ (opt (prop mode "status") "type") (VStr "INCOMPLETE"));
    ("progress",
     VStr (to_string (platform W)
             (or_ (opt (prop mode "progress") "completed_count") (vint 0))
           ++ "/"
           ++ to_string (platform W)
                (or_ (opt (prop mode "progress") "total_count") (vint 0))))]).

Definition raidInstance (raid : value) : result value :=
  instance <~ get raid "instance" ;;
  modes <~ as_array (or_ (prop raid "modes") (VArr []))
             "(raid.modes || []).map" ;;
  mapped <~ map_r raidMode modes ;;
  Ok (VObj [
    ("name", or_ (opt instance "name") (VStr "Unknown Raid"));
    ("modes", VArr mapped)]).

Definition fetchRaidProgress : M value :=
  data <- blizzardFetch (character_endpoint ++ "/encounters/raids") [] ;;
  if truthy data then
    (* Get the most recent expansion's raids *)
    let expansions := or_ (prop data "expansions") (VArr []) in
    let currentExpansion :=
      at_num (platform W) expansions
        (js_sub (platform W) (prop expansions "length") (vint 1)) in
    if truthy currentExpansion && truthy (prop currentExpansion "instances")
    then
      instances <- lift (as_array (prop currentExpansion "instances")
                           "currentExpansion.instances.map") ;;
      raids <- lift (map_r raidInstance instances) ;;
      mret (VObj [
        ("expansionName",
         or_ (opt (prop currentExpansion "expansion") "name")
             (VStr "Current Expansion"));
        ("raids", VArr raids)])
    else getMockRaidProgress
  else getMockRaidProgress.

(** [fetchAllWoWData]: the three fetches of its [Promise.all], then the
    bundle; [isMockData] is [!accessToken]. *)
Definition fetchAllWoWData : M value :=
  profile <- fetchCharacterProfile ;;
  mythicPlus <- fetchMythicPlusProfile ;;
  raids <- fetchRaidProgress ;;
  token <- read_accessToken ;;
  mret (VObj [
    ("profile", profile);
    ("mythicPlus", mythicPlus);
    ("raids", raids);
    ("isMockData", VBool (not_ token))]).

End Service.

End Blizzard.

(* ================================================================= *)
(** ** Path of Exile: [src/services/blizzard.js], second part *)

Module Poe.
Import Js Net.
Local Open Scope service_scope.
Local Open Scope string_scope.

(** *** Mock data *)

Definition mockCharacter (now : Z) (name class : string) (level : Z)
    (league : string) (experience lastActiveAgo : Z) : value :=
  VObj [
    ("name", VStr name);
    ("class", VStr class);
    ("level", vint level);
    ("league", VStr league);
    ("experience", vint experience);
    ("lastActive", VNum (num_sub (of_Z now) (of_Z lastActiveAgo)))].

Definition getMockCharacters : M value :=
  now <- Date_now ;;
  mret (VObj [
    ("characters", VArr [
      mockCharacter now "ShadowBlade" "Mercenary" 92 "Settlers" 2847593847 3600000;
      mockCharacter now "FrostWitch" "Sorceress" 88 "Settlers" 1293847562 86400000;
      mockCharacter now "BoneWarrior" "Warrior" 85 "Settlers" 983746251 172800000;
      mockCharacter now "StormMonk" "Monk" 78 "Standard" 487293651 604800000;
      mockCharacter now "VoidHunter" "Ranger" 71 "Settlers" 287463912 259200000]);
    ("isMockData", VBool true)]).

Definition mockLeague (id : string) (startAt : value) (rules : list value)
  : value :=
  VObj [
    ("id", VStr id);
    ("name", VStr id);
    ("realm", VStr "pc");
    ("startAt", startAt);
    ("endAt", VNull);
    ("rules", VArr rules)].

Definition getMockLeagues : M value :=
  mret (VObj [
    ("leagues", VArr [
      mockLeague "Settlers" (VStr "2024-12-06T20:00:00Z")
        [VObj [("id", VStr "settlers"); ("name", VStr "Settlers")]];
      mockLeague "Standard" VNull [];
      mockLeague "Hardcore" VNull
        [VObj [("id", VStr "Hardcore"); ("name", VStr "Hardcore")]]]);
    ("isMockData", VBool true)]).

Section Service.

Variable W : World.
Variable config : Config.

Definition user_agent : list (string * string) :=
  [("User-Agent", "Portfolio-Display/1.0")].

Definition poe_request (path : string) : Request :=
  GET (apis_poe config ++ path) [] user_agent.

Definition fetchCharacters : M value :=
  try_catch
    (response <- fetch W (poe_request "/character") ;;
     if negb (ok response) then
       (* POE API often requires authentication or has CORS issues *)
       if (status response =? 401)%Z || (status response =? 403)%Z
       then getMockCharacters
       else throw (Error ("POE API error: " ++ string_of_Z (status response)))
     else
       data <- response_json response ;;
       characters <- lift (get data "characters") ;;
       mret (VObj [
         ("characters", or_ characters (VArr []));
         ("isMockData", VBool false)]))
    (fun _ => getMockCharacters).

Definition fetchLeagues : M value :=
  try_catch
    (response <- fetch W (poe_request "/league") ;;
     if negb (ok response)
     then throw (Error ("League API error: " ++ string_of_Z (status response)))
     else
       data <- response_json response ;;
       leagues <- lift (get data "leagues") ;;
       mret (VObj [
         ("leagues", or_ leagues (VArr []));
         ("isMockData", VBool false)]))
    (fun _ => getMockLeagues).

Definition fetchAccountProfile : M value :=
  try_catch
    (response <- fetch W (poe_request "/profile") ;;
     if negb (ok response)
     then throw (Error ("Profile API error: " ++ string_of_Z (status response)))
     else
       data <- response_json response ;;
       name <- lift (get data "name") ;;
       mret (VObj [
         ("name", or_ name (VStr (poe2_accountName config)));
         ("realm", or_ (prop data "realm") (VStr (poe2_realm config)));
         ("isMockData", VBool false)]))
    (fun _ =>
       mret (VObj [
         ("name", VStr (poe2_accountName config));
         ("realm", VStr (poe2_realm config));
         ("isMockData", VBool true)])).

(** [league.id.includes(s)]: a string searches a substring, an array an
    element; anything else has no callable [includes]. *)
Definition id_includes (league : value) (s : string) : result bool :=
  id <~ get league "id" ;;
  match id with
  | VStr t => Ok (includes s t)
  | VArr items => Ok (array_includes s items)
  | VUndef | VNull =>
      Throw (TypeError ("Cannot read properties of " ++ describe id
                          ++ " (reading 'includes')"))
  | _ => Throw (TypeError "league.id.includes is not a function")
  end.

(** The callback of [leagues.find]: not Standard, Hardcore or SSF, and with
    rules. *)
Definition isChallengeLeague (league : value) : result bool :=
  standard <~ id_includes league "Standard" ;;
  if standard then Ok false else
  hardcore <~ id_includes league "Hardcore" ;;
  if hardcore then Ok false else
  ssf <~ id_includes league "SSF" ;;
  if ssf then Ok false else
  Ok (num_lt (of_Z 0)
        (to_number (platform W) (opt (prop league "rules") "length"))).

Definition getCurrentLeague (leagues : value) : result value :=
  match leagues with
  | VArr [] =>
      Ok (VObj [("name", VStr "Settlers"); ("type", VStr "Challenge League")])
  | VArr items =>
      (* Find the current challenge league (not Standard or Hardcore) *)
      challengeLeague <~ find_r isChallengeLeague items ;;
      Ok (or_ challengeLeague (at_index leagues 0))
  | _ =>
      Ok (VObj [("name", VStr "Settlers"); ("type", VStr "Challenge League")])
  end.

(** [fetchAllPOE2Data]: the three fetches of its [Promise.all], then the
    bundle. *)
Definition fetchAllPOE2Data : M value :=
  charactersData <- fetchCharacters ;;
  leaguesData <- fetchLeagues ;;
  profileData <- fetchAccountProfile ;;
  characters <- lift (get charactersData "characters") ;;
  leagues <- lift (get leaguesData "leagues") ;;
  currentLeague <- lift (getCurrentLeague (or_ leagues leaguesData)) ;;
  mret (VObj [
    ("account", profileData);
    ("characters", or_ characters charactersData);
    ("leagues", or_ leagues leaguesData);
    ("currentLeague", currentLeague);
    ("isMockData",
     or_ (prop charactersData "isMockData")
       (or_ (prop leaguesData "isMockData") (prop profileData "isMockData")))]).

End Service.

End Poe.

(* ================================================================= *)
(** ** NFTs: the Reservoir service *)

Module Nft.
Import Js Net.
Local Open Scope service_scope.
Local Open Scope string_scope.

Section Service.

Variable W : World.
Variable config : Config.

(** The callback of [(data.tokens || []).map]. *)
Definition nftOfToken (item : value) : result value :=
  token <~ get item "token" ;;
  let collection := opt token "collection" in
  Ok (VObj [
    ("contract", VObj [
       ("address", opt token "contract");
       ("name", opt collection "name")]);
    ("tokenId", opt token "tokenId");
    ("name", or_ (opt token "name")
               (VStr ("#" ++ to_string (platform W) (opt token "tokenId"))));
    ("description", opt token "description");
    ("image", VObj [
       ("cachedUrl", or_ (opt token "imageSmall") (opt token "image"));
       ("thumbnailUrl", opt token "imageSmall");
       ("originalUrl", opt token "image")]);
    ("collection", VObj [
       ("name", opt collection "name");
       ("slug", opt collection "slug")]);
    ("raw", item)]).

Definition zero_address : string := "0x0000000000000000000000000000000000000000".

Definition is_zero_address (address : value) : bool :=
  match address with
  | VStr a => a =? zero_address
  | _ => false
  end.

(** The request for one page of tokens (Reservoir API, no key required). *)
Definition page_request (address continuation : value) (limit : Z) : Request :=
  GET ("https://api.reservoir.tools/users/"
         ++ to_string (platform W) address ++ "/tokens/v10")
    (List.app [("limit", string_of_Z (Z.min limit 100));
               ("includeAttributes", "true")]
              (if truthy continuation
               then [("continuation", to_string (platform W) continuation)]
               else []))
    [("Accept", "application/json")].

Definition fetchNFTsForWallet (walletAddress continuation : value) (limit : Z)
  : M value :=
  let address := or_ walletAddress (VStr (wallet_address config)) in
  if negb (truthy address) || is_zero_address address
  then throw (Error "Wallet address is not configured. Please add your wallet address to config.js")
  else
    response <- fetch W (page_request address continuation limit) ;;
    if negb (ok response) then
      errorText <- response_text response ;;
      throw (Error ("Reservoir API error: " ++ string_of_Z (status response)
                      ++ " - " ++ errorText))
    else
      data <- response_json response ;;
      tokens <- lift (get data "tokens") ;;
      items <- lift (as_array (or_ tokens (VArr [])) "(data.tokens || []).map") ;;
      (* Transform Reservoir response to match our expected format *)
      nfts <- lift (map_r nftOfToken items) ;;
      mret (VObj [
        ("nfts", VArr nfts);
        ("continuation", or_ (prop data "continuation") VNull)]).

(** The items of [...xs]. *)
Definition items_of (xs : value) : list value :=
  match xs with
  | VArr items => items
  | _ => []
  end.

(** The [do ... while (continuation)] loop of [fetchAllNFTs]; [None] when
    [fuel] iterations did not reach its end. *)
Fixpoint collect (fuel : nat) (walletAddress : value) (maxNFTs : Z)
    (allNFTs : list value) (continuation : value) (s : State)
  : option (result (list value) * State) :=
  match fuel with
  | O => None
  | S fuel' =>
      match fetchNFTsForWallet walletAddress continuation 50 s with
      | (Throw e, s') => Some (Throw e, s')
      | (Ok result, s') =>
          let allNFTs' := List.app allNFTs (items_of (prop result "nfts")) in
          let continuation' := prop result "continuation" in
          (* Stop if we've reached the max limit *)
          if (maxNFTs <=? Z.of_nat (List.length allNFTs'))%Z
          then Some (Ok allNFTs', s')
          else if truthy continuation'
               then collect fuel' walletAddress maxNFTs allNFTs' continuation' s'
               else Some (Ok allNFTs', s')
      end
  end.

Definition fetchAllNFTs (fuel : nat) (walletAddress : value) (maxNFTs : Z)
    (s : State) : option (result (list value) * State) :=
  match collect fuel walletAddress maxNFTs [] VNull s with
  | Some (Ok allNFTs, s') => Some (Ok (slice allNFTs 0 maxNFTs), s')
  | other => other
  end.

(** [getOpenSeaUrl]: the asset page of an NFT, the site's front page when
    the contract address or the token id is missing. *)
Definition getOpenSeaUrl (nft : value) : result string :=
  contract <~ get nft "contract" ;;
  let contractAddress := opt contract "address" in
  let tokenId := prop nft "tokenId" in
  if negb (truthy contractAddress) || negb (truthy tokenId)
  then Ok "https://opensea.io"
  else Ok ("https://opensea.io/assets/ethereum/"
             ++ to_string (platform W) contractAddress ++ "/"
             ++ to_string (platform W) tokenId).

End Service.

(** [getNFTImageUrl]: the best available image URL of an NFT, cached or
    gateway URLs first; [null] when there is none. *)
Definition getNFTImageUrl (nft : value) : result value :=
  image <~ get nft "image" ;;
  if negb (truthy image) then Ok VNull
  else
    Ok (or_ (or_ (or_ (prop image "cachedUrl") (prop image "thumbnailUrl"))
               (prop image "originalUrl"))
          VNull).

End Nft.

(* ================================================================= *)
(** ** The World of Warcraft panel: [src/components/GameStats/WoWStats.jsx] *)

Module WoWStats.
Import Js Net.

(** The three [useState] cells of the component. *)
Record Component : Type := {
  data : value;
  loading : bool;
  error : value
}.

(** [useState(null)], [useState(true)], [useState(null)]. *)
Definition mounted : Component :=
  {| data := VNull; loading := true; error := VNull |}.

Section View.

Variable W : World.
Variable config : Config.

(** [loadData]: [setLoading(true); setError(null)], then
    [fetchAllWoWData()] under [try]/[catch]/[finally]. *)
Definition loadData (c : Component) (s : State) : Component * State :=
  match Blizzard.fetchAllWoWData W config s with
  | (Ok wowData, s') =>
      ({| data := wowData; loading := false; error := VNull |}, s')
  | (Throw err, s') =>
      ({| data := data c; loading := false;
          error := or_ (VStr (emessage err)) (VStr "Failed to load WoW data") |},
       s')
  end.

End View.

End WoWStats.

(* ================================================================= *)
(** ** Specification vocabulary *)

Module Spec.
Import Js Net.

(** The number a value holds, [NaN] for anything but a number. *)
Definition number_of (v : value) : num :=
  match v with
  | VNum n => n
  | _ => NaN
  end.

(** [a] may stand before [b] in non-increasing order of [playtimeMinutes]:
    both are numbers and that of [b] does not exceed that of [a]. *)
Definition playtime_ge (a b : value) : Prop :=
  num_le (number_of (prop b "playtimeMinutes"))
         (number_of (prop a "playtimeMinutes")) = true.

(** An upstream game entry whose [playtime_forever] is a number. *)
Definition has_numeric_playtime (game : value) : Prop :=
  exists q, prop game "playtime_forever" = VNum (Fin q).

(** The key of a mapped game: its [playtimeMinutes] when it is a number. *)
Definition minutes_of (game : value) : Q :=
  match prop game "playtimeMinutes" with
  | VNum (Fin q) => q
  | _ => 0%Q
  end.

(** The live path of [fetchOwnedGames]: credentials are valid and the
    upstream answers the request with a success status and a JSON body
    whose games list is [items]. *)
Definition owned_games_upstream (W : World) (config : Config) (s : State)
    (items : list value) : Prop :=
  Steam.hasValidCredentials config = true
  /\ exists response data,
       transport W (clock s) (Steam.owned_request config) = Responds response
       /\ ok response = true
       /\ json response = Json data
       /\ nullish data = false
       /\ or_ (opt (prop data "response") "games") (VArr []) = VArr items.


(** [v] without the properties named in [ks], at every depth. *)
Fixpoint scrub (ks : list string) (v : value) : value :=
  match v with
  | VArr items => VArr (map (scrub ks) items)
  | VObj fields =>
      VObj ((fix scrub_fields (fs : list (string * value)) :=
               match fs with
               | [] => []
               | (k, x) :: rest =>
                   if existsb (String.eqb k) ks then scrub_fields rest
                   else (k, scrub ks x) :: scrub_fields rest
               end) fields)
  | _ => v
  end.

(** The properties the mock datasets compute from [Date.now()]. *)
Definition timestamps : list string :=
  ["lastLogoff"; "lastPlayed"; "lastLogin"; "lastActive"].

(** The value a run completed with ([undefined] for a thrown exception). *)
Definition value_of {S : Type} (run : result value * S) : value :=
  match fst run with
  | Ok v => v
  | Throw _ => VUndef
  end.


(** *** The token cache of [blizzard.js] *)

(** The test [accessToken && Date.now() < tokenExpiry] at state [s]. *)
Definition cache_valid (s : State) : bool :=
  truthy (accessToken s) && num_lt (of_Z (clock s)) (tokenExpiry s).

Definition credentials_configured (config : Config) : Prop :=
  wow_clientId config <> "" /\ wow_clientSecret config <> "".

(** The token exchange started in state [s] succeeds: the upstream answers
    with a success status and a body carrying [access_token = token] and
    [expires_in = e] seconds. *)
Definition exchange_succeeds (W : World) (config : Config) (s : State)
    (token : value) (e : Q) : Prop :=
  exists response data,
    transport W (clock s) (Blizzard.token_request W config) = Responds response
    /\ ok response = true
    /\ json response = Json data
    /\ nullish data = false
    /\ prop data "access_token" = token
    /\ prop data "expires_in" = VNum (Fin e).



(** *** The fetch operations of the adapters and their failure modes *)





(** The Steam settings as the configuration gives them.  The key or the id
    is absent: the key is empty, the id is empty, or the id is a placeholder
    with ten zeros in a row. *)
Definition steam_credentials_missing (config : Config) : Prop :=
  steam_apiKey config = ""
  \/ steam_steamId config = ""
  \/ includes "0000000000" (steam_steamId config) = true.

(** Both are given: a key, and an id without ten zeros in a row. *)
Definition steam_credentials_given (config : Config) : Prop :=
  steam_apiKey config <> ""
  /\ steam_steamId config <> ""
  /\ includes "0000000000" (steam_steamId config) = false.










(** *** Paged upstreams of the NFT service *)

(** What [nftOfToken] makes of an upstream item ([undefined] where it
    throws). *)
Definition nft_view (W : World) (item : value) : value :=
  match Nft.nftOfToken W item with
  | Ok nft => nft
  | Throw _ => VUndef
  end.

(** The body of the page that starts at offset [k] of [tokens], [size] items
    per page: its items, and the cursor of the next page unless the listing
    ends here. *)
Definition page_body (tokens : list value) (size : nat) (cursor : nat -> value)
    (k : nat) (data : value) : Prop :=
  nullish data = false
  /\ prop data "tokens" = VArr (firstn size (skipn k tokens))
  /\ (k + size < List.length tokens ->
      prop data "continuation" = cursor (k + size))
  /\ (List.length tokens <= k + size ->
      truthy (prop data "continuation") = false).

(** [W] serves the listing [tokens] of the configured wallet in pages of
    [size] items: asked without continuation it sends the first page, asked
    with [cursor k] the page at offset [k]. *)
Definition continuation_at (cursor : nat -> value) (k : nat) : value :=
  if (k =? 0)%nat then VNull else cursor k.

Definition serves_pages (W : World) (config : Config) (tokens : list value)
    (size : nat) (cursor : nat -> value) : Prop :=
  (forall k, 0 < k -> truthy (cursor k) = true)
  /\ forall (t : Z) (k : nat),
       exists response data,
         transport W t
           (Nft.page_request W (VStr (wallet_address config))
              (continuation_at cursor k) 50)
         = Responds response
         /\ ok response = true
         /\ json response = Json data
         /\ page_body tokens size cursor k data.

Definition wallet_configured (config : Config) : Prop :=
  wallet_address config <> "" /\ wallet_address config <> Nft.zero_address.


(** *** Root shapes *)

(** [data] carries none of the properties [ks]. *)
Definition lacks (data : value) (ks : list string) : Prop :=
  Forall (fun k => prop data k = VUndef) ks.

(** The root properties [fetchCharacterProfile] reads. *)
Definition profile_root : list string :=
  ["name"; "realm"; "character_class"; "race"; "level"; "faction";
   "equipped_item_level"; "average_item_level"; "guild";
   "last_login_timestamp"].


(** *** The schemas of the bundles *)

(** [v] is an object whose properties are exactly [ks], in that order. *)
Definition has_keys (ks : list string) (v : value) : Prop :=
  exists fields, v = VObj fields /\ map fst fields = ks.

(** The properties [ks] of [v] are set ([null] counts as set). *)
Definition sets (ks : list string) (v : value) : Prop :=
  Forall (fun k => prop v k <> VUndef) ks.

(** [v] is an array whose items all satisfy [P]. *)
Definition array_of (P : value -> Prop) (v : value) : Prop :=
  exists items, v = VArr items /\ Forall P items.

Definition is_boolean (v : value) : Prop := exists b, v = VBool b.

(** Steam. *)
Definition steam_profile (v : value) : Prop :=
  has_keys ["steamId"; "personaName"; "avatarUrl"; "profileUrl";
            "personaState"; "lastLogoff"; "timeCreated"; "realName";
            "countryCode"; "level"] v
  /\ sets ["level"] v.

Definition owned_game (v : value) : Prop :=
  has_keys ["appId"; "name"; "playtimeMinutes"; "playtimeHours";
            "playtime2Weeks"; "iconUrl"; "logoUrl"; "lastPlayed"] v
  /\ sets ["playtimeHours"; "playtime2Weeks"; "iconUrl"; "logoUrl"] v.

Definition recent_game (v : value) : Prop :=
  has_keys ["appId"; "name"; "playtimeMinutes"; "playtimeHours";
            "playtime2WeeksMinutes"; "playtime2WeeksHours"; "iconUrl";
            "logoUrl"] v
  /\ sets ["playtimeHours"; "playtime2WeeksHours"; "iconUrl"; "logoUrl"] v.

Definition games_list (game : value -> Prop) (v : value) : Prop :=
  has_keys ["totalCount"; "games"] v
  /\ sets ["totalCount"] v
  /\ array_of game (prop v "games").

Definition steam_bundle (v : value) : Prop :=
  has_keys ["profile"; "ownedGames"; "recentGames"; "isMockData"] v
  /\ steam_profile (prop v "profile")
  /\ games_list owned_game (prop v "ownedGames")
  /\ games_list recent_game (prop v "recentGames")
  /\ is_boolean (prop v "isMockData").

(** World of Warcraft. *)
Definition wow_profile (v : value) : Prop :=
  has_keys ["name"; "realm"; "class"; "race"; "level"; "faction";
            "itemLevel"; "averageItemLevel"; "guild"; "lastLogin"] v
  /\ sets ["realm"; "class"; "race"; "level"; "faction"; "itemLevel";
           "averageItemLevel"; "guild"] v.

Definition best_run (v : value) : Prop :=
  has_keys ["dungeon"; "level"; "completedInTime"; "duration"; "affixes"] v
  /\ sets ["dungeon"; "level"; "completedInTime"; "duration"] v
  /\ array_of (fun _ => True) (prop v "affixes").

Definition mythic_plus (v : value) : Prop :=
  has_keys ["rating"; "ratingColor"; "bestRuns"] v
  /\ sets ["rating"; "ratingColor"] v
  /\ array_of best_run (prop v "bestRuns").

Definition raid_mode (v : value) : Prop :=
  has_keys ["difficulty"; "status"; "progress"] v
  /\ sets ["difficulty"; "status"; "progress"] v.

Definition raid (v : value) : Prop :=
  has_keys ["name"; "modes"] v
  /\ sets ["name"] v
  /\ array_of raid_mode (prop v "modes").

Definition raid_progress (v : value) : Prop :=
  has_keys ["expansionName"; "raids"] v
  /\ sets ["expansionName"] v
  /\ array_of raid (prop v "raids").

Definition wow_bundle (v : value) : Prop :=
  has_keys ["profile"; "mythicPlus"; "raids"; "isMockData"] v
  /\ wow_profile (prop v "profile")
  /\ mythic_plus (prop v "mythicPlus")
  /\ raid_progress (prop v "raids")
  /\ is_boolean (prop v "isMockData").

(** Path of Exile. *)
Definition poe_account (v : value) : Prop :=
  has_keys ["name"; "realm"; "isMockData"] v
  /\ sets ["name"; "realm"] v
  /\ is_boolean (prop v "isMockData").

Definition poe_bundle (v : value) : Prop :=
  has_keys ["account"; "characters"; "leagues"; "currentLeague"; "isMockData"] v
  /\ poe_account (prop v "account")
  /\ sets ["characters"; "leagues"; "currentLeague"] v
  /\ is_boolean (prop v "isMockData").


(** *** Further vocabulary: the token exchange *)

(** The token exchange started in state [s] fails: no answer, an answer
    that is not a success, a body that does not parse, or a body that is
    [null]. *)
Definition exchange_fails (W : World) (config : Config) (s : State) : Prop :=
  match transport W (clock s) (Blizzard.token_request W config) with
  | NetworkFailure _ => True
  | Responds response =>
      ok response = false
      \/ (ok response = true
          /\ match json response with
             | Unparsable _ => True
             | Json data => nullish data = true
             end)
  end.


(** The live path of [fetchRecentGames]: credentials are valid and the
    upstream answers the request with a success status and a JSON body
    whose [response] is [listing], with games list [items]. *)
Definition recent_games_upstream (W : World) (config : Config) (count : Z)
    (s : State) (listing : value) (items : list value) : Prop :=
  Steam.hasValidCredentials config = true
  /\ exists response data,
       transport W (clock s) (Steam.recent_request config count) = Responds response
       /\ ok response = true
       /\ json response = Json data
       /\ nullish data = false
       /\ prop data "response" = listing
       /\ or_ (opt listing "games") (VArr []) = VArr items.

End Spec.

(* ================================================================= *)
(** ** Concrete platforms, configurations and upstreams *)

Module Fixtures.
Import Js Net.
Local Open Scope string_scope.

(** A host for the examples: its [btoa] is the identity, it reads no string
    as a number and renders no fraction. *)
Definition host : Platform :=
  {| NumberToString := fun _ => "?";
     StringToNumber := fun _ => NaN;
     btoa := fun s => s |}.

Definition configured : Config :=
  {| steam_steamId := "76561198012345678";
     steam_apiKey := "0123456789ABCDEF";
     wow_clientId := "client";
     wow_clientSecret := "secret";
     wow_region := "us";
     wow_realm := "area-52";
     wow_characterName := "Thrall";
     poe2_accountName := "Exile";
     poe2_realm := "pc";
     wallet_address := "0x1111111111111111111111111111111111111111";
     apis_steam := "https://api.steampowered.com";
     apis_blizzard := "https://us.api.blizzard.com";
     apis_poe := "https://api.pathofexile.com" |}.

(** Nothing filled in: the placeholder Steam id, no key, no client, the zero
    wallet. *)
Definition unconfigured : Config :=
  {| steam_steamId := "76561198000000000";
     steam_apiKey := "";
     wow_clientId := "";
     wow_clientSecret := "";
     wow_region := "us";
     wow_realm := "";
     wow_characterName := "";
     poe2_accountName := "";
     poe2_realm := "pc";
     wallet_address := "0x0000000000000000000000000000000000000000";
     apis_steam := "https://api.steampowered.com";
     apis_blizzard := "https://us.api.blizzard.com";
     apis_poe := "https://api.pathofexile.com" |}.

(** [configured] with other Steam settings. *)
Definition with_steam (key id : string) : Config :=
  {| steam_steamId := id;
     steam_apiKey := key;
     wow_clientId := wow_clientId configured;
     wow_clientSecret := wow_clientSecret configured;
     wow_region := wow_region configured;
     wow_realm := wow_realm configured;
     wow_characterName := wow_characterName configured;
     poe2_accountName := poe2_accountName configured;
     poe2_realm := poe2_realm configured;
     wallet_address := wallet_address configured;
     apis_steam := apis_steam configured;
     apis_blizzard := apis_blizzard configured;
     apis_poe := apis_poe configured |}.

Definition reply (code : Z) (reason : string) (parsed : Parsed) : Response :=
  {| status := code; statusText := reason; text := ""; json := parsed |}.

(** A world whose upstream is the function [serve] of the request, every
    exchange taking [delay] milliseconds. *)
Definition world_of (serve : Request -> Outcome) (delay : Z) : World :=
  {| platform := host;
     transport := fun _ req => serve req;
     latency := fun _ _ => delay |}.

Definition upstreamGame (appid : Z) (name : string) (minutes : Z) : value :=
  VObj [("appid", vint appid); ("name", VStr name);
        ("playtime_forever", vint minutes)].

(** A Steam upstream that answers every request with three owned games. *)
Definition steam_three_games : World :=
  world_of (fun _ =>
    Responds (reply 200 "OK" (Json (VObj [
      ("response", VObj [
         ("game_count", vint 3);
         ("games", VArr [
            upstreamGame 570 "Dota 2" 7200;
            upstreamGame 730 "Counter-Strike 2" 18420;
            upstreamGame 413150 "Stardew Valley" 3600])])])))) 25.


(** A state met later in a session: a token is cached and one request has
    been issued. *)
Definition warmed (now : Z) : State :=
  {| clock := now;
     accessToken := VStr "cached-token";
     tokenExpiry := of_Z (now + 1000);
     requests := [GET "https://us.battle.net/oauth/token" [] []] |}.


(** A Blizzard upstream: the token endpoint grants [token-1] for a day, any
    other request is answered with [data]. *)
Definition granted : value :=
  VObj [("access_token", VStr "token-1"); ("token_type", VStr "bearer");
        ("expires_in", vint 86399)].

Definition blizzard_granting (data : Response) : World :=
  world_of (fun req =>
    if String.eqb (method req) "POST"
    then Responds (reply 200 "OK" (Json granted))
    else Responds data) 40.

(** An upstream that answers every request with the same response. *)
Definition always (response : Response) : World :=
  world_of (fun _ => Responds response) 40.

(** An upstream that cannot be reached. *)
Definition unreachable : World :=
  world_of (fun _ => NetworkFailure "Failed to fetch") 40.


(** A fake paged source: the cursor of offset [k] is a string of [k]
    letters, and the page served is the one at the offset the request's
    [continuation] parameter spells. *)
Fixpoint unary (k : nat) : string :=
  match k with
  | O => ""
  | S k' => String "c" (unary k')
  end.

Definition cursor (k : nat) : value := VStr (unary k).

Fixpoint query_param (name : string) (q : list (string * string))
  : option string :=
  match q with
  | [] => None
  | (k, v) :: rest => if String.eqb name k then Some v else query_param name rest
  end.

Definition offset_of (req : Request) : nat :=
  match query_param "continuation" (query req) with
  | Some c => String.length c
  | None => 0
  end.

Definition page (tokens : list value) (size k : nat) : value :=
  VObj [
    ("tokens", VArr (firstn size (skipn k tokens)));
    ("continuation",
     if (k + size <? List.length tokens)%nat then cursor (k + size) else VNull)].

Definition paged_source (tokens : list value) (size : nat) : World :=
  world_of (fun req =>
    Responds (reply 200 "OK" (Json (page tokens size (offset_of req))))) 30.

(** [n] upstream items, numbered from [first]. *)
Fixpoint numbered_tokens (first : Z) (n : nat) : list value :=
  match n with
  | O => []
  | S n' =>
      VObj [("token", VObj [
               ("contract", VStr "0xabc");
               ("tokenId", VStr (string_of_Z first))])]
      :: numbered_tokens (first + 1) n'
  end.


(** A Steam upstream that answers every request with one body carrying a
    player without [realname], [loccountrycode] or [lastlogoff], a level and
    two games. *)
Definition steam_live : World :=
  world_of (fun _ =>
    Responds (reply 200 "OK" (Json (VObj [
      ("response", VObj [
         ("players", VArr [
            VObj [("steamid", VStr "76561198012345678");
                  ("personaname", VStr "Player One");
                  ("avatarfull", VStr "https://avatars.steamstatic.com/a_full.jpg");
                  ("profileurl", VStr "https://steamcommunity.com/id/one/");
                  ("personastate", vint 1);
                  ("timecreated", vint 1293753600)]]);
         ("player_level", vint 17);
         ("game_count", vint 2);
         ("total_count", vint 2);
         ("games", VArr [
            upstreamGame 413150 "Stardew Valley" 3600;
            upstreamGame 730 "Counter-Strike 2" 18420])])])))) 25.


(** A state whose cached token expired a second ago. *)
Definition stale (now : Z) : State :=
  {| clock := now;
     accessToken := VStr "old-token";
     tokenExpiry := of_Z (now - 1000);
     requests := [] |}.

(** A Blizzard upstream that grants tokens for two minutes only. *)
Definition blizzard_brief : World :=
  world_of (fun _ =>
    Responds (reply 200 "OK" (Json (VObj [
      ("access_token", VStr "brief"); ("expires_in", vint 120)])))) 40.


(** A Blizzard upstream whose Mythic+ profile lists seven runs. *)
Definition keystoneRun (name : string) (level : Z) : value :=
  VObj [("dungeon", VObj [("name", VStr name)]);
        ("keystone_level", vint level);
        ("is_completed_within_time", VBool true);
        ("duration", vint 1500000);
        ("keystone_affixes", VArr [VObj [("name", VStr "Fortified")]])].

Definition blizzard_seven_runs : World :=
  blizzard_granting (reply 200 "OK" (Json (VObj [
    ("mythic_rating", VObj [("rating", vint 2510)]);
    ("best_runs", VArr [
       keystoneRun "Ara-Kara" 12; keystoneRun "The Stonevault" 12;
       keystoneRun "The Dawnbreaker" 11; keystoneRun "City of Threads" 11;
       keystoneRun "Grim Batol" 10; keystoneRun "Siege of Boralus" 10;
       keystoneRun "The Necrotic Wake" 9])]))).


(** A Blizzard upstream whose raid encounters list two expansions. *)
Definition raidsBody : value :=
  VObj [("expansions", VArr [
    VObj [("expansion", VObj [("name", VStr "Dragonflight")]);
          ("instances", VArr [
             VObj [("instance", VObj [("name", VStr "Vault of the Incarnates")]);
                   ("modes", VArr [])]])];
    VObj [("expansion", VObj [("name", VStr "The War Within")]);
          ("instances", VArr [
             VObj [("instance", VObj [("name", VStr "Nerub-ar Palace")]);
                   ("modes", VArr [
                      VObj [("difficulty", VObj [("name", VStr "Heroic")]);
                            ("status", VObj [("type", VStr "COMPLETE")]);
                            ("progress", VObj [("completed_count", vint 8);
                                               ("total_count", vint 8)])]])]])]])].

Definition blizzard_two_expansions : World :=
  blizzard_granting (reply 200 "OK" (Json raidsBody)).

End Fixtures.

(* ================================================================= *)
(** ** Properties *)

Import Js Net.

(** Reduce the [if]s and [match]es a rewrite has decided. *)
Ltac decide_branch := cbv beta iota zeta; cbn [negb andb orb]; cbv beta iota.


(** *** Generic facts: the result monad, [map_r], [sort] *)

Lemma map_r_total {A B} (f : A -> result B) (xs : list A) :
  Forall (fun x => exists y, f x = Ok y) xs ->
  exists ys, map_r f xs = Ok ys /\ Forall2 (fun x y => f x = Ok y) xs ys.
Proof.
  induction 1 as [|x rest [y Hy] _ [ys [Hys Hall]]].
  - exists []. split; [reflexivity | constructor].
  - exists (y :: ys). simpl. rewrite Hy. simpl. rewrite Hys. simpl.
    split; [reflexivity | constructor; assumption].
Qed.

Lemma map_r_inv {A B} (f : A -> result B) (xs : list A) (ys : list B) :
  map_r f xs = Ok ys -> Forall2 (fun x y => f x = Ok y) xs ys.
Proof.
  revert ys. induction xs as [|x rest IH]; simpl; intros ys H.
  - inversion H. constructor.
  - destruct (f x) as [y|e] eqn:Hx; simpl in H; [|discriminate].
    destruct (map_r f rest) as [ys'|e] eqn:Hr; simpl in H; [|discriminate].
    inversion H; subst. constructor; auto.
Qed.

Section SortFacts.

Context {A : Type} (cmp : A -> A -> num) (key : A -> Q) (good : A -> Prop).

(** On good elements the comparator is the difference of the keys, as in
    [(a, b) => key(b) - key(a)]. *)
Hypothesis cmp_key :
  forall x y, good x -> good y -> cmp x y = Fin (key y - key x)%Q.

Let ge (a b : A) : Prop := (key b <= key a)%Q.

Lemma insert_perm (x : A) (l : list A) : Permutation (x :: l) (insert cmp x l).
Proof.
  induction l as [|y rest IH]; simpl.
  - apply Permutation_refl.
  - destruct (before cmp x y).
    + apply Permutation_refl.
    + eapply perm_trans; [apply perm_swap|]. apply perm_skip, IH.
Qed.

Lemma sort_perm (l : list A) : Permutation l (sort cmp l).
Proof.
  induction l as [|x rest IH]; simpl.
  - constructor.
  - eapply perm_trans; [apply perm_skip, IH | apply insert_perm].
Qed.

Lemma insert_good (x : A) (l : list A) :
  good x -> Forall good l -> Forall good (insert cmp x l).
Proof.
  intros Hx Hl.
  eapply Permutation_Forall; [apply insert_perm|]. constructor; assumption.
Qed.

Lemma before_spec (x y : A) :
  good x -> good y -> before cmp x y = true <-> ge x y.
Proof.
  intros Hx Hy. unfold before, ge. rewrite (cmp_key x y Hx Hy).
  rewrite Qle_bool_iff. split; intro H; lra.
Qed.

Lemma insert_sorted (x : A) (l : list A) :
  good x -> Forall good l ->
  StronglySorted ge l -> StronglySorted ge (insert cmp x l).
Proof.
  intros Hx Hl Hs. induction Hs as [|y rest Hrest IH Hy]; simpl.
  - constructor; constructor.
  - inversion Hl as [|? ? Hgy Hgrest]; subst.
    destruct (before cmp x y) eqn:Hb.
    + apply before_spec in Hb; try assumption.
      constructor; [constructor; assumption|].
      constructor; [exact Hb|].
      eapply Forall_impl; [|exact Hy]. unfold ge in *. intros z Hz. lra.
    + constructor; [apply IH; assumption|].
      assert (Hxy : ge y x).
      { unfold ge. destruct (Qlt_le_dec (key y) (key x)) as [Hlt|Hle]; [|exact Hle].
        exfalso. assert (before cmp x y = true) as Habs.
        { apply before_spec; try assumption. unfold ge. lra. }
        congruence. }
      eapply Permutation_Forall; [apply insert_perm|].
      constructor; assumption.
Qed.

Lemma sort_sorted (l : list A) :
  Forall good l -> StronglySorted ge (sort cmp l) /\ Forall good (sort cmp l).
Proof.
  induction 1 as [|x rest Hx Hrest [IHs IHg]]; simpl.
  - split; constructor.
  - split; [apply insert_sorted | apply insert_good]; assumption.
Qed.

End SortFacts.

(** *** Steam: owned games come sorted *)

Lemma ownedGame_playtime (W : World) (game mapped : value) :
  Steam.ownedGame W game = Ok mapped ->
  prop mapped "playtimeMinutes" = prop game "playtime_forever".
Proof.
  unfold Steam.ownedGame, get. destruct (nullish game); simpl; [discriminate|].
  intro H. inversion H. reflexivity.
Qed.

Lemma numeric_playtime_mapped (W : World) (game : value) :
  Spec.has_numeric_playtime game -> exists mapped, Steam.ownedGame W game = Ok mapped.
Proof.
  intros [q Hq]. unfold Steam.ownedGame, get.
  destruct game; simpl in Hq; try discriminate. simpl. eauto.
Qed.

Lemma byPlaytime_minutes (W : World) (a b : value) :
  (exists q, prop a "playtimeMinutes" = VNum (Fin q)) ->
  (exists q, prop b "playtimeMinutes" = VNum (Fin q)) ->
  Steam.byPlaytime W a b = Fin (Spec.minutes_of b - Spec.minutes_of a)%Q.
Proof.
  intros [p Hp] [q Hq]. unfold Steam.byPlaytime, js_sub, Spec.minutes_of.
  rewrite Hp, Hq. reflexivity.
Qed.

(** Any two entries of a sorted list are related, one way or the other. *)
Lemma sorted_comparable {A} (R : A -> A -> Prop) (l : list A) :
  StronglySorted R l ->
  forall x y, In x l -> In y l -> x = y \/ R x y \/ R y x.
Proof.
  induction 1 as [|a rest _ IH Hall]; intros x y Hx Hy; [contradiction Hx|].
  rewrite Forall_forall in Hall.
  destruct Hx as [<- | Hx], Hy as [<- | Hy].
  - left. reflexivity.
  - right. left. apply Hall. exact Hy.
  - right. right. apply Hall. exact Hx.
  - apply IH; assumption.
Qed.

(** C10, as stated, fails: [playtime_forever] is copied without a default,
    so for the upstream list [1, (none), 2] the comparator answers [NaN]
    next to the entry without playtime and the games come back in the order
    1, undefined, 2.  No arrangement of these games is in non-increasing
    order of [playtimeMinutes], whatever the sorting algorithm. *)
Lemma fetchOwnedGames_unsorted_without_playtime :
  let W :=
    Fixtures.always
      (Fixtures.reply 200 "OK"
         (Json (VObj [("response", VObj [("games", VArr [
            Fixtures.upstreamGame 10 "Portal" 1;
            VObj [("appid", vint 20); ("name", VStr "Braid")];
            Fixtures.upstreamGame 30 "Hades" 2])])]))) in
  exists games s',
    Steam.fetchOwnedGames W Fixtures.configured (initial 0)
    = (Ok (VObj [("totalCount", vint 3); ("games", VArr games)]), s')
    /\ map (fun game => prop game "playtimeMinutes") games
       = [vint 1; VUndef; vint 2]
    /\ forall arrangement,
         Permutation games arrangement ->
         ~ StronglySorted Spec.playtime_ge arrangement.
Proof.
  cbv zeta. eexists. eexists. split; [vm_compute; reflexivity|].
  split; [reflexivity|].
  intros arrangement Hperm Hsorted.
  match type of Hperm with
  | Permutation (?first :: ?second :: _) _ =>
      destruct (sorted_comparable _ _ Hsorted first second) as [H | [H | H]];
        [ eapply Permutation_in; [exact Hperm | left; reflexivity]
        | eapply Permutation_in; [exact Hperm | right; left; reflexivity]
        | discriminate H
        | vm_compute in H; discriminate H
        | vm_compute in H; discriminate H ]
  end.
Qed.

(** C10, amended.  On the live path of [fetchOwnedGames], whatever the games
    list the upstream sends, provided each entry carries a numeric
    [playtime_forever], the call returns the mapped games, rearranged into
    non-increasing order of [playtimeMinutes]. *)
Theorem fetchOwnedGames_sorted_by_playtime :
  forall (W : World) (config : Config) (s : State) (items : list value),
    Spec.owned_games_upstream W config s items ->
    Forall Spec.has_numeric_playtime items ->
    exists totalCount games mapped s',
      Steam.fetchOwnedGames W config s
        = (Ok (VObj [("totalCount", totalCount); ("games", VArr games)]), s')
      /\ StronglySorted Spec.playtime_ge games
      /\ map_r (Steam.ownedGame W) items = Ok mapped
      /\ Permutation mapped games.
Proof.
  intros W config s items (Hcred & response & data & Ht & Hok & Hjson & Hdata & Hgames) Hnum.
  destruct (map_r_total (Steam.ownedGame W) items) as [mapped [Hmap Hall]].
  { eapply Forall_impl; [|exact Hnum]. intros g Hg.
    apply numeric_playtime_mapped. exact Hg. }
  assert (Hgood : Forall (fun g => exists q, prop g "playtimeMinutes" = VNum (Fin q)) mapped).
  { clear - Hall Hnum. revert Hnum.
    induction Hall as [|g m gs ms Hgm _ IH]; intros Hnum.
    - constructor.
    - inversion Hnum as [|? ? [q Hq] Hrest]; subst.
      constructor; [|apply IH; assumption].
      exists q. rewrite (ownedGame_playtime W g m Hgm). exact Hq. }
  destruct (sort_sorted (Steam.byPlaytime W) Spec.minutes_of _
              (byPlaytime_minutes W) mapped Hgood) as [Hsorted Hgood'].
  eexists _, (sort (Steam.byPlaytime W) mapped), mapped, _.
  split; [|split; [|split]].
  - unfold Steam.fetchOwnedGames. rewrite Hcred. simpl.
    unfold try_catch, mbind, fetch. rewrite Ht, Hok. simpl.
    unfold response_json. rewrite Hjson. unfold mret, lift, get.
    rewrite Hdata. rewrite Hgames. simpl. rewrite Hmap. reflexivity.
  - clear - Hsorted Hgood'.
    induction Hsorted as [|g rest Hrest IH Hg]; constructor.
    + inversion Hgood'; subst. apply IH; assumption.
    + inversion Hgood' as [|? ? [p Hp] Hrest']; subst.
      rewrite Forall_forall in *. intros b Hb.
      destruct (Hrest' b Hb) as [q Hq]. specialize (Hg b Hb).
      unfold Spec.playtime_ge, Spec.minutes_of in *. rewrite Hp, Hq in *.
      simpl. apply Qle_bool_iff. exact Hg.
  - exact Hmap.
  - apply sort_perm.
Qed.

Lemma fetchOwnedGames_sorted_by_playtime_witness :
  Spec.owned_games_upstream Fixtures.steam_three_games Fixtures.configured
    (initial 1700000000000)
    [Fixtures.upstreamGame 570 "Dota 2" 7200;
     Fixtures.upstreamGame 730 "Counter-Strike 2" 18420;
     Fixtures.upstreamGame 413150 "Stardew Valley" 3600]
  /\ exists totalCount games mapped s',
      Steam.fetchOwnedGames Fixtures.steam_three_games Fixtures.configured
          (initial 1700000000000)
        = (Ok (VObj [("totalCount", totalCount); ("games", VArr games)]), s')
      /\ StronglySorted Spec.playtime_ge games
      /\ map_r (Steam.ownedGame Fixtures.steam_three_games)
           [Fixtures.upstreamGame 570 "Dota 2" 7200;
            Fixtures.upstreamGame 730 "Counter-Strike 2" 18420;
            Fixtures.upstreamGame 413150 "Stardew Valley" 3600] = Ok mapped
      /\ Permutation mapped games.
Proof.
  assert (Hup : Spec.owned_games_upstream Fixtures.steam_three_games
                  Fixtures.configured (initial 1700000000000)
                  [Fixtures.upstreamGame 570 "Dota 2" 7200;
                   Fixtures.upstreamGame 730 "Counter-Strike 2" 18420;
                   Fixtures.upstreamGame 413150 "Stardew Valley" 3600]).
  { split; [reflexivity|]. do 2 eexists.
    repeat split; reflexivity. }
  split; [exact Hup|].
  apply (fetchOwnedGames_sorted_by_playtime _ _ _ _ Hup).
  repeat constructor; eexists; reflexivity.
Defined.

(** *** The mock datasets and the clock *)

(** C9, as stated, fails: two invocations of [getMockCharacterProfile] one
    millisecond apart return different values. *)
Lemma mock_profile_depends_on_clock :
  fst (Blizzard.getMockCharacterProfile Fixtures.configured (initial 0))
    = Ok (VObj [
        ("name", VStr "Thrall"); ("realm", VStr "area-52");
        ("class", VStr "Death Knight"); ("race", VStr "Blood Elf");
        ("level", vint 80); ("faction", VStr "Horde");
        ("itemLevel", vint 623); ("averageItemLevel", vint 625);
        ("guild", VStr "Sample Guild"); ("lastLogin", vint 0)])
  /\ fst (Blizzard.getMockCharacterProfile Fixtures.configured (initial 1))
    = Ok (VObj [
        ("name", VStr "Thrall"); ("realm", VStr "area-52");
        ("class", VStr "Death Knight"); ("race", VStr "Blood Elf");
        ("level", vint 80); ("faction", VStr "Horde");
        ("itemLevel", vint 623); ("averageItemLevel", vint 625);
        ("guild", VStr "Sample Guild"); ("lastLogin", vint 1)])
  /\ fst (Blizzard.getMockCharacterProfile Fixtures.configured (initial 0))
     <> fst (Blizzard.getMockCharacterProfile Fixtures.configured (initial 1)).
Proof.
  split; [reflexivity|]. split; [reflexivity|].
  intro H. vm_compute in H. discriminate H.
Qed.

(** C9, amended.  A mock dataset function performs no I/O and leaves the
    state alone; those that never read the clock return the same value at
    any two times; the others return the same value at equal clock readings
    and, at any two times, values that differ only in their timestamp
    properties ([lastLogoff], [lastPlayed], [lastLogin], [lastActive]). *)
Theorem mock_data_deterministic_up_to_clock :
  forall (config : Config) (s1 s2 : State),
    (* no I/O, no effect *)
    (snd (Steam.getMockPlayerSummary s1) = s1
     /\ snd (Steam.getMockSteamLevel s1) = s1
     /\ snd (Steam.getMockOwnedGames s1) = s1
     /\ snd (Steam.getMockRecentGames s1) = s1
     /\ snd (Blizzard.getMockCharacterProfile config s1) = s1
     /\ snd (Blizzard.getMockMythicPlusProfile s1) = s1
     /\ snd (Blizzard.getMockRaidProgress s1) = s1
     /\ snd (Poe.getMockCharacters s1) = s1
     /\ snd (Poe.getMockLeagues s1) = s1)
    (* the clock-free datasets *)
    /\ (fst (Steam.getMockSteamLevel s1) = fst (Steam.getMockSteamLevel s2)
        /\ fst (Steam.getMockRecentGames s1) = fst (Steam.getMockRecentGames s2)
        /\ fst (Blizzard.getMockMythicPlusProfile s1)
           = fst (Blizzard.getMockMythicPlusProfile s2)
        /\ fst (Blizzard.getMockRaidProgress s1)
           = fst (Blizzard.getMockRaidProgress s2)
        /\ fst (Poe.getMockLeagues s1) = fst (Poe.getMockLeagues s2))
    (* the clock-reading datasets, timestamps apart *)
    /\ (Spec.scrub Spec.timestamps (Spec.value_of (Steam.getMockPlayerSummary s1))
        = Spec.scrub Spec.timestamps (Spec.value_of (Steam.getMockPlayerSummary s2))
        /\ Spec.scrub Spec.timestamps (Spec.value_of (Steam.getMockOwnedGames s1))
           = Spec.scrub Spec.timestamps (Spec.value_of (Steam.getMockOwnedGames s2))
        /\ Spec.scrub Spec.timestamps
             (Spec.value_of (Blizzard.getMockCharacterProfile config s1))
           = Spec.scrub Spec.timestamps
               (Spec.value_of (Blizzard.getMockCharacterProfile config s2))
        /\ Spec.scrub Spec.timestamps (Spec.value_of (Poe.getMockCharacters s1))
           = Spec.scrub Spec.timestamps (Spec.value_of (Poe.getMockCharacters s2)))
    (* the clock-reading datasets, at equal clock readings *)
    /\ (clock s1 = clock s2 ->
        fst (Steam.getMockPlayerSummary s1) = fst (Steam.getMockPlayerSummary s2)
        /\ fst (Steam.getMockOwnedGames s1) = fst (Steam.getMockOwnedGames s2)
        /\ fst (Blizzard.getMockCharacterProfile config s1)
           = fst (Blizzard.getMockCharacterProfile config s2)
        /\ fst (Poe.getMockCharacters s1) = fst (Poe.getMockCharacters s2)).
Proof.
  intros config s1 s2.
  split; [repeat split|].
  split; [repeat split|].
  split.
  - repeat split.
  - intro Hclock.
    unfold Steam.getMockPlayerSummary, Steam.getMockOwnedGames,
      Blizzard.getMockCharacterProfile, Poe.getMockCharacters,
      mbind, Date_now, mret.
    simpl. rewrite Hclock. repeat split.
Qed.

Lemma mock_data_deterministic_up_to_clock_witness :
  clock (initial 5) = clock (Fixtures.warmed 5)
  /\ fst (Poe.getMockCharacters (initial 5))
     = fst (Poe.getMockCharacters (Fixtures.warmed 5)).
Proof.
  split; [reflexivity|].
  apply (mock_data_deterministic_up_to_clock Fixtures.configured
           (initial 5) (Fixtures.warmed 5)).
  reflexivity.
Defined.

(** *** Blizzard: the access token *)

(** The guard of the Steam fetches, read off the configuration. *)
Lemma steam_missing_invalid (config : Config) :
  Spec.steam_credentials_missing config ->
  Steam.hasValidCredentials config = false.
Proof.
  unfold Spec.steam_credentials_missing, Steam.hasValidCredentials,
    Steam.API_KEY, Steam.STEAM_ID.
  intros [Hkey | [Hid | Hzeros]].
  - rewrite Hkey. reflexivity.
  - rewrite Hid.
    destruct (negb (steam_apiKey config =? "")),
      (0 <? String.length (steam_apiKey config))%nat; reflexivity.
  - rewrite Hzeros. cbn [negb]. apply andb_false_r.
Qed.

Lemma steam_given_valid (config : Config) :
  Spec.steam_credentials_given config ->
  Steam.hasValidCredentials config = true.
Proof.
  unfold Spec.steam_credentials_given, Steam.hasValidCredentials,
    Steam.API_KEY, Steam.STEAM_ID.
  intros (Hkey & Hid & Hzeros).
  rewrite Hzeros. apply String.eqb_neq in Hid. rewrite Hid.
  destruct (steam_apiKey config) as [|c rest]; [contradiction Hkey; reflexivity|].
  reflexivity.
Qed.

Lemma configured_guard (config : Config) :
  Spec.credentials_configured config ->
  (wow_clientId config =? "") || (wow_clientSecret config =? "") = false.
Proof.
  intros [Hid Hsecret].
  apply String.eqb_neq in Hid. apply String.eqb_neq in Hsecret.
  rewrite Hid, Hsecret. reflexivity.
Qed.

(** The three ways through [getAccessToken]. *)
Lemma getAccessToken_cases (W : World) (config : Config) (s : State) :
  Blizzard.getAccessToken W config s
  = if Spec.cache_valid s then (Ok (accessToken s), s)
    else if (wow_clientId config =? "") || (wow_clientSecret config =? "")
    then (Ok VNull, s)
    else
      match transport W (clock s) (Blizzard.token_request W config) with
      | NetworkFailure _ =>
          (Ok VNull, record_request W (Blizzard.token_request W config) s)
      | Responds response =>
          let s' := record_request W (Blizzard.token_request W config) s in
          if negb (ok response) then (Ok VNull, s')
          else
            match json response with
            | Unparsable _ => (Ok VNull, s')
            | Json data =>
                if nullish data then (Ok VNull, s')
                else
                  (Ok (prop data "access_token"),
                   {| clock := clock s';
                      accessToken := prop data "access_token";
                      tokenExpiry :=
                        num_add (of_Z (clock s'))
                          (num_mul
                             (js_sub (platform W) (prop data "expires_in")
                                (vint 300))
                             (of_Z 1000));
                      requests := requests s' |})
            end
      end.
Proof.
  unfold Blizzard.getAccessToken, Spec.cache_valid.
  unfold mbind at 1 2 3.
  unfold Blizzard.read_accessToken at 1, Date_now at 1,
    Blizzard.read_tokenExpiry at 1.
  cbv beta iota.
  destruct (truthy (accessToken s) && num_lt (of_Z (clock s)) (tokenExpiry s));
    [reflexivity|].
  destruct ((wow_clientId config =? "") || (wow_clientSecret config =? ""));
    [reflexivity|].
  unfold try_catch, mbind, fetch.
  destruct (transport W (clock s) (Blizzard.token_request W config))
    as [response|msg]; [|reflexivity].
  destruct (ok response); simpl; [|reflexivity].
  unfold response_json. destruct (json response) as [data|msg]; [|reflexivity].
  unfold mret, lift, get. destruct (nullish data); reflexivity.
Qed.

(** A valid cache answers [getAccessToken] without any effect. *)
Lemma getAccessToken_cached (W : World) (config : Config) (s : State) :
  Spec.cache_valid s = true ->
  Blizzard.getAccessToken W config s = (Ok (accessToken s), s).
Proof.
  intro Hvalid. rewrite getAccessToken_cases, Hvalid. reflexivity.
Qed.

(** C2.  With credentials configured and no usable token cached, a
    successful exchange issues one token request, returns the token and
    caches it with expiry [issue time + (expires_in - 300) * 1000] ms; a
    second call made while that token is cached and the clock is before
    that expiry returns the same token and changes nothing: no request is
    added to the one the first call issued. *)
Theorem getAccessToken_single_request :
  forall (W : World) (config : Config) (s0 : State) (token : value) (e : Q),
    Spec.credentials_configured config ->
    Spec.cache_valid s0 = false ->
    Spec.exchange_succeeds W config s0 token e ->
    truthy token = true ->
    exists s1,
      Blizzard.getAccessToken W config s0 = (Ok token, s1)
      /\ requests s1 = requests s0 ++ [Blizzard.token_request W config]
      /\ accessToken s1 = token
      /\ tokenExpiry s1
         = Fin (inject_Z (clock s1) + (e - 300) * 1000)%Q
      /\ forall s2 : State,
           accessToken s2 = accessToken s1 ->
           tokenExpiry s2 = tokenExpiry s1 ->
           num_lt (of_Z (clock s2)) (tokenExpiry s1) = true ->
           Blizzard.getAccessToken W config s2 = (Ok token, s2).
Proof.
  intros W config s0 token e Hcfg Hcache
    (response & data & Ht & Hok & Hjson & Hdata & Htoken & Hexp) Htruthy.
  eexists. split.
  - rewrite getAccessToken_cases, Hcache, (configured_guard config Hcfg).
    rewrite Ht, Hok, Hjson. cbv zeta. simpl negb. cbv iota.
    rewrite Hdata, Htoken. reflexivity.
  - simpl. split; [reflexivity|]. split; [reflexivity|].
    split.
    + rewrite Hexp. reflexivity.
    + intros s2 Hsame Hexpiry Hvalid.
      rewrite getAccessToken_cached.
      * rewrite Hsame. reflexivity.
      * unfold Spec.cache_valid. rewrite Hsame, Hexpiry. simpl accessToken.
        rewrite Htruthy. exact Hvalid.
Qed.

Lemma getAccessToken_single_request_witness :
  exists s1,
    Blizzard.getAccessToken (Fixtures.blizzard_granting (Fixtures.reply 404 "Not Found" (Json VNull)))
        Fixtures.configured (initial 1000) = (Ok (VStr "token-1"), s1)
    /\ requests s1
       = requests (initial 1000)
           ++ [Blizzard.token_request
                 (Fixtures.blizzard_granting (Fixtures.reply 404 "Not Found" (Json VNull)))
                 Fixtures.configured]
    /\ accessToken s1 = VStr "token-1"
    /\ tokenExpiry s1 = Fin (inject_Z (clock s1) + (86399 - 300) * 1000)%Q
    /\ forall s2 : State,
         accessToken s2 = accessToken s1 ->
         tokenExpiry s2 = tokenExpiry s1 ->
         num_lt (of_Z (clock s2)) (tokenExpiry s1) = true ->
         Blizzard.getAccessToken (Fixtures.blizzard_granting (Fixtures.reply 404 "Not Found" (Json VNull)))
             Fixtures.configured s2
           = (Ok (VStr "token-1"), s2).
Proof.
  apply (getAccessToken_single_request
           (Fixtures.blizzard_granting (Fixtures.reply 404 "Not Found" (Json VNull)))
           Fixtures.configured (initial 1000) (VStr "token-1") 86399%Q).
  - split; discriminate.
  - reflexivity.
  - exists (Fixtures.reply 200 "OK" (Json Fixtures.granted)), Fixtures.granted.
    repeat split; reflexivity.
  - reflexivity.
Defined.

Lemma empty_cache_invalid (s : State) :
  accessToken s = VNull -> Spec.cache_valid s = false.
Proof. unfold Spec.cache_valid. intros ->. reflexivity. Qed.

(** A refused exchange: [null], one request, the cache untouched. *)
Lemma getAccessToken_refused (W : World) (config : Config) (s : State)
    (response : Response) :
  Spec.credentials_configured config ->
  Spec.cache_valid s = false ->
  transport W (clock s) (Blizzard.token_request W config) = Responds response ->
  ok response = false ->
  Blizzard.getAccessToken W config s
  = (Ok VNull, record_request W (Blizzard.token_request W config) s).
Proof.
  intros Hcfg Hcache Ht Hok.
  rewrite getAccessToken_cases, Hcache, (configured_guard config Hcfg), Ht, Hok.
  reflexivity.
Qed.


(** Without a token [blizzardFetch] answers [null] and asks nothing more. *)
Lemma blizzardFetch_without_token (W : World) (config : Config) (s s' : State)
    (endpoint : string) (params : list (string * string)) (token : value) :
  Blizzard.getAccessToken W config s = (Ok token, s') ->
  truthy token = false ->
  Blizzard.blizzardFetch W config endpoint params s = (Ok VNull, s').
Proof.
  intros Htoken Hfalsy. unfold Blizzard.blizzardFetch, mbind.
  rewrite Htoken, Hfalsy. reflexivity.
Qed.

Lemma status_401_403_not_ok (response : Response) :
  status response = 401%Z \/ status response = 403%Z -> ok response = false.
Proof. unfold ok. intros [-> | ->]; reflexivity. Qed.

(** C6.  When the token exchange is answered with HTTP 401,
    [getAccessToken] returns [null] after its single request and leaves the
    cache empty; the profile fetch that follows returns the fallback profile
    (class Death Knight), having issued nothing but the token request of its
    own [getAccessToken] call. *)
Theorem token_exchange_401_falls_back :
  forall (W : World) (config : Config) (s0 : State) (response : Response),
    Spec.credentials_configured config ->
    accessToken s0 = VNull ->
    (forall t, transport W t (Blizzard.token_request W config) = Responds response) ->
    status response = 401%Z ->
    exists s1 s2 profile,
      Blizzard.getAccessToken W config s0 = (Ok VNull, s1)
      /\ accessToken s1 = VNull
      /\ requests s1 = requests s0 ++ [Blizzard.token_request W config]
      /\ Blizzard.fetchCharacterProfile W config s1 = (Ok profile, s2)
      /\ Blizzard.getMockCharacterProfile config s2 = (Ok profile, s2)
      /\ prop profile "class" = VStr "Death Knight"
      /\ accessToken s2 = VNull
      /\ requests s2 = requests s1 ++ [Blizzard.token_request W config].
Proof.
  intros W config s0 response Hcfg Hempty Ht H401.
  assert (Hok : ok response = false)
    by (apply status_401_403_not_ok; left; exact H401).
  pose (tok := Blizzard.token_request W config).
  pose (s1 := record_request W tok s0).
  pose (s2 := record_request W tok s1).
  assert (H1 : Blizzard.getAccessToken W config s0 = (Ok VNull, s1)).
  { apply (getAccessToken_refused W config s0 response); auto.
    apply empty_cache_invalid. exact Hempty. }
  assert (H2 : Blizzard.getAccessToken W config s1 = (Ok VNull, s2)).
  { apply (getAccessToken_refused W config s1 response); auto.
    apply empty_cache_invalid. exact Hempty. }
  exists s1, s2. eexists.
  split; [exact H1|]. split; [exact Hempty|]. split; [reflexivity|].
  split.
  - unfold Blizzard.fetchCharacterProfile, mbind.
    rewrite (blizzardFetch_without_token W config s1 s2 _ _ VNull H2 eq_refl).
    reflexivity.
  - split; [reflexivity|]. split; [reflexivity|]. split; [exact Hempty|reflexivity].
Qed.

Lemma token_exchange_401_falls_back_witness :
  exists s1 s2 profile,
    Blizzard.getAccessToken
        (Fixtures.always (Fixtures.reply 401 "Unauthorized" (Json VNull)))
        Fixtures.configured (initial 0) = (Ok VNull, s1)
    /\ accessToken s1 = VNull
    /\ requests s1
       = requests (initial 0)
           ++ [Blizzard.token_request
                 (Fixtures.always (Fixtures.reply 401 "Unauthorized" (Json VNull)))
                 Fixtures.configured]
    /\ Blizzard.fetchCharacterProfile
         (Fixtures.always (Fixtures.reply 401 "Unauthorized" (Json VNull)))
         Fixtures.configured s1 = (Ok profile, s2)
    /\ Blizzard.getMockCharacterProfile Fixtures.configured s2 = (Ok profile, s2)
    /\ prop profile "class" = VStr "Death Knight"
    /\ accessToken s2 = VNull
    /\ requests s2
       = requests s1
           ++ [Blizzard.token_request
                 (Fixtures.always (Fixtures.reply 401 "Unauthorized" (Json VNull)))
                 Fixtures.configured].
Proof.
  apply (token_exchange_401_falls_back
           (Fixtures.always (Fixtures.reply 401 "Unauthorized" (Json VNull)))
           Fixtures.configured (initial 0)
           (Fixtures.reply 401 "Unauthorized" (Json VNull))).
  - split; discriminate.
  - reflexivity.
  - reflexivity.
  - reflexivity.
Defined.

(** *** Missing configuration *)

Lemma missing_client_guard (config : Config) :
  wow_clientId config = "" \/ wow_clientSecret config = "" ->
  (wow_clientId config =? "") || (wow_clientSecret config =? "") = true.
Proof.
  intros [H | H]; rewrite H; simpl; [reflexivity | apply orb_true_r].
Qed.

Lemma getAccessToken_unconfigured (W : World) (config : Config) (s : State) :
  wow_clientId config = "" \/ wow_clientSecret config = "" ->
  accessToken s = VNull ->
  Blizzard.getAccessToken W config s = (Ok VNull, s).
Proof.
  intros Hmissing Hempty.
  rewrite getAccessToken_cases, (empty_cache_invalid s Hempty),
    (missing_client_guard config Hmissing).
  reflexivity.
Qed.

(** C3, as stated, fails twice.  With the zero address configured,
    [fetchNFTsForWallet] issues no request but throws instead of returning a
    fallback dataset.  And the guard of the Steam fetches looks for ten
    zeros in a row: with a key and the placeholder id [76561198000000000],
    which has nine, [fetchPlayerSummary] sends its request. *)
Lemma missing_configuration_counterexamples :
  Nft.fetchNFTsForWallet Fixtures.unreachable Fixtures.unconfigured
      VNull VNull 50 (initial 0)
  = (Throw (Error "Wallet address is not configured. Please add your wallet address to config.js"),
     initial 0)
  /\ includes "000000000" "76561198000000000" = true
  /\ includes "0000000000" "76561198000000000" = false
  /\ requests
       (snd (Steam.fetchPlayerSummary Fixtures.unreachable
               (Fixtures.with_steam "0123456789ABCDEF" "76561198000000000")
               (initial 0)))
     = [Steam.summary_request
          (Fixtures.with_steam "0123456789ABCDEF" "76561198000000000")].
Proof. repeat split. Qed.

(** C3, amended.  When the Steam key is empty, or the Steam id is empty or
    holds ten zeros in a row, each Steam fetch returns its mock dataset and
    issues no request; when the Blizzard client id or secret is missing (and
    no token was ever cached), each World of Warcraft fetch returns its mock
    dataset and issues no request; when the wallet address is missing or the
    zero address, [fetchNFTsForWallet] issues no request and throws the
    configuration error. *)
Theorem missing_configuration_issues_no_request :
  forall (W : World) (config : Config) (s : State),
    (Spec.steam_credentials_missing config ->
       Steam.fetchPlayerSummary W config s = Steam.getMockPlayerSummary s
       /\ Steam.fetchSteamLevel W config s = Steam.getMockSteamLevel s
       /\ Steam.fetchOwnedGames W config s = Steam.getMockOwnedGames s
       /\ (forall count,
             Steam.fetchRecentGames W config count s = Steam.getMockRecentGames s)
       /\ snd (Steam.getMockPlayerSummary s) = s
       /\ snd (Steam.getMockSteamLevel s) = s
       /\ snd (Steam.getMockOwnedGames s) = s
       /\ snd (Steam.getMockRecentGames s) = s)
    /\ (wow_clientId config = "" \/ wow_clientSecret config = "" ->
        accessToken s = VNull ->
          Blizzard.fetchCharacterProfile W config s
            = Blizzard.getMockCharacterProfile config s
          /\ Blizzard.fetchMythicPlusProfile W config s
             = Blizzard.getMockMythicPlusProfile s
          /\ Blizzard.fetchRaidProgress W config s
             = Blizzard.getMockRaidProgress s
          /\ snd (Blizzard.getMockCharacterProfile config s) = s
          /\ snd (Blizzard.getMockMythicPlusProfile s) = s
          /\ snd (Blizzard.getMockRaidProgress s) = s)
    /\ (wallet_address config = "" \/ wallet_address config = Nft.zero_address ->
        forall continuation limit,
          Nft.fetchNFTsForWallet W config VNull continuation limit s
          = (Throw (Error "Wallet address is not configured. Please add your wallet address to config.js"),
             s)).
Proof.
  intros W config s. split; [|split].
  - intro Hmissing. apply steam_missing_invalid in Hmissing.
    unfold Steam.fetchPlayerSummary, Steam.fetchSteamLevel,
      Steam.fetchOwnedGames, Steam.fetchRecentGames.
    rewrite Hmissing. repeat split.
  - intros Hmissing Hempty.
    pose proof (getAccessToken_unconfigured W config s Hmissing Hempty) as Htoken.
    unfold Blizzard.fetchCharacterProfile, Blizzard.fetchMythicPlusProfile,
      Blizzard.fetchRaidProgress, mbind.
    rewrite !(blizzardFetch_without_token W config s s _ _ VNull Htoken eq_refl).
    repeat split.
  - intros Hwallet continuation limit. unfold Nft.fetchNFTsForWallet.
    destruct Hwallet as [-> | ->]; reflexivity.
Qed.

Lemma missing_configuration_issues_no_request_witness :
  (Spec.steam_credentials_missing Fixtures.unconfigured
   /\ Steam.fetchPlayerSummary Fixtures.unreachable Fixtures.unconfigured (initial 0)
      = Steam.getMockPlayerSummary (initial 0))
  /\ (Spec.steam_credentials_missing
        (Fixtures.with_steam "0123456789ABCDEF" "76561190000000000")
      /\ steam_apiKey (Fixtures.with_steam "0123456789ABCDEF" "76561190000000000")
         <> ""
      /\ Steam.fetchOwnedGames Fixtures.unreachable
           (Fixtures.with_steam "0123456789ABCDEF" "76561190000000000") (initial 0)
         = Steam.getMockOwnedGames (initial 0))
  /\ (Spec.steam_credentials_missing (Fixtures.with_steam "0123456789ABCDEF" "")
      /\ Steam.fetchSteamLevel Fixtures.unreachable
           (Fixtures.with_steam "0123456789ABCDEF" "") (initial 0)
         = Steam.getMockSteamLevel (initial 0))
  /\ ((wow_clientId Fixtures.unconfigured = ""
       \/ wow_clientSecret Fixtures.unconfigured = "")
      /\ Blizzard.fetchCharacterProfile Fixtures.unreachable Fixtures.unconfigured
           (initial 0)
         = Blizzard.getMockCharacterProfile Fixtures.unconfigured (initial 0))
  /\ ((wallet_address Fixtures.unconfigured = ""
       \/ wallet_address Fixtures.unconfigured = Nft.zero_address)
      /\ Nft.fetchNFTsForWallet Fixtures.unreachable Fixtures.unconfigured
           VNull VNull 50 (initial 0)
         = (Throw (Error "Wallet address is not configured. Please add your wallet address to config.js"),
            initial 0)).
Proof.
  destruct (missing_configuration_issues_no_request
              Fixtures.unreachable Fixtures.unconfigured (initial 0))
    as (Hsteam & Hwow & Hnft).
  destruct (missing_configuration_issues_no_request Fixtures.unreachable
              (Fixtures.with_steam "0123456789ABCDEF" "76561190000000000")
              (initial 0))
    as (Hzeros & _).
  destruct (missing_configuration_issues_no_request Fixtures.unreachable
              (Fixtures.with_steam "0123456789ABCDEF" "") (initial 0))
    as (Hnoid & _).
  split; [|split; [|split; [|split]]].
  - split; [left; reflexivity|]. apply Hsteam. left. reflexivity.
  - split; [right; right; reflexivity|]. split; [discriminate|].
    apply Hzeros. right. right. reflexivity.
  - split; [right; left; reflexivity|]. apply Hnoid. right. left. reflexivity.
  - split; [left; reflexivity|]. apply Hwow; [left; reflexivity | reflexivity].
  - split; [right; reflexivity|]. apply Hnft. right; reflexivity.
Defined.

(** *** Expected failure modes *)

Lemma or_truthy (a b : value) : truthy b = true -> truthy (or_ a b) = true.
Proof. intro Hb. unfold or_. destruct (truthy a) eqn:Ha; assumption. Qed.

Lemma or_of_truthy (a b : value) : truthy a = true -> or_ a b = a.
Proof. intro Ha. unfold or_. rewrite Ha. reflexivity. Qed.

(** Every way through the three Path of Exile fetches ends in a value. *)
Lemma poe_fetches_total (W : World) (config : Config) (s : State) :
  (exists characters flag,
     Poe.fetchCharacters W config s
     = (Ok (VObj [("characters", characters); ("isMockData", VBool flag)]),
        record_request W (Poe.poe_request config "/character") s)
     /\ truthy characters = true)
  /\ (exists leagues flag,
        Poe.fetchLeagues W config s
        = (Ok (VObj [("leagues", leagues); ("isMockData", VBool flag)]),
           record_request W (Poe.poe_request config "/league") s)
        /\ truthy leagues = true)
  /\ (exists name realm flag,
        Poe.fetchAccountProfile W config s
        = (Ok (VObj [("name", name); ("realm", realm); ("isMockData", VBool flag)]),
           record_request W (Poe.poe_request config "/profile") s)).
Proof.
  unfold Poe.fetchCharacters, Poe.fetchLeagues, Poe.fetchAccountProfile.
  unfold try_catch, mbind, fetch.
  split; [|split].
  - destruct (transport W (clock s) (Poe.poe_request config "/character"))
      as [response | msg];
      [|do 2 eexists; split; reflexivity].
    destruct (ok response); decide_branch.
    + unfold response_json. destruct (json response) as [data | msg];
        [|do 2 eexists; split; reflexivity].
      unfold mret at 1. unfold lift, get.
      destruct (nullish data); [do 2 eexists; split; reflexivity|].
      do 2 eexists. split; [reflexivity|]. apply or_truthy. reflexivity.
    + destruct ((status response =? 401)%Z || (status response =? 403)%Z);
        do 2 eexists; split; reflexivity.
  - destruct (transport W (clock s) (Poe.poe_request config "/league"))
      as [response | msg];
      [|do 2 eexists; split; reflexivity].
    destruct (ok response); decide_branch;
      [|do 2 eexists; split; reflexivity].
    unfold response_json. destruct (json response) as [data | msg];
      [|do 2 eexists; split; reflexivity].
    unfold mret at 1. unfold lift, get.
    destruct (nullish data); [do 2 eexists; split; reflexivity|].
    do 2 eexists. split; [reflexivity|]. apply or_truthy. reflexivity.
  - destruct (transport W (clock s) (Poe.poe_request config "/profile"))
      as [response | msg];
      [|do 3 eexists; reflexivity].
    destruct (ok response); decide_branch;
      [|do 3 eexists; reflexivity].
    unfold response_json. destruct (json response) as [data | msg];
      [|do 3 eexists; reflexivity].
    unfold mret at 1. unfold lift, get.
    destruct (nullish data); do 3 eexists; reflexivity.
Qed.

Lemma is_cors_error_TypeError (msg : string) :
  Steam.is_cors_error (TypeError msg) = true.
Proof. unfold Steam.is_cors_error. simpl. rewrite !orb_true_r. reflexivity. Qed.



(** The Steam fetches when no request gets through: all four fall back. *)
Lemma steam_unreachable (W : World) (config : Config) (s : State) (msg : string) :
  Steam.hasValidCredentials config = true ->
  (forall t req, transport W t req = NetworkFailure msg) ->
  Steam.fetchPlayerSummary W config s
    = Steam.getMockPlayerSummary (record_request W (Steam.summary_request config) s)
  /\ Steam.fetchSteamLevel W config s
     = Steam.getMockSteamLevel (record_request W (Steam.level_request config) s)
  /\ Steam.fetchOwnedGames W config s
     = Steam.getMockOwnedGames (record_request W (Steam.owned_request config) s)
  /\ forall count,
       Steam.fetchRecentGames W config count s
       = Steam.getMockRecentGames
           (record_request W (Steam.recent_request config count) s).
Proof.
  intros Hcred Ht.
  unfold Steam.fetchPlayerSummary, Steam.fetchSteamLevel, Steam.fetchOwnedGames,
    Steam.fetchRecentGames.
  rewrite Hcred. decide_branch.
  unfold try_catch, mbind, fetch. rewrite !Ht.
  rewrite is_cors_error_TypeError.
  repeat split. intro count. rewrite Ht, is_cors_error_TypeError. reflexivity.
Qed.





Lemma steam_without_credentials (W : World) (config : Config) (s : State) :
  Steam.hasValidCredentials config = false ->
  Steam.fetchPlayerSummary W config s = Steam.getMockPlayerSummary s
  /\ Steam.fetchSteamLevel W config s = Steam.getMockSteamLevel s
  /\ Steam.fetchOwnedGames W config s = Steam.getMockOwnedGames s
  /\ forall count,
       Steam.fetchRecentGames W config count s = Steam.getMockRecentGames s.
Proof.
  intro Hinvalid.
  unfold Steam.fetchPlayerSummary, Steam.fetchSteamLevel,
    Steam.fetchOwnedGames, Steam.fetchRecentGames.
  rewrite Hinvalid. repeat split.
Qed.

Lemma wow_without_credentials (W : World) (config : Config) (s : State) :
  wow_clientId config = "" \/ wow_clientSecret config = "" ->
  accessToken s = VNull ->
  Blizzard.fetchCharacterProfile W config s
    = Blizzard.getMockCharacterProfile config s
  /\ Blizzard.fetchMythicPlusProfile W config s
     = Blizzard.getMockMythicPlusProfile s
  /\ Blizzard.fetchRaidProgress W config s = Blizzard.getMockRaidProgress s.
Proof.
  intros Hmissing Hempty.
  pose proof (getAccessToken_unconfigured W config s Hmissing Hempty) as Htoken.
  unfold Blizzard.fetchCharacterProfile, Blizzard.fetchMythicPlusProfile,
    Blizzard.fetchRaidProgress, mbind.
  rewrite !(blizzardFetch_without_token W config s s _ _ VNull Htoken eq_refl).
  repeat split.
Qed.





(** *** NFTs: walking the pages *)

Lemma Forall_firstn {A} (P : A -> Prop) (n : nat) (l : list A) :
  Forall P l -> Forall P (firstn n l).
Proof.
  intro H. revert n. induction H; intros [|n]; simpl; constructor; auto.
Qed.

Lemma Forall_skipn {A} (P : A -> Prop) (n : nat) (l : list A) :
  Forall P l -> Forall P (skipn n l).
Proof.
  intro H. revert n. induction H; intros [|n]; simpl; auto.
Qed.

Lemma firstn_next_page {A} (k size : nat) (l : list A) :
  (firstn k l ++ firstn size (skipn k l))%list = firstn (k + size) l.
Proof.
  revert l. induction k as [|k IH]; intros [|x l]; simpl.
  - rewrite firstn_nil. reflexivity.
  - reflexivity.
  - rewrite firstn_nil. reflexivity.
  - rewrite IH. reflexivity.
Qed.

Lemma slice_from_start {A} (l : list A) (stop : Z) :
  (0 <= stop)%Z -> slice l 0 stop = firstn (Z.to_nat stop) l.
Proof.
  intro Hstop. unfold slice. cbv zeta.
  replace (0 <? 0)%Z with false by reflexivity.
  destruct (stop <? 0)%Z eqn:Hneg; [apply Z.ltb_lt in Hneg; lia|].
  rewrite (Z.min_l 0) by lia. rewrite Z.sub_0_r. simpl skipn.
  destruct (Z.le_ge_cases stop (Z.of_nat (List.length l))) as [Hle | Hge].
  - rewrite Z.min_l by lia. reflexivity.
  - rewrite Z.min_r by lia. rewrite Nat2Z.id.
    rewrite firstn_all. symmetry. apply firstn_all2. lia.
Qed.

Lemma nftOfToken_view (W : World) (items : list value) :
  Forall (fun item => nullish item = false) items ->
  map_r (Nft.nftOfToken W) items = Ok (map (Spec.nft_view W) items).
Proof.
  induction 1 as [|item rest Hitem _ IH]; simpl; [reflexivity|].
  rewrite IH. unfold Spec.nft_view, Nft.nftOfToken, get.
  rewrite Hitem. reflexivity.
Qed.

(** The length bound of [fetchAllNFTs], whatever the upstream. *)
Lemma fetchAllNFTs_bounded (W : World) (config : Config) (fuel : nat)
    (walletAddress : value) (maxNFTs : Z) (s s' : State) (nfts : list value) :
  (0 <= maxNFTs)%Z ->
  Nft.fetchAllNFTs W config fuel walletAddress maxNFTs s = Some (Ok nfts, s') ->
  (Z.of_nat (List.length nfts) <= maxNFTs)%Z.
Proof.
  intros Hmax. unfold Nft.fetchAllNFTs.
  destruct (Nft.collect W config fuel walletAddress maxNFTs [] VNull s)
    as [[[all|e] s1]|]; intro H; inversion H; subst.
  rewrite slice_from_start by assumption.
  pose proof (firstn_le_length (Z.to_nat maxNFTs) all). lia.
Qed.

Section PagedWalk.

Variables (W : World) (config : Config) (tokens : list value) (size : nat)
          (cursor : nat -> value).

Hypothesis serves : Spec.serves_pages W config tokens size cursor.
Hypothesis wallet : Spec.wallet_configured config.
Hypothesis size_positive : 0 < size.
Hypothesis tokens_defined : Forall (fun item => nullish item = false) tokens.

(** One page: the request for offset [k] returns the NFTs of that page and
    the cursor of the next one, if any. *)
Lemma fetch_page (k : nat) (s : State) :
  exists next,
    Nft.fetchNFTsForWallet W config VNull (Spec.continuation_at cursor k) 50 s
    = (Ok (VObj [
         ("nfts", VArr (map (Spec.nft_view W) (firstn size (skipn k tokens))));
         ("continuation", next)]),
       record_request W
         (Nft.page_request W (VStr (wallet_address config))
            (Spec.continuation_at cursor k) 50) s)
    /\ (k + size < List.length tokens -> next = cursor (k + size))
    /\ (List.length tokens <= k + size -> truthy next = false).
Proof.
  destruct serves as [Hcursor Hpages].
  destruct (Hpages (clock s) k)
    as (response & data & Ht & Hok & Hjson & Hdata & Htokens & Hmore & Hlast).
  destruct wallet as [Hset Hnonzero].
  apply String.eqb_neq in Hset. apply String.eqb_neq in Hnonzero.
  exists (or_ (prop data "continuation") VNull).
  split; [|split].
  - unfold Nft.fetchNFTsForWallet. cbv zeta.
    change (or_ VNull (VStr (wallet_address config)))
      with (VStr (wallet_address config)).
    unfold Nft.is_zero_address. cbn [truthy].
    rewrite Hset, Hnonzero. decide_branch.
    unfold mbind, fetch. rewrite Ht, Hok. decide_branch.
    unfold response_json. rewrite Hjson. unfold mret, lift, get.
    rewrite Hdata, Htokens. cbn [or_ truthy as_array].
    rewrite nftOfToken_view.
    + reflexivity.
    + apply Forall_firstn, Forall_skipn, tokens_defined.
  - intro Hlt. rewrite (Hmore Hlt). unfold or_.
    rewrite Hcursor by lia. reflexivity.
  - intro Hge. unfold or_. rewrite (Hlast Hge). reflexivity.
Qed.

(** The loop, entered for its page number [j + 1] with the first [j] pages
    collected: it ends after page [j'], the first one that reaches
    [maxNFTs] or ends the listing. *)
Lemma collect_walk (maxNFTs : Z) (fuel : nat) :
  forall (j : nat) (s : State),
    j = 0 \/ (j * size < List.length tokens /\ (Z.of_nat (j * size) < maxNFTs)%Z) ->
    List.length tokens < fuel + j * size ->
    exists j' s',
      Nft.collect W config fuel VNull maxNFTs
        (map (Spec.nft_view W) (firstn (j * size) tokens))
        (Spec.continuation_at cursor (j * size)) s
      = Some (Ok (map (Spec.nft_view W) (firstn (j' * size) tokens)), s')
      /\ j < j'
      /\ List.length (requests s') = List.length (requests s) + (j' - j)
      /\ ((maxNFTs <= Z.of_nat (Nat.min (j' * size) (List.length tokens)))%Z
          \/ List.length tokens <= j' * size)
      /\ (j' = j + 1
          \/ ((j' - 1) * size < List.length tokens
              /\ (Z.of_nat ((j' - 1) * size) < maxNFTs)%Z)).
Proof.
  induction fuel as [|fuel IH]; intros j s Hentry Hfuel.
  - destruct Hentry as [-> | [Hlt _]]; simpl in Hfuel; lia.
  - destruct (fetch_page (j * size) s) as (next & Hpage & Hmore & Hlast).
    cbn [Nft.collect]. rewrite Hpage. cbn [prop lookup String.eqb Ascii.eqb Bool.eqb Nft.items_of].
    rewrite <- map_app, firstn_next_page.
    replace (j * size + size) with ((j + 1) * size) in * by lia.
    rewrite length_map, length_firstn.
    set (s1 := record_request W _ s).
    assert (Hlog : List.length (requests s1) = List.length (requests s) + 1).
    { unfold s1, record_request. cbn [requests]. rewrite length_app. reflexivity. }
    destruct (maxNFTs <=? Z.of_nat (Nat.min ((j + 1) * size) (List.length tokens)))%Z
      eqn:Hreached.
    + apply Z.leb_le in Hreached.
      exists (j + 1), s1. repeat split; lia.
    + apply Z.leb_gt in Hreached.
      destruct (Nat.lt_ge_cases ((j + 1) * size) (List.length tokens)) as [Hlt | Hge].
      * rewrite (Hmore Hlt). destruct serves as [Hcursor _].
        rewrite Hcursor by nia.
        assert (Hcont : cursor ((j + 1) * size)
                        = Spec.continuation_at cursor ((j + 1) * size)).
        { unfold Spec.continuation_at.
          destruct ((j + 1) * size =? 0)%nat eqn:Hz;
            [apply Nat.eqb_eq in Hz; nia|].
          reflexivity. }
        rewrite Hcont.
        destruct (IH (j + 1) s1) as (j' & s' & Hrun & Hj & Hreq & Hstop & Hprev).
        { right. split; [exact Hlt | lia]. }
        { lia. }
        exists j', s'. rewrite Hrun.
        split; [reflexivity|]. split; [lia|]. split; [lia|].
        split; [exact Hstop|].
        right. destruct Hprev as [-> | Hprev]; [|exact Hprev].
        replace (j + 1 + 1 - 1) with (j + 1) by lia. split; [exact Hlt | lia].
      * rewrite (Hlast Hge).
        exists (j + 1), s1. repeat split; lia.
Qed.

(** The whole of [fetchAllNFTs] over a paged upstream. *)
Lemma fetchAllNFTs_walk (maxNFTs : Z) (s : State) :
  (0 <= maxNFTs)%Z ->
  exists pages s',
    Nft.fetchAllNFTs W config (S (List.length tokens)) VNull maxNFTs s
    = Some (Ok (map (Spec.nft_view W) (firstn (Z.to_nat maxNFTs) tokens)), s')
    /\ List.length (requests s') = List.length (requests s) + pages
    /\ 1 <= pages
    /\ Nat.min (Z.to_nat maxNFTs) (List.length tokens) <= pages * size
    /\ (pages = 1
        \/ (pages - 1) * size < Nat.min (Z.to_nat maxNFTs) (List.length tokens)).
Proof.
  intro Hmax.
  destruct (collect_walk maxNFTs (S (List.length tokens)) 0 s)
    as (pages & s' & Hrun & Hj & Hreq & Hstop & Hprev).
  { left. reflexivity. }
  { lia. }
  exists pages, s'. unfold Nft.fetchAllNFTs.
  change (map (Spec.nft_view W) (firstn (0 * size) tokens)) with (@nil value) in Hrun.
  change (Spec.continuation_at cursor (0 * size)) with VNull in Hrun.
  rewrite Hrun. split; [|repeat split; lia].
  f_equal. f_equal. rewrite slice_from_start by assumption.
  rewrite firstn_map, firstn_firstn. f_equal.
  destruct Hstop as [Hreached | Hend].
  - rewrite Nat.min_l by lia. reflexivity.
  - destruct (Nat.le_ge_cases (Z.to_nat maxNFTs) (pages * size)) as [Hle | Hge].
    + rewrite Nat.min_l by lia. reflexivity.
    + rewrite Nat.min_r by lia.
      rewrite !firstn_all2 by lia. reflexivity.
Qed.

End PagedWalk.

Lemma length_unary (k : nat) : String.length (Fixtures.unary k) = k.
Proof. induction k; simpl; congruence. Qed.

Lemma length_numbered_tokens (first : Z) (n : nat) :
  List.length (Fixtures.numbered_tokens first n) = n.
Proof. revert first. induction n; intro first; simpl; congruence. Qed.

Lemma numbered_tokens_defined (first : Z) (n : nat) :
  Forall (fun item => nullish item = false) (Fixtures.numbered_tokens first n).
Proof. revert first. induction n; intro first; simpl; constructor; auto. Qed.

(** The fake paged source is a paged upstream. *)
Lemma paged_source_serves (tokens : list value) (size : nat) (config : Config) :
  Spec.serves_pages (Fixtures.paged_source tokens size) config tokens size
    Fixtures.cursor.
Proof.
  split.
  - intros [|k] Hk; [lia | reflexivity].
  - intros t k.
    exists (Fixtures.reply 200 "OK" (Json (Fixtures.page tokens size k))),
           (Fixtures.page tokens size k).
    split; [|split; [reflexivity | split; [reflexivity|]]].
    + cbn [transport Fixtures.paged_source Fixtures.world_of].
      do 4 f_equal. unfold Fixtures.offset_of. destruct k as [|k].
      * reflexivity.
      * cbn. rewrite length_unary. reflexivity.
    + unfold Spec.page_body, Fixtures.page.
      cbn [prop lookup String.eqb Ascii.eqb Bool.eqb nullish].
      split; [reflexivity|]. split; [reflexivity|]. split.
      * intro Hlt. apply Nat.ltb_lt in Hlt. rewrite Hlt. reflexivity.
      * intro Hge. apply Nat.ltb_ge in Hge. rewrite Hge. reflexivity.
Qed.

(** C4.  [fetchAllNFTs] never returns more than [maxNFTs] items; over an
    upstream that serves a listing in pages it returns the first [maxNFTs]
    items of the listing (all of them when there are fewer), having
    requested pages up to the first one that reaches [maxNFTs] or ends the
    listing; for 237 items in pages of 50 and [maxNFTs = 200], that is 200
    items in 4 page requests. *)
Theorem fetchAllNFTs_collects_at_most_max :
  (forall (W : World) (config : Config) (fuel : nat) (walletAddress : value)
          (maxNFTs : Z) (s s' : State) (nfts : list value),
     (0 <= maxNFTs)%Z ->
     Nft.fetchAllNFTs W config fuel walletAddress maxNFTs s = Some (Ok nfts, s') ->
     (Z.of_nat (List.length nfts) <= maxNFTs)%Z)
  /\ (forall (W : World) (config : Config) (tokens : list value) (size : nat)
             (cursor : nat -> value) (maxNFTs : Z) (s : State),
        Spec.serves_pages W config tokens size cursor ->
        Spec.wallet_configured config ->
        0 < size ->
        Forall (fun item => nullish item = false) tokens ->
        (0 <= maxNFTs)%Z ->
        exists pages s',
          Nft.fetchAllNFTs W config (S (List.length tokens)) VNull maxNFTs s
          = Some (Ok (map (Spec.nft_view W) (firstn (Z.to_nat maxNFTs) tokens)),
                  s')
          /\ List.length (requests s') = List.length (requests s) + pages
          /\ 1 <= pages
          /\ Nat.min (Z.to_nat maxNFTs) (List.length tokens) <= pages * size
          /\ (pages = 1
              \/ (pages - 1) * size
                 < Nat.min (Z.to_nat maxNFTs) (List.length tokens)))
  /\ (exists nfts s',
        Nft.fetchAllNFTs
          (Fixtures.paged_source (Fixtures.numbered_tokens 1 237) 50)
          Fixtures.configured 238 VNull 200 (initial 0)
        = Some (Ok nfts, s')
        /\ List.length nfts = 200
        /\ List.length (requests s') = 4).
Proof.
  split; [|split].
  - intros W config fuel walletAddress maxNFTs s s' nfts Hmax Hrun.
    eapply fetchAllNFTs_bounded; eassumption.
  - intros W config tokens size cursor maxNFTs s Hserves Hwallet Hsize Htokens Hmax.
    apply (fetchAllNFTs_walk W config tokens size cursor); assumption.
  - assert (Hwallet : Spec.wallet_configured Fixtures.configured)
      by (split; discriminate).
    destruct (fetchAllNFTs_walk
                (Fixtures.paged_source (Fixtures.numbered_tokens 1 237) 50)
                Fixtures.configured (Fixtures.numbered_tokens 1 237) 50
                Fixtures.cursor (paged_source_serves _ _ _) Hwallet
                ltac:(lia) (numbered_tokens_defined 1 237) 200 (initial 0)
                ltac:(lia))
      as (pages & s' & Hrun & Hreq & Hone & Hcover & Hleast).
    rewrite length_numbered_tokens in *.
    eexists _, s'. split; [exact Hrun|]. split.
    + rewrite length_map, length_firstn, length_numbered_tokens. reflexivity.
    + rewrite Hreq. cbn [requests initial List.length].
      change (Z.to_nat 200) with 200 in *. lia.
Qed.

Lemma fetchAllNFTs_collects_at_most_max_witness :
  Spec.serves_pages (Fixtures.paged_source (Fixtures.numbered_tokens 1 7) 3)
    Fixtures.configured (Fixtures.numbered_tokens 1 7) 3 Fixtures.cursor
  /\ Spec.wallet_configured Fixtures.configured
  /\ 0 < 3
  /\ Forall (fun item => nullish item = false) (Fixtures.numbered_tokens 1 7)
  /\ (0 <= 5)%Z
  /\ exists pages s',
       Nft.fetchAllNFTs (Fixtures.paged_source (Fixtures.numbered_tokens 1 7) 3)
         Fixtures.configured (S (List.length (Fixtures.numbered_tokens 1 7)))
         VNull 5 (initial 0)
       = Some (Ok (map (Spec.nft_view
                          (Fixtures.paged_source (Fixtures.numbered_tokens 1 7) 3))
                     (firstn (Z.to_nat 5) (Fixtures.numbered_tokens 1 7))),
               s')
       /\ List.length (requests s') = List.length (requests (initial 0)) + pages
       /\ 1 <= pages
       /\ Nat.min (Z.to_nat 5) (List.length (Fixtures.numbered_tokens 1 7))
          <= pages * 3
       /\ (pages = 1
           \/ (pages - 1) * 3
              < Nat.min (Z.to_nat 5) (List.length (Fixtures.numbered_tokens 1 7))).
Proof.
  assert (Hserves := paged_source_serves (Fixtures.numbered_tokens 1 7) 3
                       Fixtures.configured).
  assert (Hwallet : Spec.wallet_configured Fixtures.configured)
    by (split; discriminate).
  assert (Hsize : 0 < 3) by lia.
  assert (Htokens := numbered_tokens_defined 1 7).
  assert (Hmax : (0 <= 5)%Z) by lia.
  repeat (split; [assumption|]).
  exact (proj1 (proj2 fetchAllNFTs_collects_at_most_max)
           _ _ _ _ _ _ (initial 0) Hserves Hwallet Hsize Htokens Hmax).
Defined.

(** *** The provenance flag of the World of Warcraft bundle *)

(** C5 (the code departs from it).  Credentials configured, the token
    exchange succeeds, every data request is answered 404: all three
    constituents of [fetchAllWoWData] are mock datasets, yet [isMockData] is
    [false], because the flag is [!accessToken]. *)
Theorem fetchAllWoWData_flag_misses_fallback :
  let W := Fixtures.blizzard_granting (Fixtures.reply 404 "Not Found" (Json VNull)) in
  let bundle := Spec.value_of (Blizzard.fetchAllWoWData W Fixtures.configured (initial 0)) in
  prop bundle "isMockData" = VBool false
  /\ Spec.scrub Spec.timestamps (prop bundle "profile")
     = Spec.scrub Spec.timestamps
         (Spec.value_of (Blizzard.getMockCharacterProfile Fixtures.configured (initial 0)))
  /\ prop bundle "mythicPlus"
     = Spec.value_of (Blizzard.getMockMythicPlusProfile (initial 0))
  /\ prop bundle "raids"
     = Spec.value_of (Blizzard.getMockRaidProgress (initial 0)).
Proof. vm_compute. repeat split. Qed.

(** *** Responses of the wrong shape *)

(** C8, as stated, fails: a profile response that parses as JSON but is the
    empty object raises nothing; [fetchCharacterProfile] returns a profile
    made of the defaults. *)
Lemma fetchCharacterProfile_defaults_on_empty_object :
  fst (Blizzard.fetchCharacterProfile
         (Fixtures.blizzard_granting (Fixtures.reply 200 "OK" (Json (VObj []))))
         Fixtures.configured (initial 0))
  = Ok (VObj [
      ("name", VUndef);
      ("realm", VStr "area-52");
      ("class", VStr "Unknown");
      ("race", VStr "Unknown");
      ("level", vint 80);
      ("faction", VStr "Unknown");
      ("itemLevel", vint 0);
      ("averageItemLevel", vint 0);
      ("guild", VNull);
      ("lastLogin", VUndef)]).
Proof. reflexivity. Qed.

(** C8, amended.  A response that parses as JSON but lacks the expected
    root shape raises no typed error.  [fetchCharacterProfile] returns the
    profile built from the defaults when the body is truthy, and the mock
    profile when the body is falsy ([null], [0], [false], the empty string).
    [fetchPlayerSummary], finding no first player, throws the plain
    [Error("Player not found")] when the body is not [null], and returns the
    mock summary when it is: the [TypeError] of reading [data.response]
    passes for a network error. *)
Theorem wrong_root_shape_defaults_or_plain_error :
  forall (W : World) (config : Config) (s : State),
    (forall data s',
       Blizzard.blizzardFetch W config (Blizzard.character_endpoint config) [] s
         = (Ok data, s') ->
       Spec.lacks data Spec.profile_root ->
       Blizzard.fetchCharacterProfile W config s
       = if truthy data
         then (Ok (VObj [
                 ("name", VUndef);
                 ("realm", VStr (wow_realm config));
                 ("class", VStr "Unknown");
                 ("race", VStr "Unknown");
                 ("level", vint 80);
                 ("faction", VStr "Unknown");
                 ("itemLevel", vint 0);
                 ("averageItemLevel", vint 0);
                 ("guild", VNull);
                 ("lastLogin", VUndef)]), s')
         else Blizzard.getMockCharacterProfile config s')
    /\ (forall response data,
          Spec.steam_credentials_given config ->
          transport W (clock s) (Steam.summary_request config) = Responds response ->
          ok response = true ->
          json response = Json data ->
          truthy (opt_index (opt (prop data "response") "players") 0) = false ->
          Steam.fetchPlayerSummary W config s
          = if nullish data
            then Steam.getMockPlayerSummary
                   (record_request W (Steam.summary_request config) s)
            else (Throw (Error "Player not found"),
                  record_request W (Steam.summary_request config) s)).
Proof.
  intros W config s. split.
  - intros data s' Hfetch Hlacks.
    unfold Blizzard.fetchCharacterProfile, mbind. rewrite Hfetch.
    destruct (truthy data); [|reflexivity].
    unfold Spec.lacks, Spec.profile_root in Hlacks.
    repeat match goal with
           | H : Forall _ (_ :: _) |- _ =>
               let Hk := fresh "Hk" in
               inversion H as [|? ? Hk ?]; subst; clear H; rewrite Hk
           end.
    reflexivity.
  - intros response data Hgiven Ht Hok Hjson Hplayer.
    apply steam_given_valid in Hgiven.
    unfold Steam.fetchPlayerSummary. rewrite Hgiven. decide_branch.
    unfold try_catch, mbind, fetch. rewrite Ht, Hok. decide_branch.
    unfold response_json. rewrite Hjson. unfold mret, lift, get.
    destruct (nullish data).
    + rewrite is_cors_error_TypeError. reflexivity.
    + rewrite Hplayer. reflexivity.
Qed.

Lemma wrong_root_shape_defaults_or_plain_error_witness :
  (Steam.fetchPlayerSummary
     (Fixtures.always (Fixtures.reply 200 "OK" (Json (VObj []))))
     Fixtures.configured (initial 0)
   = (Throw (Error "Player not found"),
      record_request (Fixtures.always (Fixtures.reply 200 "OK" (Json (VObj []))))
        (Steam.summary_request Fixtures.configured) (initial 0)))
  /\ (Steam.fetchPlayerSummary
        (Fixtures.always (Fixtures.reply 200 "OK" (Json VNull)))
        Fixtures.configured (initial 0)
      = Steam.getMockPlayerSummary
          (record_request (Fixtures.always (Fixtures.reply 200 "OK" (Json VNull)))
             (Steam.summary_request Fixtures.configured) (initial 0)))
  /\ (Spec.lacks (VNum (of_Z 0)) Spec.profile_root
      /\ exists s',
           Blizzard.blizzardFetch
             (Fixtures.blizzard_granting
                (Fixtures.reply 200 "OK" (Json (VNum (of_Z 0)))))
             Fixtures.configured
             (Blizzard.character_endpoint Fixtures.configured) [] (initial 0)
           = (Ok (VNum (of_Z 0)), s')
           /\ Blizzard.fetchCharacterProfile
                (Fixtures.blizzard_granting
                   (Fixtures.reply 200 "OK" (Json (VNum (of_Z 0)))))
                Fixtures.configured (initial 0)
              = Blizzard.getMockCharacterProfile Fixtures.configured s').
Proof.
  assert (Hgiven : Spec.steam_credentials_given Fixtures.configured).
  { split; [discriminate|]. split; [discriminate | reflexivity]. }
  split; [|split].
  - apply (proj2 (wrong_root_shape_defaults_or_plain_error
                    (Fixtures.always (Fixtures.reply 200 "OK" (Json (VObj []))))
                    Fixtures.configured (initial 0))
             (Fixtures.reply 200 "OK" (Json (VObj []))) (VObj []) Hgiven);
      reflexivity.
  - apply (proj2 (wrong_root_shape_defaults_or_plain_error
                    (Fixtures.always (Fixtures.reply 200 "OK" (Json VNull)))
                    Fixtures.configured (initial 0))
             (Fixtures.reply 200 "OK" (Json VNull)) VNull Hgiven);
      reflexivity.
  - assert (Hlacks : Spec.lacks (VNum (of_Z 0)) Spec.profile_root)
      by (repeat constructor).
    split; [exact Hlacks|].
    eexists. split; [reflexivity|].
    apply (proj1 (wrong_root_shape_defaults_or_plain_error
                    (Fixtures.blizzard_granting
                       (Fixtures.reply 200 "OK" (Json (VNum (of_Z 0)))))
                    Fixtures.configured (initial 0))
             (VNum (of_Z 0)) _ eq_refl Hlacks).
Defined.

(** *** The shape of the bundles *)

Lemma mbind_ok_inv {A B} (m : M A) (k : A -> M B) (s s' : State) (b : B) :
  mbind m k s = (Ok b, s') ->
  exists a s1, m s = (Ok a, s1) /\ k a s1 = (Ok b, s').
Proof.
  unfold mbind. destruct (m s) as [[a|e] s1]; intro H; [eauto | discriminate].
Qed.

Lemma try_catch_ok_inv {A} (m : M A) (h : exn -> M A) (s s' : State) (a : A) :
  try_catch m h s = (Ok a, s') ->
  m s = (Ok a, s') \/ exists e s1, m s = (Throw e, s1) /\ h e s1 = (Ok a, s').
Proof.
  unfold try_catch. destruct (m s) as [[a'|e] s1]; intro H; [left; exact H | right; eauto].
Qed.

Lemma lift_ok_inv {A} (r : result A) (s s' : State) (a : A) :
  lift r s = (Ok a, s') -> r = Ok a /\ s' = s.
Proof. unfold lift. intro H. inversion H. auto. Qed.

Lemma mret_ok_inv {A} (x a : A) (s s' : State) :
  mret x s = (Ok a, s') -> a = x /\ s' = s.
Proof. unfold mret. intro H. inversion H. auto. Qed.

(** Take apart a run that completed with a value. *)
Ltac unravel :=
  repeat match goal with
  | H : mbind _ _ _ = (Ok _, _) |- _ =>
      apply mbind_ok_inv in H; destruct H as (? & ? & ? & H)
  | H : try_catch _ _ _ = (Ok _, _) |- _ =>
      apply try_catch_ok_inv in H; destruct H as [H | (? & ? & ? & H)]
  | H : lift _ _ = (Ok _, _) |- _ =>
      apply lift_ok_inv in H; destruct H as [H ?]; subst
  | H : mret _ _ = (Ok _, _) |- _ =>
      apply mret_ok_inv in H; destruct H as [? ?]; subst
  | H : throw _ _ = (Ok _, _) |- _ => discriminate H
  | H : (if ?b then _ else _) _ = (Ok _, _) |- _ => destruct b eqn:?
  end.


Lemma or_defined (a b : value) : b <> VUndef -> or_ a b <> VUndef.
Proof.
  intro Hb. unfold or_. destruct (truthy a) eqn:Ha; [|exact Hb].
  intro Hundef. rewrite Hundef in Ha. discriminate Ha.
Qed.

Lemma as_array_inv (v : value) (what : string) (items : list value) :
  as_array v what = Ok items -> v = VArr items.
Proof. destruct v; simpl; intro H; inversion H; reflexivity. Qed.

Lemma map_r_Forall {A B} (f : A -> result B) (P : B -> Prop) (xs : list A)
    (ys : list B) :
  (forall x y, f x = Ok y -> P y) ->
  map_r f xs = Ok ys -> Forall P ys.
Proof.
  intros Hf Hmap. apply map_r_inv in Hmap.
  induction Hmap; constructor; eauto.
Qed.

(** Read the properties of an object written out in full. *)
Ltac compute_props :=
  cbn [prop lookup set_field spread String.eqb Ascii.eqb Bool.eqb map fst] in *.

(** Check a value written out in full against a schema. *)
Ltac schema :=
  repeat (compute_props;
    match goal with
    | |- _ /\ _ => split
    | |- True => exact I
    | |- Spec.has_keys _ _ => eexists; split; reflexivity
    | |- Spec.is_boolean _ => eexists; reflexivity
    | |- Spec.sets _ _ => unfold Spec.sets
    | |- Spec.array_of _ _ => eexists; split; [reflexivity|]
    | |- Forall (fun _ => True) _ => apply Forall_forall; intros; exact I
    | |- Forall _ [] => constructor
    | |- Forall _ (_ :: _) => constructor
    | |- or_ _ _ <> VUndef => apply or_defined
    | |- _ <> VUndef => discriminate
    end).

Lemma ownedGame_shape (W : World) (game mapped : value) :
  Steam.ownedGame W game = Ok mapped -> Spec.owned_game mapped.
Proof.
  unfold Steam.ownedGame, get, bind. destruct (nullish game); [discriminate|].
  intro H. inversion H; subst. unfold Spec.owned_game, Steam.icon_url,
    Steam.hours_of, Steam.logo_url.
  destruct (truthy (prop game "img_icon_url")); schema.
Qed.

Lemma recentGame_shape (W : World) (game mapped : value) :
  Steam.recentGame W game = Ok mapped -> Spec.recent_game mapped.
Proof.
  unfold Steam.recentGame, get, bind. destruct (nullish game); [discriminate|].
  intro H. inversion H; subst. unfold Spec.recent_game, Steam.icon_url,
    Steam.hours_of, Steam.logo_url.
  destruct (truthy (prop game "img_icon_url")); schema.
Qed.

Lemma fetchOwnedGames_shape W config s v s' :
  Steam.fetchOwnedGames W config s = (Ok v, s') -> Spec.games_list Spec.owned_game v.
Proof.
  intros H. unfold Steam.fetchOwnedGames in H. unravel.
  - unfold Steam.getMockOwnedGames, Date_now in *. unravel.
    match goal with H : _ = (Ok _, _) |- _ => inversion H; subst end.
    unfold Spec.games_list, Spec.owned_game, Steam.mockOwnedGame, Steam.seconds_ago. schema.
  - match goal with H : as_array _ _ = Ok _ |- _ => apply as_array_inv in H; rewrite H end.
    unfold Spec.games_list. schema.
    eapply Permutation_Forall; [apply sort_perm|].
    eapply map_r_Forall; [|eassumption]. apply ownedGame_shape.
  - unfold Steam.getMockOwnedGames, Date_now in *. unravel.
    match goal with H : _ = (Ok _, _) |- _ => inversion H; subst end.
    unfold Spec.games_list, Spec.owned_game, Steam.mockOwnedGame, Steam.seconds_ago. schema.
Qed.

(** The value a mock dataset function returned. *)
Ltac mock_value :=
  unfold Steam.getMockPlayerSummary, Steam.getMockSteamLevel,
    Steam.getMockOwnedGames, Steam.getMockRecentGames,
    Blizzard.getMockCharacterProfile, Blizzard.getMockMythicPlusProfile,
    Blizzard.getMockRaidProgress, Poe.getMockCharacters, Poe.getMockLeagues,
    Date_now in *;
  unravel;
  repeat match goal with
         | H : (_, _) = (Ok _, _) |- _ => inversion H; subst; clear H
         end.

Lemma fetchRecentGames_shape W config count s v s' :
  Steam.fetchRecentGames W config count s = (Ok v, s') ->
  Spec.games_list Spec.recent_game v.
Proof.
  intros H. unfold Steam.fetchRecentGames in H. unravel.
  - mock_value. unfold Spec.games_list, Spec.recent_game, Steam.mockRecentGame. schema.
  - match goal with H : as_array _ _ = Ok _ |- _ => apply as_array_inv in H; rewrite H end.
    unfold Spec.games_list. schema.
    eapply map_r_Forall; [|eassumption]. apply recentGame_shape.
  - mock_value. unfold Spec.games_list, Spec.recent_game, Steam.mockRecentGame. schema.
Qed.

Lemma fetchPlayerSummary_shape W config s v s' :
  Steam.fetchPlayerSummary W config s = (Ok v, s') ->
  Spec.has_keys ["steamId"; "personaName"; "avatarUrl"; "profileUrl";
                 "personaState"; "lastLogoff"; "timeCreated"; "realName";
                 "countryCode"] v.
Proof.
  intros H. unfold Steam.fetchPlayerSummary in H. unravel; try mock_value; schema.
Qed.

Lemma fetchSteamLevel_shape W config s v s' :
  Steam.fetchSteamLevel W config s = (Ok v, s') -> v <> VUndef.
Proof.
  intros H. unfold Steam.fetchSteamLevel in H. unravel; try mock_value; schema.
Qed.

Lemma summary_with_level (summary level : value) :
  Spec.has_keys ["steamId"; "personaName"; "avatarUrl"; "profileUrl";
                 "personaState"; "lastLogoff"; "timeCreated"; "realName";
                 "countryCode"] summary ->
  level <> VUndef ->
  Spec.steam_profile (VObj (set_field "level" level (spread summary))).
Proof.
  intros (fields & -> & Hkeys) Hlevel. cbn [spread].
  repeat (destruct fields as [|[? ?] fields]; try discriminate Hkeys).
  cbn [map fst] in Hkeys. inversion Hkeys; subst.
  unfold Spec.steam_profile. schema. exact Hlevel.
Qed.

Lemma fetchAllSteamData_shape W config s v s' :
  Steam.fetchAllSteamData W config s = (Ok v, s') -> Spec.steam_bundle v.
Proof.
  intros H. unfold Steam.fetchAllSteamData in H. unravel.
  unfold Spec.steam_bundle. schema.
  - eapply summary_with_level.
    + eapply fetchPlayerSummary_shape; eassumption.
    + eapply fetchSteamLevel_shape; eassumption.
  - eapply fetchOwnedGames_shape; eassumption.
  - eapply fetchRecentGames_shape; eassumption.
Qed.

Lemma fetchCharacterProfile_shape W config s v s' :
  Blizzard.fetchCharacterProfile W config s = (Ok v, s') -> Spec.wow_profile v.
Proof.
  intros H. unfold Blizzard.fetchCharacterProfile in H. unravel.
  - unfold Spec.wow_profile. schema.
  - mock_value. unfold Spec.wow_profile. schema.
Qed.

Lemma bestRun_shape run mapped :
  Blizzard.bestRun run = Ok mapped -> Spec.best_run mapped.
Proof.
  unfold Blizzard.bestRun, bind.
  destruct (get run "dungeon") as [dungeon|]; [|discriminate].
  destruct (as_array _ _) as [affixes|]; [|discriminate].
  destruct (map_r Blizzard.affixName affixes) as [names|]; [|discriminate].
  intro H. inversion H; subst. unfold Spec.best_run. schema.
Qed.

Lemma fetchMythicPlusProfile_shape W config s v s' :
  Blizzard.fetchMythicPlusProfile W config s = (Ok v, s') -> Spec.mythic_plus v.
Proof.
  intros H. unfold Blizzard.fetchMythicPlusProfile in H. unravel.
  - unfold Spec.mythic_plus. schema.
    eapply map_r_Forall; [|eassumption]. apply bestRun_shape.
  - mock_value. unfold Spec.mythic_plus, Spec.best_run, Blizzard.mockRun. schema.
Qed.

Lemma raidMode_shape W mode mapped :
  Blizzard.raidMode W mode = Ok mapped -> Spec.raid_mode mapped.
Proof.
  unfold Blizzard.raidMode, bind.
  destruct (get mode "difficulty") as [difficulty|]; [|discriminate].
  intro H. inversion H; subst. unfold Spec.raid_mode. schema.
Qed.

Lemma raidInstance_shape W raid mapped :
  Blizzard.raidInstance W raid = Ok mapped -> Spec.raid mapped.
Proof.
  unfold Blizzard.raidInstance, bind.
  destruct (get raid "instance") as [instance|]; [|discriminate].
  destruct (as_array _ _) as [modes|]; [|discriminate].
  destruct (map_r (Blizzard.raidMode W) modes) as [mapped'|] eqn:Hmodes;
    [|discriminate].
  intro H. inversion H; subst. unfold Spec.raid. schema.
  eapply map_r_Forall; [|eassumption]. apply raidMode_shape.
Qed.

Lemma fetchRaidProgress_shape W config s v s' :
  Blizzard.fetchRaidProgress W config s = (Ok v, s') -> Spec.raid_progress v.
Proof.
  intros H. unfold Blizzard.fetchRaidProgress in H. unravel.
  - unfold Spec.raid_progress. schema.
    eapply map_r_Forall; [|eassumption]. apply raidInstance_shape.
  - mock_value. unfold Spec.raid_progress, Spec.raid, Spec.raid_mode, Blizzard.mockMode. schema.
  - mock_value. unfold Spec.raid_progress, Spec.raid, Spec.raid_mode, Blizzard.mockMode. schema.
Qed.

Lemma fetchAllWoWData_shape W config s v s' :
  Blizzard.fetchAllWoWData W config s = (Ok v, s') -> Spec.wow_bundle v.
Proof.
  intros H. unfold Blizzard.fetchAllWoWData in H. unravel.
  unfold Spec.wow_bundle. schema.
  - eapply fetchCharacterProfile_shape; eassumption.
  - eapply fetchMythicPlusProfile_shape; eassumption.
  - eapply fetchRaidProgress_shape; eassumption.
Qed.

Lemma or_boolean (a b : value) :
  Spec.is_boolean a -> Spec.is_boolean b -> Spec.is_boolean (or_ a b).
Proof. intros Ha Hb. unfold or_. destruct (truthy a); assumption. Qed.

Lemma fetchCharacters_shape W config s v s' :
  Poe.fetchCharacters W config s = (Ok v, s') ->
  exists characters flag,
    v = VObj [("characters", characters); ("isMockData", VBool flag)]
    /\ characters <> VUndef.
Proof.
  intros H. unfold Poe.fetchCharacters in H. unravel; try mock_value;
    do 2 eexists; (split; [reflexivity | schema]).
Qed.

Lemma fetchLeagues_shape W config s v s' :
  Poe.fetchLeagues W config s = (Ok v, s') ->
  exists leagues flag,
    v = VObj [("leagues", leagues); ("isMockData", VBool flag)]
    /\ leagues <> VUndef.
Proof.
  intros H. unfold Poe.fetchLeagues in H. unravel; try mock_value;
    do 2 eexists; (split; [reflexivity | schema]).
Qed.

Lemma fetchAccountProfile_shape W config s v s' :
  Poe.fetchAccountProfile W config s = (Ok v, s') -> Spec.poe_account v.
Proof.
  intros H. unfold Poe.fetchAccountProfile in H. unravel;
    unfold Spec.poe_account; schema.
Qed.

Lemma getCurrentLeague_defined W leagues league :
  Poe.getCurrentLeague W leagues = Ok league -> league <> VUndef.
Proof.
  unfold Poe.getCurrentLeague.
  destruct leagues as [| | | | |[|first rest]|]; intro H;
    try (inversion H; subst; discriminate).
  unfold bind in H.
  destruct (find_r (Poe.isChallengeLeague W) (first :: rest)) as [found|] eqn:Hfind;
    [|discriminate].
  inversion H; subst. apply or_defined. cbn [at_index nth].
  cbn [find_r] in Hfind. unfold bind in Hfind.
  destruct (Poe.isChallengeLeague W first) eqn:Hfirst; [|discriminate].
  unfold Poe.isChallengeLeague, Poe.id_includes, bind, get in Hfirst.
  destruct first; try discriminate; cbn [nullish] in Hfirst; discriminate.
Qed.

Lemma fetchAllPOE2Data_shape W config s v s' :
  Poe.fetchAllPOE2Data W config s = (Ok v, s') -> Spec.poe_bundle v.
Proof.
  intros H. unfold Poe.fetchAllPOE2Data in H. unravel.
  repeat match goal with
         | H : Poe.fetchCharacters _ _ _ = _ |- _ =>
             apply fetchCharacters_shape in H;
             destruct H as (characters & cflag & -> & Hcharacters)
         | H : Poe.fetchLeagues _ _ _ = _ |- _ =>
             apply fetchLeagues_shape in H;
             destruct H as (leagues & lflag & -> & Hleagues)
         | H : Poe.fetchAccountProfile _ _ _ = _ |- _ =>
             apply fetchAccountProfile_shape in H
         | H : Poe.getCurrentLeague _ _ = _ |- _ =>
             apply getCurrentLeague_defined in H
         | H : get _ _ = Ok _ |- _ => inversion H; subst; clear H
         end.
  unfold Spec.poe_bundle. schema; try assumption.
  match goal with
  | Hp : Spec.poe_account _ |- _ => destruct Hp as (_ & _ & Hflag)
  end.
  repeat apply or_boolean; try (eexists; reflexivity). exact Hflag.
Qed.

(** C7, as stated, fails twice.  On the live path a Steam player that comes
    without [realname] and [lastlogoff] leaves [realName] and [lastLogoff]
    unset in the bundle (the fallback profile has [realName: null]).  And
    the Path of Exile bundle has no parity below its top level: the live
    characters are the upstream's own objects and the live current league
    of an empty list is [{name, type}], where the fallback characters and
    league have six properties each. *)
Lemma live_bundles_break_parity :
  (let bundle :=
     Spec.value_of (Steam.fetchAllSteamData Fixtures.steam_live
                      Fixtures.configured (initial 0)) in
   prop bundle "isMockData" = VBool false
   /\ prop (prop bundle "profile") "personaName" = VStr "Player One"
   /\ prop (prop bundle "profile") "realName" = VUndef
   /\ prop (prop bundle "profile") "lastLogoff" = VUndef
   /\ prop (Spec.value_of (Steam.getMockPlayerSummary (initial 0))) "realName"
      = VNull)
  /\ (let live :=
        Spec.value_of
          (Poe.fetchAllPOE2Data
             (Fixtures.always
                (Fixtures.reply 200 "OK"
                   (Json (VObj [("characters",
                                 VArr [VObj [("name", VStr "Exile")]])]))))
             Fixtures.configured (initial 0)) in
      let mock :=
        Spec.value_of
          (Poe.fetchAllPOE2Data Fixtures.unreachable Fixtures.configured
             (initial 0)) in
      prop live "isMockData" = VBool false
      /\ prop mock "isMockData" = VBool true
      /\ keys (prop live "currentLeague") = ["name"; "type"]
      /\ keys (prop mock "currentLeague")
         = ["id"; "name"; "realm"; "startAt"; "endAt"; "rules"]
      /\ keys (at_index (prop live "characters") 0) = ["name"]
      /\ keys (at_index (prop mock "characters") 0)
         = ["name"; "class"; "level"; "league"; "experience"; "lastActive"]).
Proof. vm_compute. repeat split. Qed.

(** C7, amended.  Whenever [fetchAll] of Steam, World of Warcraft or Path of
    Exile returns a bundle, on the live path as on the fallback path, the
    bundle has exactly the top-level properties of its schema and a boolean
    [isMockData].  For Steam and World of Warcraft the records and list
    items inside it (profile, games, best runs, raids and their modes) have
    exactly the properties of the schema as well, and every property the
    adapter computes or gives a default is set.  For Path of Exile the
    account has exactly [name], [realm] and a boolean [isMockData], with
    [name] and [realm] set, and [characters], [leagues] and [currentLeague]
    are set; what is inside these three is the upstream's and is not fixed.
    The properties copied as they come from the upstream object carry no
    guarantee of being set. *)
Theorem bundles_have_schema_shape :
  forall (W : World) (config : Config) (s s' : State) (bundle : value),
    (Steam.fetchAllSteamData W config s = (Ok bundle, s') ->
     Spec.steam_bundle bundle)
    /\ (Blizzard.fetchAllWoWData W config s = (Ok bundle, s') ->
        Spec.wow_bundle bundle)
    /\ (Poe.fetchAllPOE2Data W config s = (Ok bundle, s') ->
        Spec.poe_bundle bundle).
Proof.
  intros W config s s' bundle. split; [|split].
  - apply fetchAllSteamData_shape.
  - apply fetchAllWoWData_shape.
  - apply fetchAllPOE2Data_shape.
Qed.

Lemma bundles_have_schema_shape_witness :
  (exists bundle s',
     Steam.fetchAllSteamData Fixtures.steam_live Fixtures.configured (initial 0)
     = (Ok bundle, s')
     /\ prop bundle "isMockData" = VBool false
     /\ Spec.steam_bundle bundle)
  /\ (exists bundle s',
        Steam.fetchAllSteamData Fixtures.unreachable Fixtures.unconfigured
          (initial 0)
        = (Ok bundle, s')
        /\ prop bundle "isMockData" = VBool true
        /\ Spec.steam_bundle bundle)
  /\ (exists bundle s',
        Poe.fetchAllPOE2Data
          (Fixtures.always
             (Fixtures.reply 200 "OK"
                (Json (VObj [("characters",
                              VArr [VObj [("name", VStr "Exile")]])]))))
          Fixtures.configured (initial 0)
        = (Ok bundle, s')
        /\ prop bundle "isMockData" = VBool false
        /\ Spec.poe_bundle bundle).
Proof.
  split; [|split].
  - pose (run := Steam.fetchAllSteamData Fixtures.steam_live Fixtures.configured
                   (initial 0)).
    assert (Hrun : run = (Ok (Spec.value_of run), snd run))
      by (vm_compute; reflexivity).
    exists (Spec.value_of run), (snd run).
    split; [exact Hrun|]. split; [vm_compute; reflexivity|].
    exact (proj1 (bundles_have_schema_shape Fixtures.steam_live
                    Fixtures.configured (initial 0) (snd run)
                    (Spec.value_of run)) Hrun).
  - pose (run := Steam.fetchAllSteamData Fixtures.unreachable
                   Fixtures.unconfigured (initial 0)).
    assert (Hrun : run = (Ok (Spec.value_of run), snd run))
      by (vm_compute; reflexivity).
    exists (Spec.value_of run), (snd run).
    split; [exact Hrun|]. split; [vm_compute; reflexivity|].
    exact (proj1 (bundles_have_schema_shape Fixtures.unreachable
                    Fixtures.unconfigured (initial 0) (snd run)
                    (Spec.value_of run)) Hrun).
  - pose (run := Poe.fetchAllPOE2Data
                   (Fixtures.always
                      (Fixtures.reply 200 "OK"
                         (Json (VObj [("characters",
                                       VArr [VObj [("name", VStr "Exile")]])]))))
                   Fixtures.configured (initial 0)).
    assert (Hrun : run = (Ok (Spec.value_of run), snd run))
      by (vm_compute; reflexivity).
    exists (Spec.value_of run), (snd run).
    split; [exact Hrun|]. split; [vm_compute; reflexivity|].
    exact (proj2 (proj2 (bundles_have_schema_shape
                           (Fixtures.always
                              (Fixtures.reply 200 "OK"
                                 (Json (VObj [("characters",
                                               VArr [VObj [("name", VStr "Exile")]])]))))
                           Fixtures.configured (initial 0) (snd run)
                           (Spec.value_of run))) Hrun).
Defined.

(* ================================================================= *)
(** ** Further properties of the services *)

(** *** The token manager: further properties *)

(** Every way through [getAccessToken] ends in a value. *)
Lemma getAccessToken_total :
  forall (W : World) (config : Config) (s : State),
    exists token s',
      Blizzard.getAccessToken W config s = (Ok token, s')
      /\ (token = VNull \/ token = accessToken s')
      /\ (requests s' = requests s
          \/ requests s' = requests s ++ [Blizzard.token_request W config]).
Proof.
  intros W config s. rewrite getAccessToken_cases.
  destruct (Spec.cache_valid s).
  { do 2 eexists. split; [reflexivity|]. split; [right|left]; reflexivity. }
  destruct ((wow_clientId config =? "") || (wow_clientSecret config =? "")).
  { do 2 eexists. split; [reflexivity|]. split; left; reflexivity. }
  destruct (transport W (clock s) (Blizzard.token_request W config))
    as [response|msg].
  - cbv zeta. destruct (negb (ok response)).
    { do 2 eexists. split; [reflexivity|]. split; [left|right]; reflexivity. }
    destruct (json response) as [data|msg].
    + destruct (nullish data).
      * do 2 eexists. split; [reflexivity|]. split; [left|right]; reflexivity.
      * do 2 eexists. split; [reflexivity|]. split; right; reflexivity.
    + do 2 eexists. split; [reflexivity|]. split; [left|right]; reflexivity.
  - do 2 eexists. split; [reflexivity|]. split; [left|right]; reflexivity.
Qed.

(** X1.  [getAccessToken] never raises: it completes with [null] or with
    the token that is cached when it returns, and adds to the log at most
    its one token request. *)
Theorem getAccessToken_never_raises :
  forall (W : World) (config : Config) (s : State),
    exists token s',
      Blizzard.getAccessToken W config s = (Ok token, s')
      /\ (token = VNull \/ token = accessToken s')
      /\ (requests s' = requests s
          \/ requests s' = requests s ++ [Blizzard.token_request W config]).
Proof. exact getAccessToken_total. Qed.

(** X2.  A failed token exchange costs one request and changes nothing
    else: [getAccessToken] returns [null], and [accessToken] and
    [tokenExpiry] are what they were, an expired token included; the failure
    itself is not recorded anywhere. *)
Theorem failed_exchange_keeps_cache :
  forall (W : World) (config : Config) (s : State),
    Spec.credentials_configured config ->
    Spec.cache_valid s = false ->
    Spec.exchange_fails W config s ->
    exists s',
      Blizzard.getAccessToken W config s = (Ok VNull, s')
      /\ accessToken s' = accessToken s
      /\ tokenExpiry s' = tokenExpiry s
      /\ requests s' = requests s ++ [Blizzard.token_request W config].
Proof.
  intros W config s Hcfg Hcache Hfails.
  exists (record_request W (Blizzard.token_request W config) s).
  split; [|split; [reflexivity | split; reflexivity]].
  rewrite getAccessToken_cases, Hcache, (configured_guard config Hcfg).
  unfold Spec.exchange_fails in Hfails.
  destruct (transport W (clock s) (Blizzard.token_request W config))
    as [response|msg]; [|reflexivity].
  cbv zeta. destruct Hfails as [Hok | [Hok Hbody]]; rewrite Hok; [reflexivity|].
  cbn [negb]. destruct (json response) as [data|msg]; [|reflexivity].
  rewrite Hbody. reflexivity.
Qed.

Lemma failed_exchange_keeps_cache_witness :
  exists s',
    Blizzard.getAccessToken
      (Fixtures.always (Fixtures.reply 503 "Service Unavailable" (Unparsable "Unexpected token")))
      Fixtures.configured (Fixtures.stale 5000) = (Ok VNull, s')
    /\ accessToken s' = VStr "old-token"
    /\ tokenExpiry s' = of_Z 4000
    /\ requests s'
       = requests (Fixtures.stale 5000)
           ++ [Blizzard.token_request
                 (Fixtures.always (Fixtures.reply 503 "Service Unavailable" (Unparsable "Unexpected token")))
                 Fixtures.configured].
Proof.
  apply (failed_exchange_keeps_cache
           (Fixtures.always (Fixtures.reply 503 "Service Unavailable" (Unparsable "Unexpected token")))
           Fixtures.configured (Fixtures.stale 5000)).
  - split; discriminate.
  - reflexivity.
  - left. reflexivity.
Defined.

(** X3.  A token granted for 300 seconds or less is stored already expired:
    the expiry written is not after the time of issue, so no later call is
    served from the cache. *)
Theorem short_lived_token_never_reused :
  forall (W : World) (config : Config) (s0 : State) (token : value) (e : Q),
    Spec.credentials_configured config ->
    Spec.cache_valid s0 = false ->
    Spec.exchange_succeeds W config s0 token e ->
    (e <= 300)%Q ->
    exists s1,
      Blizzard.getAccessToken W config s0 = (Ok token, s1)
      /\ forall s2 : State,
           tokenExpiry s2 = tokenExpiry s1 ->
           (clock s1 <= clock s2)%Z ->
           Spec.cache_valid s2 = false.
Proof.
  intros W config s0 token e Hcfg Hcache
    (response & data & Ht & Hok & Hjson & Hdata & Htoken & Hexp) Hshort.
  eexists. split.
  - rewrite getAccessToken_cases, Hcache, (configured_guard config Hcfg).
    rewrite Ht, Hok, Hjson. cbv zeta. cbn [negb]. cbv iota.
    rewrite Hdata, Htoken. reflexivity.
  - intros s2 Hexpiry Hlater. unfold Spec.cache_valid.
    rewrite Hexpiry. cbn [tokenExpiry clock record_request].
    rewrite Hexp. cbn [js_sub to_number vint num_sub num_mul num_add num_lt of_Z].
    apply andb_false_iff. right. apply negb_false_iff, Qle_bool_iff.
    set (issued := (clock s0 + latency W (clock s0) (Blizzard.token_request W config))%Z) in *.
    assert (Hq : (inject_Z issued <= inject_Z (clock s2))%Q)
      by (rewrite <- Zle_Qle; exact Hlater).
    assert (H300 : (inject_Z 300 == 300)%Q) by reflexivity.
    assert (H1000 : (inject_Z 1000 == 1000)%Q) by reflexivity.
    rewrite H300, H1000. nra.
Qed.

Lemma short_lived_token_never_reused_witness :
  exists s1,
    Blizzard.getAccessToken Fixtures.blizzard_brief Fixtures.configured (initial 0)
      = (Ok (VStr "brief"), s1)
    /\ forall s2 : State,
         tokenExpiry s2 = tokenExpiry s1 ->
         (clock s1 <= clock s2)%Z ->
         Spec.cache_valid s2 = false.
Proof.
  apply (short_lived_token_never_reused Fixtures.blizzard_brief
           Fixtures.configured (initial 0) (VStr "brief") 120%Q).
  - split; discriminate.
  - reflexivity.
  - do 2 eexists. repeat split; reflexivity.
  - discriminate.
Defined.

(** Every way through [blizzardFetch] ends in a value. *)
Lemma blizzardFetch_total :
  forall (W : World) (config : Config) (endpoint : string)
         (params : list (string * string)) (s : State),
    exists data s',
      Blizzard.blizzardFetch W config endpoint params s = (Ok data, s')
      /\ List.length (requests s') <= List.length (requests s) + 2
      /\ (data = VNull
          \/ exists t token response,
               truthy token = true
               /\ transport W t (Blizzard.api_request W config endpoint params token)
                  = Responds response
               /\ ok response = true
               /\ json response = Json data).
Proof.
  intros W config endpoint params s.
  destruct (getAccessToken_total W config s)
    as (token & s1 & Htoken & _ & Hlog).
  assert (Hlen : List.length (requests s1) <= List.length (requests s) + 1).
  { destruct Hlog as [-> | ->]; [lia | rewrite length_app; simpl; lia]. }
  unfold Blizzard.blizzardFetch, mbind. rewrite Htoken.
  destruct (truthy token) eqn:Htruthy; decide_branch.
  2:{ exists VNull, s1. split; [reflexivity|]. split; [lia | left; reflexivity]. }
  unfold try_catch, mbind, fetch.
  destruct (transport W (clock s1)
              (Blizzard.api_request W config endpoint params token))
    as [response|msg] eqn:Ht.
  - destruct (ok response) eqn:Hok; decide_branch.
    + unfold response_json. destruct (json response) as [data|msg] eqn:Hjson.
      * exists data. eexists. split; [reflexivity|]. split.
        -- cbn [requests record_request]. rewrite length_app. simpl. lia.
        -- right. exists (clock s1), token, response. auto.
      * exists VNull. eexists. split; [reflexivity|]. split.
        -- cbn [requests record_request]. rewrite length_app. simpl. lia.
        -- left. reflexivity.
    + exists VNull. eexists. split; [reflexivity|]. split.
      * cbn [requests record_request]. rewrite length_app. simpl. lia.
      * left. reflexivity.
  - exists VNull. eexists. split; [reflexivity|]. split.
    + cbn [requests record_request]. rewrite length_app. simpl. lia.
    + left. reflexivity.
Qed.

(** X4.  [blizzardFetch] never raises and issues at most two requests (the
    token request and the data request); what it returns is [null] or the
    parsed body of a successful answer to a data request that carried a
    truthy token. *)
Theorem blizzardFetch_null_or_body :
  forall (W : World) (config : Config) (endpoint : string)
         (params : list (string * string)) (s : State),
    exists data s',
      Blizzard.blizzardFetch W config endpoint params s = (Ok data, s')
      /\ List.length (requests s') <= List.length (requests s) + 2
      /\ (data = VNull
          \/ exists t token response,
               truthy token = true
               /\ transport W t (Blizzard.api_request W config endpoint params token)
                  = Responds response
               /\ ok response = true
               /\ json response = Json data).
Proof. exact blizzardFetch_total. Qed.

(** X5.  [fetchCharacterProfile] never raises: whatever the upstream does,
    it returns a profile with every property of the schema, those with a
    default being set. *)
Theorem fetchCharacterProfile_always_returns :
  forall (W : World) (config : Config) (s : State),
    exists profile s',
      Blizzard.fetchCharacterProfile W config s = (Ok profile, s')
      /\ Spec.wow_profile profile.
Proof.
  intros W config s.
  destruct (blizzardFetch_total W config
              (Blizzard.character_endpoint config) [] s)
    as (data & s1 & Hfetch & _).
  assert (Hrun : exists profile s',
            Blizzard.fetchCharacterProfile W config s = (Ok profile, s')).
  { unfold Blizzard.fetchCharacterProfile, mbind. rewrite Hfetch.
    destruct (truthy data); do 2 eexists; reflexivity. }
  destruct Hrun as (profile & s' & Hrun).
  exists profile, s'. split; [exact Hrun|].
  eapply fetchCharacterProfile_shape; exact Hrun.
Qed.

(** X6.  [fetchMythicPlusProfile] never returns more than five best runs;
    on the live path they are the first five runs the upstream lists, in
    its order. *)
Theorem fetchMythicPlusProfile_first_five :
  forall (W : World) (config : Config) (s s' : State) (mythicPlus : value),
    Blizzard.fetchMythicPlusProfile W config s = (Ok mythicPlus, s') ->
    exists runs,
      prop mythicPlus "bestRuns" = VArr runs
      /\ List.length runs <= 5
      /\ forall data listed,
           Blizzard.blizzardFetch W config
             (Blizzard.character_endpoint config
                ++ "/mythic-keystone-profile/season/current") [] s
           = (Ok data, s') ->
           truthy data = true ->
           prop data "best_runs" = VArr listed ->
           map_r Blizzard.bestRun (firstn 5 listed) = Ok runs.
Proof.
  intros W config s s' mythicPlus Hrun.
  unfold Blizzard.fetchMythicPlusProfile in Hrun.
  apply mbind_ok_inv in Hrun. destruct Hrun as (data & s1 & Hfetch & Hrun).
  destruct (truthy data) eqn:Htruthy.
  - unravel. match goal with
             | H : Blizzard.first_five _ = Ok ?items,
               Hm : map_r Blizzard.bestRun ?items = Ok ?mapped |- _ =>
                 rename H into Hfive; rename Hm into Hmap; rename items into cut;
                 rename mapped into runs
             end.
    exists runs. compute_props. split; [reflexivity|].
    assert (Hcut : List.length cut <= 5).
    { unfold Blizzard.first_five in Hfive.
      destruct (or_ (prop data "best_runs") (VArr [])) as [| | | | |items|];
        try discriminate Hfive.
      inversion Hfive; subst. rewrite slice_from_start by lia.
      apply firstn_le_length. }
    split.
    + apply map_r_inv in Hmap. apply Forall2_length in Hmap. lia.
    + intros data' listed Hfetch' Htruthy' Hlisted.
      rewrite Hfetch in Hfetch'. inversion Hfetch'; subst data'.
      unfold or_ in Hfive. rewrite Hlisted in Hfive. cbn [truthy] in Hfive.
      unfold Blizzard.first_five in Hfive. inversion Hfive; subst cut.
      rewrite slice_from_start in Hmap by lia. exact Hmap.
  - mock_value. eexists. compute_props. split; [reflexivity|].
    split; [simpl; lia|].
    intros data' listed Hfetch' Htruthy'.
    rewrite Hfetch in Hfetch'. inversion Hfetch'; subst. congruence.
Qed.

Lemma fetchMythicPlusProfile_first_five_witness :
  exists runs,
    prop (Spec.value_of (Blizzard.fetchMythicPlusProfile Fixtures.blizzard_seven_runs
                           Fixtures.configured (initial 0))) "bestRuns"
    = VArr runs
    /\ List.length runs = 5.
Proof.
  pose (run := Blizzard.fetchMythicPlusProfile Fixtures.blizzard_seven_runs
                 Fixtures.configured (initial 0)).
  assert (Hrun : run = (Ok (Spec.value_of run), snd run))
    by (vm_compute; reflexivity).
  destruct (fetchMythicPlusProfile_first_five _ _ _ _ _ Hrun) as (runs & Hruns & _).
  exists runs. split; [exact Hruns|].
  vm_compute in Hruns. inversion Hruns. reflexivity.
Defined.

Lemma Qred_inject_Z (a : Z) : Qred (inject_Z a) = inject_Z a.
Proof.
  unfold Qred, inject_Z.
  pose proof (Z.ggcd_gcd a 1) as Hg.
  pose proof (Z.ggcd_correct_divisors a 1) as Hd.
  destruct (Z.ggcd a 1) as [g [aa bb]]. simpl in *.
  rewrite Z.gcd_1_r in Hg. subst g. destruct Hd as [Ha Hb].
  assert (bb = 1%Z) by lia. subst bb. assert (aa = a) by lia. subst aa.
  reflexivity.
Qed.

(** [xs[xs.length - 1]] is the last item of a non-empty array. *)
Lemma at_num_last (P : Platform) (earlier : list value) (last : value) :
  at_num P (VArr (earlier ++ [last]))
    (js_sub P (prop (VArr (earlier ++ [last])) "length") (vint 1))
  = last.
Proof.
  cbn [prop String.eqb Ascii.eqb Bool.eqb]. unfold vnat, of_nat, vint.
  cbn [js_sub to_number num_sub of_Z at_num].
  rewrite length_app. cbn [List.length].
  replace (Z.of_nat (List.length earlier + 1)) with (Z.of_nat (List.length earlier) + 1)%Z
    by lia.
  assert (Hq : Qred (inject_Z (Z.of_nat (List.length earlier) + 1) - inject_Z 1)
               = inject_Z (Z.of_nat (List.length earlier))).
  { transitivity (Qred (inject_Z (Z.of_nat (List.length earlier))));
      [|apply Qred_inject_Z].
    apply Qred_complete. rewrite inject_Z_plus. ring. }
  rewrite Hq. cbn [Qden Qnum inject_Z].
  replace (Z.pos 1 =? 1)%Z with true by reflexivity.
  replace (0 <=? Z.of_nat (List.length earlier))%Z with true
    by (symmetry; apply Z.leb_le; lia).
  cbn [andb at_index]. rewrite Nat2Z.id.
  rewrite app_nth2 by lia. rewrite Nat.sub_diag. reflexivity.
Qed.

(** X7.  [fetchRaidProgress] reports the last expansion the upstream lists;
    when the profile lists no expansion at all it returns the mock raid
    progress instead. *)
Theorem fetchRaidProgress_last_expansion :
  forall (W : World) (config : Config) (s s1 : State) (data : value),
    Blizzard.blizzardFetch W config
      (Blizzard.character_endpoint config ++ "/encounters/raids") [] s
    = (Ok data, s1) ->
    truthy data = true ->
    (forall earlier last instances raids,
       prop data "expansions" = VArr (earlier ++ [last]) ->
       prop last "instances" = VArr instances ->
       map_r (Blizzard.raidInstance W) instances = Ok raids ->
       Blizzard.fetchRaidProgress W config s
       = (Ok (VObj [
            ("expansionName",
             or_ (opt (prop last "expansion") "name") (VStr "Current Expansion"));
            ("raids", VArr raids)]), s1))
    /\ (truthy (prop data "expansions") = false
        \/ prop data "expansions" = VArr [] ->
        Blizzard.fetchRaidProgress W config s = Blizzard.getMockRaidProgress s1).
Proof.
  intros W config s s1 data Hfetch Htruthy. split.
  - intros earlier last instances raids Hexpansions Hinstances Hraids.
    unfold Blizzard.fetchRaidProgress, mbind. rewrite Hfetch, Htruthy.
    rewrite Hexpansions.
    change (or_ (VArr (earlier ++ [last])) (VArr [])) with (VArr (earlier ++ [last])).
    cbv zeta. rewrite at_num_last, Hinstances.
    assert (Hlast : truthy last = true).
    { destruct last; compute_props; try discriminate Hinstances; reflexivity. }
    rewrite Hlast. cbn [truthy andb as_array lift]. rewrite Hraids. reflexivity.
  - intros Hnone.
    unfold Blizzard.fetchRaidProgress, mbind. rewrite Hfetch, Htruthy.
    assert (Hdefault : or_ (prop data "expansions") (VArr []) = VArr []).
    { destruct Hnone as [Hfalsy | Hempty].
      - unfold or_. rewrite Hfalsy. reflexivity.
      - rewrite Hempty. reflexivity. }
    rewrite Hdefault. reflexivity.
Qed.

Lemma fetchRaidProgress_last_expansion_witness :
  prop (Spec.value_of (Blizzard.fetchRaidProgress Fixtures.blizzard_two_expansions
                         Fixtures.configured (initial 0))) "expansionName"
  = VStr "The War Within".
Proof.
  pose (fetched := Blizzard.blizzardFetch Fixtures.blizzard_two_expansions Fixtures.configured
                     (Blizzard.character_endpoint Fixtures.configured
                        ++ "/encounters/raids") [] (initial 0)).
  assert (Hfetch : fetched = (Ok Fixtures.raidsBody, snd fetched))
    by (vm_compute; reflexivity).
  destruct (fetchRaidProgress_last_expansion Fixtures.blizzard_two_expansions Fixtures.configured (initial 0)
              (snd fetched) Fixtures.raidsBody Hfetch eq_refl) as [Hlast _].
  pose (instances := [VObj [("instance", VObj [("name", VStr "Nerub-ar Palace")]);
                   ("modes", VArr [
                      VObj [("difficulty", VObj [("name", VStr "Heroic")]);
                            ("status", VObj [("type", VStr "COMPLETE")]);
                            ("progress", VObj [("completed_count", vint 8);
                                               ("total_count", vint 8)])]])]]).
  rewrite (Hlast
    [VObj [("expansion", VObj [("name", VStr "Dragonflight")]);
           ("instances", VArr [
              VObj [("instance", VObj [("name", VStr "Vault of the Incarnates")]);
                    ("modes", VArr [])]])]]
    (VObj [("expansion", VObj [("name", VStr "The War Within")]);
           ("instances", VArr instances)])
    instances
    (match map_r (Blizzard.raidInstance Fixtures.blizzard_two_expansions) instances with
     | Ok raids => raids
     | Throw _ => []
     end)
    eq_refl eq_refl eq_refl).
  reflexivity.
Defined.

(** X8.  Without Blizzard credentials (and no token ever cached),
    [fetchAllWoWData] issues no request and returns the three mock datasets
    with [isMockData] true. *)
Theorem fetchAllWoWData_unconfigured :
  forall (W : World) (config : Config) (s : State),
    wow_clientId config = "" \/ wow_clientSecret config = "" ->
    accessToken s = VNull ->
    Blizzard.fetchAllWoWData W config s
    = (Ok (VObj [
         ("profile", Spec.value_of (Blizzard.getMockCharacterProfile config s));
         ("mythicPlus", Spec.value_of (Blizzard.getMockMythicPlusProfile s));
         ("raids", Spec.value_of (Blizzard.getMockRaidProgress s));
         ("isMockData", VBool true)]), s).
Proof.
  intros W config s Hmissing Hempty.
  destruct (wow_without_credentials W config s Hmissing Hempty)
    as (Hprofile & Hmythic & Hraids).
  unfold Blizzard.fetchAllWoWData, mbind.
  rewrite Hprofile. cbn. rewrite Hmythic. cbn. rewrite Hraids. cbn.
  rewrite Hempty. reflexivity.
Qed.

Lemma fetchAllWoWData_unconfigured_witness :
  Blizzard.fetchAllWoWData Fixtures.unreachable Fixtures.unconfigured (initial 7)
  = (Ok (VObj [
       ("profile",
        Spec.value_of (Blizzard.getMockCharacterProfile Fixtures.unconfigured (initial 7)));
       ("mythicPlus", Spec.value_of (Blizzard.getMockMythicPlusProfile (initial 7)));
       ("raids", Spec.value_of (Blizzard.getMockRaidProgress (initial 7)));
       ("isMockData", VBool true)]), initial 7).
Proof.
  apply (fetchAllWoWData_unconfigured Fixtures.unreachable Fixtures.unconfigured
           (initial 7)); [left|]; reflexivity.
Defined.

(** X9.  [loadData] of the World of Warcraft panel never lets an exception
    out and always ends the loading state: it leaves either a bundle of the
    schema with no error, or a non-empty error message with the data shown
    before. *)
Theorem loadData_settles :
  forall (W : World) (config : Config) (c : WoWStats.Component) (s : State),
    let c' := fst (WoWStats.loadData W config c s) in
    WoWStats.loading c' = false
    /\ ((WoWStats.error c' = VNull /\ Spec.wow_bundle (WoWStats.data c'))
        \/ (exists msg, WoWStats.error c' = VStr msg /\ msg <> ""
                        /\ WoWStats.data c' = WoWStats.data c)).
Proof.
  intros W config c s. unfold WoWStats.loadData.
  destruct (Blizzard.fetchAllWoWData W config s) as [[bundle|err] s'] eqn:Hrun;
    cbn [fst WoWStats.loading WoWStats.error WoWStats.data].
  - split; [reflexivity|]. left. split; [reflexivity|].
    eapply fetchAllWoWData_shape; exact Hrun.
  - split; [reflexivity|]. right. unfold or_. cbn [truthy].
    destruct (emessage err =? "") eqn:Hmsg; cbn [negb].
    + exists "Failed to load WoW data". repeat split. discriminate.
    + exists (emessage err). repeat split. apply String.eqb_neq. exact Hmsg.
Qed.

(** *** Steam: further properties *)

Lemma prefix_empty (t : string) : String.prefix EmptyString t = true.
Proof. destruct t; reflexivity. Qed.

Lemma includes_first_absent (c : ascii) (rest hay : string) :
  includes (String c EmptyString) hay = false ->
  includes (String c rest) hay = false.
Proof.
  induction hay as [|h t IH]; cbn [includes String.prefix]; intro H.
  - reflexivity.
  - destruct (ascii_dec c h) as [Heq | Hneq];
      [rewrite prefix_empty in H; discriminate H|].
    cbn [orb] in *. apply IH. exact H.
Qed.

Lemma includes_single_app (c : ascii) (a b : string) :
  includes (String c EmptyString) a = false ->
  includes (String c EmptyString) b = false ->
  includes (String c EmptyString) (String.append a b) = false.
Proof.
  intros Ha Hb. induction a as [|h t IH].
  - exact Hb.
  - cbn [append includes String.prefix] in *.
    destruct (ascii_dec c h); [rewrite prefix_empty in Ha; discriminate Ha|].
    cbn [orb] in *. apply IH. exact Ha.
Qed.

Lemma includes_single_other (c d : ascii) (hay : string) :
  includes (String d EmptyString) hay = true ->
  includes (String c EmptyString) hay = false ->
  includes (String c EmptyString) (String d EmptyString) = false.
Proof.
  intros Hd Hc. cbn [includes String.prefix].
  destruct (ascii_dec c d) as [-> | ]; [congruence | reflexivity].
Qed.

(** The decimal digits of an integer hold no letter. *)
Lemma digits_hold_no_letter (c : ascii) (z : Z) :
  includes (String c EmptyString) "-0123456789" = false ->
  includes (String c EmptyString) (string_of_Z z) = false.
Proof.
  intro Hc.
  assert (Huint : forall u, includes (String c EmptyString)
                              (NilEmpty.string_of_uint u) = false).
  { induction u; cbn [NilEmpty.string_of_uint]; try reflexivity;
      match goal with
      | |- includes _ (String ?d ?t) = false =>
          change (String d t) with (String.append (String d EmptyString) t);
          apply includes_single_app; [|assumption];
          apply (includes_single_other c d "-0123456789"); [reflexivity | exact Hc]
      end. }
  assert (Hzero : forall u, includes (String c EmptyString)
                              (NilZero.string_of_uint u) = false).
  { intro u. unfold NilZero.string_of_uint. destruct u; try apply Huint.
    apply (includes_single_other c "0" "-0123456789"); [reflexivity | exact Hc]. }
  unfold string_of_Z, NilZero.string_of_int.
  destruct (Z.to_int z) as [u|u].
  - apply Hzero.
  - change (String "-" (NilZero.string_of_uint u))
      with (String.append (String "-" EmptyString) (NilZero.string_of_uint u)).
    apply includes_single_app; [|apply Hzero].
    apply (includes_single_other c "-" "-0123456789"); [reflexivity | exact Hc].
Qed.

(** No HTTP status makes the error of the Steam fetches look like a CORS or
    network error. *)
Lemma api_error_never_cors (response : Response) :
  Steam.is_cors_error (Steam.api_error response) = false.
Proof.
  unfold Steam.is_cors_error, Steam.api_error, Error.
  cbn [emessage ename].
  rewrite (includes_first_absent "C" "ORS").
  2:{ apply includes_single_app; [reflexivity|].
      apply digits_hold_no_letter. reflexivity. }
  rewrite (includes_first_absent "N" "etworkError").
  2:{ apply includes_single_app; [reflexivity|].
      apply digits_hold_no_letter. reflexivity. }
  reflexivity.
Qed.

(** X10. [fetchSteamLevel] never rejects: whatever the configuration, the
    upstream and the state, it returns a defined value, and it logs its one
    request exactly when the credentials are valid. *)
Theorem fetchSteamLevel_never_raises (W : World) (config : Config) (s : State) :
  exists level s',
    Steam.fetchSteamLevel W config s = (Ok level, s')
    /\ level <> VUndef
    /\ s' = (if Steam.hasValidCredentials config
             then record_request W (Steam.level_request config) s
             else s).
Proof.
  assert (Hrun : exists level s',
             Steam.fetchSteamLevel W config s = (Ok level, s')
             /\ s' = (if Steam.hasValidCredentials config
                      then record_request W (Steam.level_request config) s
                      else s)).
  { unfold Steam.fetchSteamLevel.
    destruct (Steam.hasValidCredentials config); decide_branch.
    - unfold try_catch, mbind, fetch.
      destruct (transport W (clock s) (Steam.level_request config)) as [response | msg].
      + destruct (ok response); decide_branch.
        * unfold response_json. destruct (json response) as [data | msg].
          -- unfold mret at 1. unfold lift, get, bind.
             destruct (nullish data); eexists; eexists; split; reflexivity.
          -- eexists; eexists; split; reflexivity.
        * eexists; eexists; split; reflexivity.
      + eexists; eexists; split; reflexivity.
    - eexists; eexists; split; reflexivity. }
  destruct Hrun as (level & s' & Hrun & Hs').
  exists level, s'. repeat split; try assumption.
  eapply fetchSteamLevel_shape; exact Hrun.
Qed.

(** X11. With valid credentials, a response of ANY non-success status makes
    [fetchPlayerSummary], [fetchOwnedGames] and [fetchRecentGames] reject
    with the error [Steam API error: <status>]: its message never passes for
    a CORS or network error, so no status leads to mock data there.
    [fetchSteamLevel], whose handler has no test, answers the mock level. *)
Theorem steam_error_status_rethrown (W : World) (config : Config) (s : State)
    (response : Response) :
  Steam.hasValidCredentials config = true ->
  ok response = false ->
  (transport W (clock s) (Steam.summary_request config) = Responds response ->
   Steam.fetchPlayerSummary W config s
   = (Throw (Error ("Steam API error: " ++ string_of_Z (status response))),
      record_request W (Steam.summary_request config) s))
  /\ (transport W (clock s) (Steam.owned_request config) = Responds response ->
      Steam.fetchOwnedGames W config s
      = (Throw (Error ("Steam API error: " ++ string_of_Z (status response))),
         record_request W (Steam.owned_request config) s))
  /\ (forall count,
        transport W (clock s) (Steam.recent_request config count) = Responds response ->
        Steam.fetchRecentGames W config count s
        = (Throw (Error ("Steam API error: " ++ string_of_Z (status response))),
           record_request W (Steam.recent_request config count) s))
  /\ (transport W (clock s) (Steam.level_request config) = Responds response ->
      Steam.fetchSteamLevel W config s
      = (Ok (vint 42), record_request W (Steam.level_request config) s)).
Proof.
  intros Hcred Hok.
  pose proof (api_error_never_cors response) as Hcors.
  unfold Steam.api_error in Hcors.
  unfold Steam.fetchPlayerSummary, Steam.fetchSteamLevel, Steam.fetchOwnedGames,
    Steam.fetchRecentGames.
  rewrite Hcred. decide_branch.
  unfold try_catch, mbind, fetch, Steam.api_error.
  split; [|split; [|split]]; [| |intro count|];
    intros ->; rewrite Hok; decide_branch;
    unfold throw; try rewrite Hcors; reflexivity.
Qed.

Lemma steam_error_status_rethrown_witness :
  Steam.fetchPlayerSummary
    (Fixtures.always (Fixtures.reply 500 "Internal Server Error" (Unparsable "Unexpected token")))
    Fixtures.configured (initial 1000)
  = (Throw (Error "Steam API error: 500"),
     record_request
       (Fixtures.always (Fixtures.reply 500 "Internal Server Error" (Unparsable "Unexpected token")))
       (Steam.summary_request Fixtures.configured) (initial 1000)).
Proof.
  refine (proj1 (steam_error_status_rethrown
            (Fixtures.always (Fixtures.reply 500 "Internal Server Error" (Unparsable "Unexpected token")))
            Fixtures.configured (initial 1000)
            (Fixtures.reply 500 "Internal Server Error" (Unparsable "Unexpected token"))
            _ _) _); reflexivity.
Defined.

(** X12. Without valid Steam credentials [fetchAllSteamData] issues no
    request and returns the four mock datasets (the mock level 42 merged
    into the mock profile) with [isMockData] true. *)
Theorem fetchAllSteamData_unconfigured (W : World) (config : Config) (s : State) :
  Steam.hasValidCredentials config = false ->
  Steam.fetchAllSteamData W config s
  = (Ok (VObj [
       ("profile",
        VObj (set_field "level" (vint 42)
                (spread (Spec.value_of (Steam.getMockPlayerSummary s)))));
       ("ownedGames", Spec.value_of (Steam.getMockOwnedGames s));
       ("recentGames", Spec.value_of (Steam.getMockRecentGames s));
       ("isMockData", VBool true)]), s).
Proof.
  intro Hinvalid.
  destruct (steam_without_credentials W config s Hinvalid)
    as (Hsummary & Hlevel & Howned & Hrecent).
  unfold Steam.fetchAllSteamData, mbind.
  rewrite Hsummary. cbn. rewrite Hlevel. cbn. rewrite Howned. cbn.
  rewrite Hrecent. cbn. rewrite Hinvalid. reflexivity.
Qed.

Lemma fetchAllSteamData_unconfigured_witness :
  Steam.fetchAllSteamData Fixtures.unreachable Fixtures.unconfigured (initial 7)
  = (Ok (VObj [
       ("profile",
        VObj (set_field "level" (vint 42)
                (spread (Spec.value_of (Steam.getMockPlayerSummary (initial 7))))));
       ("ownedGames", Spec.value_of (Steam.getMockOwnedGames (initial 7)));
       ("recentGames", Spec.value_of (Steam.getMockRecentGames (initial 7)));
       ("isMockData", VBool true)]), initial 7).
Proof.
  apply (fetchAllSteamData_unconfigured Fixtures.unreachable Fixtures.unconfigured
           (initial 7)); reflexivity.
Defined.

(** X13. With valid credentials and a network that fails every request (the
    CORS failure of a browser), [fetchAllSteamData] makes its four requests
    and returns nothing but mock data, yet with [isMockData] false: the flag
    follows the credentials, not the data. *)
Theorem fetchAllSteamData_blocked_reports_live (W : World) (config : Config)
    (s : State) (msg : string) :
  Steam.hasValidCredentials config = true ->
  (forall t req, transport W t req = NetworkFailure msg) ->
  let s1 := record_request W (Steam.summary_request config) s in
  let s2 := record_request W (Steam.level_request config) s1 in
  let s3 := record_request W (Steam.owned_request config) s2 in
  let s4 := record_request W (Steam.recent_request config 10) s3 in
  Steam.fetchAllSteamData W config s
  = (Ok (VObj [
       ("profile",
        VObj (set_field "level" (vint 42)
                (spread (Spec.value_of (Steam.getMockPlayerSummary s1)))));
       ("ownedGames", Spec.value_of (Steam.getMockOwnedGames s3));
       ("recentGames", Spec.value_of (Steam.getMockRecentGames s4));
       ("isMockData", VBool false)]), s4).
Proof.
  intros Hcred Hdown s1 s2 s3 s4.
  unfold Steam.fetchAllSteamData, mbind.
  destruct (steam_unreachable W config s msg Hcred Hdown) as (-> & _).
  cbn.
  destruct (steam_unreachable W config
              (record_request W (Steam.summary_request config) s) msg Hcred Hdown)
    as (_ & Hlevel & _).
  fold s1 in Hlevel |- *. rewrite Hlevel. cbn.
  destruct (steam_unreachable W config s2 msg Hcred Hdown) as (_ & _ & Howned & _).
  fold s2. rewrite Howned. cbn.
  destruct (steam_unreachable W config s3 msg Hcred Hdown) as (_ & _ & _ & Hrecent).
  fold s3. rewrite Hrecent. cbn. rewrite Hcred. reflexivity.
Qed.

Lemma fetchAllSteamData_blocked_reports_live_witness :
  exists s4,
    Steam.fetchAllSteamData Fixtures.unreachable Fixtures.configured (initial 7)
    = (Ok (VObj [
         ("profile",
          VObj (set_field "level" (vint 42)
                  (spread (Spec.value_of
                             (Steam.getMockPlayerSummary
                                (record_request Fixtures.unreachable
                                   (Steam.summary_request Fixtures.configured)
                                   (initial 7)))))));
         ("ownedGames",
          Spec.value_of
            (Steam.getMockOwnedGames
               (record_request Fixtures.unreachable
                  (Steam.owned_request Fixtures.configured)
                  (record_request Fixtures.unreachable
                     (Steam.level_request Fixtures.configured)
                     (record_request Fixtures.unreachable
                        (Steam.summary_request Fixtures.configured)
                        (initial 7))))));
         ("recentGames", Spec.value_of (Steam.getMockRecentGames s4));
         ("isMockData", VBool false)]), s4).
Proof.
  eexists.
  apply (fetchAllSteamData_blocked_reports_live Fixtures.unreachable
           Fixtures.configured (initial 7) "Failed to fetch"); reflexivity.
Defined.

(** X14. On the live path [fetchRecentGames] returns the upstream's games
    mapped one by one in the upstream's order (no sorting, unlike the owned
    games), and [totalCount] is the upstream's [total_count], or the number
    of games when that is missing or zero. *)
Theorem fetchRecentGames_keeps_order (W : World) (config : Config) (count : Z)
    (s : State) (listing : value) (items : list value) :
  Spec.recent_games_upstream W config count s listing items ->
  Forall (fun game => nullish game = false) items ->
  exists mapped,
    Steam.fetchRecentGames W config count s
    = (Ok (VObj [
         ("totalCount",
          if truthy (opt listing "total_count") then opt listing "total_count"
          else vnat (List.length items));
         ("games", VArr mapped)]),
       record_request W (Steam.recent_request config count) s)
    /\ Forall2 (fun game entry =>
                  prop entry "appId" = prop game "appid"
                  /\ prop entry "name" = prop game "name"
                  /\ prop entry "playtime2WeeksMinutes" = prop game "playtime_2weeks")
         items mapped.
Proof.
  intros (Hcred & response & data & Ht & Hok & Hjson & Hdata & Hlisting & Hgames) Hitems.
  assert (Hmap : exists mapped,
             map_r (Steam.recentGame W) items = Ok mapped
             /\ Forall2 (fun game entry =>
                  prop entry "appId" = prop game "appid"
                  /\ prop entry "name" = prop game "name"
                  /\ prop entry "playtime2WeeksMinutes" = prop game "playtime_2weeks")
                  items mapped).
  { clear - Hitems. induction Hitems as [|game rest Hgame _ (mapped & Hmapped & Hall)].
    - exists []. split; [reflexivity | constructor].
    - exists (Spec.value_of (Steam.recentGame W game, tt) :: mapped).
      unfold Steam.recentGame, get, bind, Spec.value_of in *.
      split.
      + cbn [map_r]. rewrite Hgame. cbn [fst]. unfold bind.
        rewrite Hmapped. reflexivity.
      + constructor; [|exact Hall]. rewrite Hgame. cbn [fst].
        compute_props. repeat split. }
  destruct Hmap as (mapped & Hmap & Hall).
  exists mapped. split; [|exact Hall].
  unfold Steam.fetchRecentGames. rewrite Hcred. decide_branch.
  unfold try_catch, mbind, fetch. rewrite Ht, Hok. decide_branch.
  unfold response_json. rewrite Hjson. unfold mret, lift, get.
  rewrite Hdata, Hlisting, Hgames. cbn [as_array]. rewrite Hmap.
  unfold or_. cbn [prop]. reflexivity.
Qed.

Lemma fetchRecentGames_keeps_order_witness :
  exists mapped,
    Steam.fetchRecentGames Fixtures.steam_three_games Fixtures.configured 10
      (initial 1700000000000)
    = (Ok (VObj [("totalCount", vint 3); ("games", VArr mapped)]),
       record_request Fixtures.steam_three_games
         (Steam.recent_request Fixtures.configured 10) (initial 1700000000000))
    /\ Forall2 (fun game entry =>
                  prop entry "appId" = prop game "appid"
                  /\ prop entry "name" = prop game "name"
                  /\ prop entry "playtime2WeeksMinutes" = prop game "playtime_2weeks")
         [Fixtures.upstreamGame 570 "Dota 2" 7200;
          Fixtures.upstreamGame 730 "Counter-Strike 2" 18420;
          Fixtures.upstreamGame 413150 "Stardew Valley" 3600]
         mapped.
Proof.
  apply (fetchRecentGames_keeps_order Fixtures.steam_three_games
           Fixtures.configured 10 (initial 1700000000000)
           (VObj [("game_count", vint 3);
                  ("games", VArr [
                     Fixtures.upstreamGame 570 "Dota 2" 7200;
                     Fixtures.upstreamGame 730 "Counter-Strike 2" 18420;
                     Fixtures.upstreamGame 413150 "Stardew Valley" 3600])])
           [Fixtures.upstreamGame 570 "Dota 2" 7200;
            Fixtures.upstreamGame 730 "Counter-Strike 2" 18420;
            Fixtures.upstreamGame 413150 "Stardew Valley" 3600]).
  - split; [reflexivity|]. do 2 eexists. repeat split; reflexivity.
  - repeat constructor.
Defined.

(** *** Path of Exile: further properties *)

(** X15. The three Path of Exile fetches never reject: whatever the upstream
    does, each returns its object after exactly one request, and the
    [characters] and [leagues] it carries are never falsy. *)
Theorem poe_fetches_never_raise (W : World) (config : Config) (s : State) :
  (exists characters flag,
     Poe.fetchCharacters W config s
     = (Ok (VObj [("characters", characters); ("isMockData", VBool flag)]),
        record_request W (Poe.poe_request config "/character") s)
     /\ truthy characters = true)
  /\ (exists leagues flag,
        Poe.fetchLeagues W config s
        = (Ok (VObj [("leagues", leagues); ("isMockData", VBool flag)]),
           record_request W (Poe.poe_request config "/league") s)
        /\ truthy leagues = true)
  /\ (exists name realm flag,
        Poe.fetchAccountProfile W config s
        = (Ok (VObj [("name", name); ("realm", realm); ("isMockData", VBool flag)]),
           record_request W (Poe.poe_request config "/profile") s)).
Proof. exact (poe_fetches_total W config s). Qed.

Lemma or_flags (a b c : bool) :
  or_ (VBool a) (or_ (VBool b) (VBool c)) = VBool (a || b || c).
Proof. destruct a, b, c; reflexivity. Qed.

(** X16. [fetchAllPOE2Data] always makes its three requests, and rejects
    only if [getCurrentLeague] does.  Otherwise the bundle holds the
    constituents' own [characters] and [leagues] (the [|| charactersData]
    and [|| leaguesData] alternatives are never taken) and [isMockData] is
    the disjunction of the three constituents' flags. *)
Theorem fetchAllPOE2Data_outcome (W : World) (config : Config) (s : State) :
  let s1 := record_request W (Poe.poe_request config "/character") s in
  let s2 := record_request W (Poe.poe_request config "/league") s1 in
  let s3 := record_request W (Poe.poe_request config "/profile") s2 in
  exists characters cflag leagues lflag account pflag,
    Poe.fetchCharacters W config s
    = (Ok (VObj [("characters", characters); ("isMockData", VBool cflag)]), s1)
    /\ Poe.fetchLeagues W config s1
       = (Ok (VObj [("leagues", leagues); ("isMockData", VBool lflag)]), s2)
    /\ Poe.fetchAccountProfile W config s2 = (Ok account, s3)
    /\ prop account "isMockData" = VBool pflag
    /\ Poe.fetchAllPOE2Data W config s
       = (match Poe.getCurrentLeague W leagues with
          | Ok league =>
              Ok (VObj [
                ("account", account);
                ("characters", characters);
                ("leagues", leagues);
                ("currentLeague", league);
                ("isMockData", VBool (cflag || lflag || pflag))])
          | Throw e => Throw e
          end, s3).
Proof.
  intros s1 s2 s3.
  destruct (poe_fetches_total W config s)
    as ((characters & cflag & Hc & Hct) & _).
  destruct (poe_fetches_total W config s1)
    as (_ & (leagues & lflag & Hl & Hlt) & _).
  destruct (poe_fetches_total W config s2)
    as (_ & _ & (name & realm & pflag & Hp)).
  fold s1 in Hc. fold s2 in Hl. fold s3 in Hp.
  exists characters, cflag, leagues, lflag,
    (VObj [("name", name); ("realm", realm); ("isMockData", VBool pflag)]), pflag.
  split; [exact Hc|]. split; [exact Hl|]. split; [exact Hp|].
  split; [reflexivity|].
  unfold Poe.fetchAllPOE2Data, mbind. rewrite Hc, Hl, Hp.
  unfold lift, get, mret. cbn [nullish]. compute_props.
  rewrite (or_of_truthy characters _ Hct), (or_of_truthy leagues _ Hlt).
  destruct (Poe.getCurrentLeague W leagues) as [league | e];
    [|reflexivity].
  rewrite or_flags. reflexivity.
Qed.

(** [leagues.find] over leagues on which the callback does not throw: the
    first league it accepts, or [undefined]. *)
Lemma find_r_first (p : value -> result bool) (items : list value) :
  Forall (fun x => exists b, p x = Ok b) items ->
  (exists before found after,
     items = List.app before (found :: after)
     /\ Forall (fun x => p x = Ok false) before
     /\ p found = Ok true
     /\ find_r p items = Ok found)
  \/ (Forall (fun x => p x = Ok false) items /\ find_r p items = Ok VUndef).
Proof.
  induction 1 as [|x rest [b Hb] _ IH].
  - right. split; [constructor | reflexivity].
  - cbn [find_r]. rewrite Hb. cbn [bind]. destruct b.
    + left. exists [], x, rest. repeat split; [constructor | exact Hb].
    + destruct IH as [(before & found & after & -> & Hbefore & Hfound & Hfind)
                     | (Hnone & Hfind)].
      * left. exists (x :: before), found, after.
        repeat split; [constructor; assumption | exact Hfound | exact Hfind].
      * right. split; [constructor; assumption | exact Hfind].
Qed.

(** A league with a string [id] is judged without an exception. *)
Lemma isChallengeLeague_total (W : World) (league : value) :
  (exists fields id, league = VObj fields /\ lookup "id" fields = Some (VStr id)) ->
  exists b, Poe.isChallengeLeague W league = Ok b.
Proof.
  intros (fields & id & -> & Hid).
  unfold Poe.isChallengeLeague, Poe.id_includes, get, bind.
  cbn [nullish prop]. rewrite Hid.
  destruct (includes "Standard" id); [eexists; reflexivity|].
  destruct (includes "Hardcore" id); [eexists; reflexivity|].
  destruct (includes "SSF" id); eexists; reflexivity.
Qed.

(** X17. For a non-empty array of leagues that each carry a string [id],
    [getCurrentLeague] returns a league of the list: the first one that is a
    challenge league (no [Standard], [Hardcore] or [SSF] in its id, and with
    rules), and the first league of the list when there is none. *)
Theorem getCurrentLeague_picks_first_challenge (W : World)
    (first : value) (rest : list value) :
  Forall (fun league => exists fields id,
            league = VObj fields /\ lookup "id" fields = Some (VStr id))
    (first :: rest) ->
  exists league,
    Poe.getCurrentLeague W (VArr (first :: rest)) = Ok league
    /\ ((exists before after,
           first :: rest = List.app before (league :: after)
           /\ Forall (fun l => Poe.isChallengeLeague W l = Ok false) before
           /\ Poe.isChallengeLeague W league = Ok true)
        \/ (Forall (fun l => Poe.isChallengeLeague W l = Ok false) (first :: rest)
            /\ league = first)).
Proof.
  intro Hids.
  assert (Htotal : Forall (fun x => exists b, Poe.isChallengeLeague W x = Ok b)
                     (first :: rest)).
  { eapply Forall_impl; [|exact Hids]. intros league Hleague.
    apply isChallengeLeague_total. exact Hleague. }
  unfold Poe.getCurrentLeague.
  destruct (find_r_first (Poe.isChallengeLeague W) (first :: rest) Htotal)
    as [(before & found & after & Hsplit & Hbefore & Hfound & Hfind)
       | (Hnone & Hfind)]; rewrite Hfind; cbn [bind].
  - exists found. split.
    + assert (Hin : In found (first :: rest)).
      { rewrite Hsplit. apply in_or_app. right. left. reflexivity. }
      rewrite Forall_forall in Hids.
      destruct (Hids found Hin) as (fields & id & -> & _). reflexivity.
    + left. exists before, after. repeat split; assumption.
  - exists first. split; [reflexivity|]. right. split; [exact Hnone | reflexivity].
Qed.

Lemma getCurrentLeague_picks_first_challenge_witness :
  exists league,
    Poe.getCurrentLeague Fixtures.unreachable
      (VArr [Poe.mockLeague "Standard" VNull [];
             Poe.mockLeague "Settlers" (VStr "2024-12-06T20:00:00Z")
               [VObj [("id", VStr "settlers"); ("name", VStr "Settlers")]];
             Poe.mockLeague "Dawn" VNull [VObj [("id", VStr "dawn")]]])
    = Ok league
    /\ ((exists before after,
           [Poe.mockLeague "Standard" VNull [];
            Poe.mockLeague "Settlers" (VStr "2024-12-06T20:00:00Z")
              [VObj [("id", VStr "settlers"); ("name", VStr "Settlers")]];
            Poe.mockLeague "Dawn" VNull [VObj [("id", VStr "dawn")]]]
           = List.app before (league :: after)
           /\ Forall (fun l => Poe.isChallengeLeague Fixtures.unreachable l = Ok false)
                before
           /\ Poe.isChallengeLeague Fixtures.unreachable league = Ok true)
        \/ (Forall (fun l => Poe.isChallengeLeague Fixtures.unreachable l = Ok false)
              [Poe.mockLeague "Standard" VNull [];
               Poe.mockLeague "Settlers" (VStr "2024-12-06T20:00:00Z")
                 [VObj [("id", VStr "settlers"); ("name", VStr "Settlers")]];
               Poe.mockLeague "Dawn" VNull [VObj [("id", VStr "dawn")]]]
            /\ league = Poe.mockLeague "Standard" VNull [])).
Proof.
  apply (getCurrentLeague_picks_first_challenge Fixtures.unreachable).
  repeat constructor; do 2 eexists; split; reflexivity.
Defined.

(** X18. [fetchAllPOE2Data] has no handler around [getCurrentLeague]: when
    the league endpoint answers with a list whose first league is an object
    without an [id], the whole call rejects with the [TypeError] of
    [league.id.includes], after its three requests. *)
Theorem fetchAllPOE2Data_rejects_league_without_id (W : World) (config : Config)
    (s : State) (response : Response) (data : value)
    (fields : list (string * value)) (rest : list value) :
  (forall t, transport W t (Poe.poe_request config "/league") = Responds response) ->
  ok response = true ->
  json response = Json data ->
  nullish data = false ->
  prop data "leagues" = VArr (VObj fields :: rest) ->
  lookup "id" fields = None ->
  Poe.fetchAllPOE2Data W config s
  = (Throw (TypeError "Cannot read properties of undefined (reading 'includes')"),
     record_request W (Poe.poe_request config "/profile")
       (record_request W (Poe.poe_request config "/league")
          (record_request W (Poe.poe_request config "/character") s))).
Proof.
  intros Ht Hok Hjson Hdata Hleagues Hid.
  destruct (poe_fetches_total W config s)
    as ((characters & cflag & Hc & Hct) & _).
  destruct (poe_fetches_total W config
              (record_request W (Poe.poe_request config "/league")
                 (record_request W (Poe.poe_request config "/character") s)))
    as (_ & _ & (name & realm & pflag & Hp)).
  unfold Poe.fetchAllPOE2Data, mbind. rewrite Hc.
  assert (Hl : Poe.fetchLeagues W config
                 (record_request W (Poe.poe_request config "/character") s)
               = (Ok (VObj [("leagues", VArr (VObj fields :: rest));
                            ("isMockData", VBool false)]),
                  record_request W (Poe.poe_request config "/league")
                    (record_request W (Poe.poe_request config "/character") s))).
  { unfold Poe.fetchLeagues, try_catch, mbind, fetch. rewrite Ht, Hok.
    decide_branch. unfold response_json. rewrite Hjson.
    unfold mret, lift, get. rewrite Hdata, Hleagues. reflexivity. }
  rewrite Hl, Hp.
  unfold lift, get, mret. cbn [nullish]. compute_props.
  unfold or_ at 1. cbn [truthy].
  unfold Poe.getCurrentLeague, bind. cbn [find_r].
  unfold Poe.isChallengeLeague, Poe.id_includes, get, bind.
  cbn [nullish prop]. rewrite Hid. reflexivity.
Qed.

Lemma fetchAllPOE2Data_rejects_league_without_id_witness :
  Poe.fetchAllPOE2Data
    (Fixtures.always
       (Fixtures.reply 200 "OK"
          (Json (VObj [("leagues", VArr [VObj [("name", VStr "Dawn")]])]))))
    Fixtures.configured (initial 0)
  = (Throw (TypeError "Cannot read properties of undefined (reading 'includes')"),
     record_request
       (Fixtures.always
          (Fixtures.reply 200 "OK"
             (Json (VObj [("leagues", VArr [VObj [("name", VStr "Dawn")]])]))))
       (Poe.poe_request Fixtures.configured "/profile")
       (record_request
          (Fixtures.always
             (Fixtures.reply 200 "OK"
                (Json (VObj [("leagues", VArr [VObj [("name", VStr "Dawn")]])]))))
          (Poe.poe_request Fixtures.configured "/league")
          (record_request
             (Fixtures.always
                (Fixtures.reply 200 "OK"
                   (Json (VObj [("leagues", VArr [VObj [("name", VStr "Dawn")]])]))))
             (Poe.poe_request Fixtures.configured "/character") (initial 0)))).
Proof.
  apply (fetchAllPOE2Data_rejects_league_without_id
           (Fixtures.always
              (Fixtures.reply 200 "OK"
                 (Json (VObj [("leagues", VArr [VObj [("name", VStr "Dawn")]])]))))
           Fixtures.configured (initial 0)
           (Fixtures.reply 200 "OK"
              (Json (VObj [("leagues", VArr [VObj [("name", VStr "Dawn")]])])))
           (VObj [("leagues", VArr [VObj [("name", VStr "Dawn")]])])
           [("name", VStr "Dawn")] []); reflexivity.
Defined.

(** *** The NFT service: further properties *)

Lemma or_of_falsy (a b : value) : truthy a = false -> or_ a b = b.
Proof. intro Ha. unfold or_. rewrite Ha. reflexivity. Qed.

Lemma or_null (a : value) : or_ a VNull = VNull \/ truthy (or_ a VNull) = true.
Proof.
  unfold or_. destruct (truthy a) eqn:Ha; [right; exact Ha | left; reflexivity].
Qed.

(** X19. [getNFTImageUrl] of any NFT object answers a truthy URL or [null],
    never [undefined] or an empty string; for an NFT built by
    [fetchNFTsForWallet] it is the token's small image, else its full image,
    else [null]. *)
Theorem getNFTImageUrl_url_or_null (W : World) (nft : value) :
  nullish nft = false ->
  (exists url, Nft.getNFTImageUrl nft = Ok url
               /\ (url = VNull \/ truthy url = true))
  /\ (forall item, Nft.nftOfToken W item = Ok nft ->
        Nft.getNFTImageUrl nft
        = Ok (let token := prop item "token" in
              if truthy (opt token "imageSmall") then opt token "imageSmall"
              else if truthy (opt token "image") then opt token "image"
              else VNull)).
Proof.
  intro Hnft. split.
  - unfold Nft.getNFTImageUrl, get, bind. rewrite Hnft.
    destruct (truthy (prop nft "image")); cbn [negb].
    + eexists. split; [reflexivity | apply or_null].
    + eexists. split; [reflexivity | left; reflexivity].
  - intros item Hitem. unfold Nft.nftOfToken, get, bind in Hitem.
    destruct (nullish item); [discriminate Hitem|].
    inversion Hitem; subst nft; clear Hitem.
    unfold Nft.getNFTImageUrl, get, bind. cbn [nullish]. compute_props.
    cbn [truthy negb]. cbv zeta.
    destruct (truthy (opt (prop item "token") "imageSmall")) eqn:Hsmall.
    + repeat rewrite (or_of_truthy _ _ Hsmall). reflexivity.
    + destruct (truthy (opt (prop item "token") "image")) eqn:Himage.
      * repeat first [ rewrite (or_of_falsy _ _ Hsmall)
                     | rewrite (or_of_truthy _ _ Himage) ].
        reflexivity.
      * repeat first [ rewrite (or_of_falsy _ _ Hsmall)
                     | rewrite (or_of_falsy _ _ Himage) ].
        reflexivity.
Qed.

Lemma getNFTImageUrl_url_or_null_witness :
  (exists url,
     Nft.getNFTImageUrl
       (Spec.nft_view Fixtures.unreachable
          (VObj [("token", VObj [("tokenId", VStr "7");
                                 ("image", VStr "ipfs://art")])])) = Ok url
     /\ (url = VNull \/ truthy url = true))
  /\ (forall item,
        Nft.nftOfToken Fixtures.unreachable item
        = Ok (Spec.nft_view Fixtures.unreachable
                (VObj [("token", VObj [("tokenId", VStr "7");
                                       ("image", VStr "ipfs://art")])])) ->
        Nft.getNFTImageUrl
          (Spec.nft_view Fixtures.unreachable
             (VObj [("token", VObj [("tokenId", VStr "7");
                                    ("image", VStr "ipfs://art")])]))
        = Ok (let token := prop item "token" in
              if truthy (opt token "imageSmall") then opt token "imageSmall"
              else if truthy (opt token "image") then opt token "image"
              else VNull)).
Proof.
  apply (getNFTImageUrl_url_or_null Fixtures.unreachable
           (Spec.nft_view Fixtures.unreachable
              (VObj [("token", VObj [("tokenId", VStr "7");
                                     ("image", VStr "ipfs://art")])]))).
  reflexivity.
Defined.

(** X20. [getOpenSeaUrl] of any NFT object answers an address on
    [https://opensea.io]: the front page exactly when the contract address
    or the token id is missing (or falsy), the asset page
    [/assets/ethereum/<contract>/<tokenId>] otherwise. *)
Theorem getOpenSeaUrl_stays_on_opensea (W : World) (nft : value) :
  nullish nft = false ->
  exists url,
    Nft.getOpenSeaUrl W nft = Ok url
    /\ String.prefix "https://opensea.io" url = true
    /\ (url = "https://opensea.io"
        <-> (truthy (opt (prop nft "contract") "address") = false
             \/ truthy (prop nft "tokenId") = false))
    /\ (url <> "https://opensea.io" ->
        url = ("https://opensea.io/assets/ethereum/"
               ++ to_string (platform W) (opt (prop nft "contract") "address")
               ++ "/" ++ to_string (platform W) (prop nft "tokenId"))%string).
Proof.
  intro Hnft. unfold Nft.getOpenSeaUrl, get, bind. rewrite Hnft. cbv zeta.
  destruct (truthy (opt (prop nft "contract") "address")) eqn:Haddress;
    destruct (truthy (prop nft "tokenId")) eqn:Hid; cbn [negb orb];
    eexists; (split; [reflexivity|]); (split; [reflexivity|]); split;
    try (split; [intros _; auto | reflexivity]);
    try (intro Hurl; exfalso; apply Hurl; reflexivity).
  - split; [intro Hurl; discriminate Hurl | intros [H | H]; discriminate H].
  - intros _. reflexivity.
Qed.

Lemma getOpenSeaUrl_stays_on_opensea_witness :
  exists url,
    Nft.getOpenSeaUrl Fixtures.unreachable
      (VObj [("contract", VObj [("address", VStr "0xabc")]);
             ("tokenId", VStr "7")]) = Ok url
    /\ String.prefix "https://opensea.io" url = true
    /\ (url = "https://opensea.io"
        <-> (truthy (opt (prop (VObj [("contract", VObj [("address", VStr "0xabc")]);
                                      ("tokenId", VStr "7")]) "contract") "address")
             = false
             \/ truthy (prop (VObj [("contract", VObj [("address", VStr "0xabc")]);
                                    ("tokenId", VStr "7")]) "tokenId") = false))
    /\ (url <> "https://opensea.io" ->
        url = ("https://opensea.io/assets/ethereum/"
               ++ to_string (platform Fixtures.unreachable)
                    (opt (prop (VObj [("contract", VObj [("address", VStr "0xabc")]);
                                      ("tokenId", VStr "7")]) "contract") "address")
               ++ "/"
               ++ to_string (platform Fixtures.unreachable)
                    (prop (VObj [("contract", VObj [("address", VStr "0xabc")]);
                                 ("tokenId", VStr "7")]) "tokenId"))%string).
Proof.
  apply (getOpenSeaUrl_stays_on_opensea Fixtures.unreachable
           (VObj [("contract", VObj [("address", VStr "0xabc")]);
                  ("tokenId", VStr "7")])).
  reflexivity.
Defined.

(** One turn of the loop against an upstream that sends an empty page with a
    continuation. *)
Lemma empty_page_with_continuation (W : World) (config : Config)
    (continuation : value) (s : State) (response : Response) (data : value) :
  Spec.wallet_configured config ->
  (forall t req, transport W t req = Responds response) ->
  ok response = true ->
  json response = Json data ->
  nullish data = false ->
  or_ (prop data "tokens") (VArr []) = VArr [] ->
  truthy (prop data "continuation") = true ->
  Nft.fetchNFTsForWallet W config VNull continuation 50 s
  = (Ok (VObj [("nfts", VArr []); ("continuation", prop data "continuation")]),
     record_request W
       (Nft.page_request W (VStr (wallet_address config)) continuation 50) s).
Proof.
  intros [Hset Hnonzero] Ht Hok Hjson Hdata Htokens Hmore.
  apply String.eqb_neq in Hset. apply String.eqb_neq in Hnonzero.
  unfold Nft.fetchNFTsForWallet. cbv zeta.
  change (or_ VNull (VStr (wallet_address config)))
    with (VStr (wallet_address config)).
  unfold Nft.is_zero_address. cbn [truthy].
  rewrite Hset, Hnonzero. decide_branch.
  unfold mbind, fetch. rewrite Ht, Hok. decide_branch.
  unfold response_json. rewrite Hjson. unfold mret, lift, get.
  rewrite Hdata, Htokens. cbn [as_array map_r].
  rewrite (or_of_truthy _ _ Hmore). reflexivity.
Qed.

(** X21. [fetchAllNFTs] has no bound on its requests: against an upstream
    that keeps answering an empty page with a continuation, and for a
    positive [maxNFTs], the loop never ends, however many iterations are
    allowed. *)
Theorem fetchAllNFTs_loops_on_empty_pages (W : World) (config : Config)
    (maxNFTs : Z) (response : Response) (data : value) :
  Spec.wallet_configured config ->
  (forall t req, transport W t req = Responds response) ->
  ok response = true ->
  json response = Json data ->
  nullish data = false ->
  or_ (prop data "tokens") (VArr []) = VArr [] ->
  truthy (prop data "continuation") = true ->
  (0 < maxNFTs)%Z ->
  forall (fuel : nat) (s : State),
    Nft.fetchAllNFTs W config fuel VNull maxNFTs s = None.
Proof.
  intros Hwallet Ht Hok Hjson Hdata Htokens Hmore Hmax fuel s.
  assert (Hloop : forall continuation s0,
             Nft.collect W config fuel VNull maxNFTs [] continuation s0 = None).
  { induction fuel as [|fuel IH]; intros continuation s0; [reflexivity|].
    cbn [Nft.collect].
    rewrite (empty_page_with_continuation W config continuation s0 response data
               Hwallet Ht Hok Hjson Hdata Htokens Hmore).
    compute_props. cbn [Nft.items_of List.app List.length Z.of_nat].
    destruct (Z.leb_spec maxNFTs 0) as [Hle | _]; [lia|].
    rewrite Hmore. apply IH. }
  unfold Nft.fetchAllNFTs. rewrite Hloop. reflexivity.
Qed.

Lemma fetchAllNFTs_loops_on_empty_pages_witness :
  Nft.fetchAllNFTs
    (Fixtures.always
       (Fixtures.reply 200 "OK"
          (Json (VObj [("tokens", VArr []); ("continuation", VStr "again")]))))
    Fixtures.configured 1000 VNull 200 (initial 0) = None.
Proof.
  refine (fetchAllNFTs_loops_on_empty_pages
           (Fixtures.always
              (Fixtures.reply 200 "OK"
                 (Json (VObj [("tokens", VArr []); ("continuation", VStr "again")]))))
           Fixtures.configured 200
           (Fixtures.reply 200 "OK"
              (Json (VObj [("tokens", VArr []); ("continuation", VStr "again")])))
           (VObj [("tokens", VArr []); ("continuation", VStr "again")])
           _ _ _ _ _ _ _ _ 1000 (initial 0));
    try reflexivity.
  split; discriminate.
Defined.

(** *** Exceptions inside the Steam handlers *)



(** X23. A successful response that lists no player makes
    [fetchPlayerSummary] reject with [Player not found]: the handler lets
    that error through, no mock summary is returned. *)
Theorem fetchPlayerSummary_player_not_found (W : World) (config : Config)
    (s : State) (response : Response) (data : value) :
  Steam.hasValidCredentials config = true ->
  transport W (clock s) (Steam.summary_request config) = Responds response ->
  ok response = true ->
  json response = Json data ->
  nullish data = false ->
  truthy (opt_index (opt (prop data "response") "players") 0) = false ->
  Steam.fetchPlayerSummary W config s
  = (Throw (Error "Player not found"),
     record_request W (Steam.summary_request config) s).
Proof.
  intros Hcred Ht Hok Hjson Hdata Hplayer.
  unfold Steam.fetchPlayerSummary. rewrite Hcred. decide_branch.
  unfold try_catch, mbind, fetch. rewrite Ht, Hok. decide_branch.
  unfold response_json. rewrite Hjson. unfold mret, lift, get. rewrite Hdata.
  rewrite Hplayer. decide_branch. reflexivity.
Qed.

Lemma fetchPlayerSummary_player_not_found_witness :
  Steam.fetchPlayerSummary
    (Fixtures.always
       (Fixtures.reply 200 "OK"
          (Json (VObj [("response", VObj [("players", VArr [])])]))))
    Fixtures.configured (initial 0)
  = (Throw (Error "Player not found"),
     record_request
       (Fixtures.always
          (Fixtures.reply 200 "OK"
             (Json (VObj [("response", VObj [("players", VArr [])])]))))
       (Steam.summary_request Fixtures.configured) (initial 0)).
Proof.
  apply (fetchPlayerSummary_player_not_found
           (Fixtures.always
              (Fixtures.reply 200 "OK"
                 (Json (VObj [("response", VObj [("players", VArr [])])]))))
           Fixtures.configured (initial 0)
           (Fixtures.reply 200 "OK"
              (Json (VObj [("response", VObj [("players", VArr [])])])))
           (VObj [("response", VObj [("players", VArr [])])]));
    reflexivity.
Defined.

(** X24. Given a wallet address of its own, [fetchNFTsForWallet] ignores the
    configured one and, whatever the upstream answers and whether the call
    returns or rejects, issues exactly one request: to that wallet's token
    listing, asking for at most 100 items. *)
Theorem fetchNFTsForWallet_one_request (W : World) (config : Config)
    (address : string) (continuation : value) (limit : Z) (s : State) :
  address <> "" ->
  address <> Nft.zero_address ->
  exists outcome request,
    Nft.fetchNFTsForWallet W config (VStr address) continuation limit s
    = (outcome, record_request W request s)
    /\ url request
       = ("https://api.reservoir.tools/users/" ++ address ++ "/tokens/v10")%string
    /\ (exists n, Fixtures.query_param "limit" (query request) = Some (string_of_Z n)
                  /\ (n <= 100)%Z /\ (n <= limit)%Z)
    /\ (truthy continuation = false ->
        Fixtures.query_param "continuation" (query request) = None).
Proof.
  intros Hset Hnonzero.
  apply String.eqb_neq in Hset. apply String.eqb_neq in Hnonzero.
  assert (Haddress : or_ (VStr address) (VStr (wallet_address config))
                     = VStr address).
  { unfold or_. cbn [truthy]. rewrite Hset. reflexivity. }
  assert (Hrun : exists outcome,
             Nft.fetchNFTsForWallet W config (VStr address) continuation limit s
             = (outcome,
                record_request W
                  (Nft.page_request W (VStr address) continuation limit) s)).
  { unfold Nft.fetchNFTsForWallet. cbv zeta. rewrite Haddress.
    cbn [truthy]. rewrite Hset. cbn [negb].
    unfold Nft.is_zero_address. rewrite Hnonzero. decide_branch.
    unfold mbind, fetch.
    destruct (transport W (clock s) (Nft.page_request W (VStr address) continuation limit))
      as [response | msg]; [|eexists; reflexivity].
    destruct (ok response); decide_branch; [|eexists; reflexivity].
    unfold response_json. destruct (json response) as [data | msg];
      [|eexists; reflexivity].
    unfold mret at 1. unfold lift.
    destruct (get data "tokens") as [tokens | e]; [|eexists; reflexivity].
    destruct (as_array (or_ tokens (VArr [])) "(data.tokens || []).map")
      as [items | e]; [|eexists; reflexivity].
    destruct (map_r (Nft.nftOfToken W) items) as [nfts | e]; eexists; reflexivity. }
  destruct Hrun as (outcome & Hrun).
  exists outcome, (Nft.page_request W (VStr address) continuation limit).
  split; [|split; [|split]].
  - exact Hrun.
  - reflexivity.
  - exists (Z.min limit 100). split; [reflexivity | lia].
  - intro Hnone. unfold Nft.page_request, Fixtures.query_param.
    rewrite Hnone. reflexivity.
Qed.

Lemma fetchNFTsForWallet_one_request_witness :
  exists outcome request,
    Nft.fetchNFTsForWallet Fixtures.unreachable Fixtures.unconfigured
      (VStr "0x2222222222222222222222222222222222222222") VNull 500 (initial 0)
    = (outcome, record_request Fixtures.unreachable request (initial 0))
    /\ url request
       = ("https://api.reservoir.tools/users/"
          ++ "0x2222222222222222222222222222222222222222" ++ "/tokens/v10")%string
    /\ (exists n, Fixtures.query_param "limit" (query request) = Some (string_of_Z n)
                  /\ (n <= 100)%Z /\ (n <= 500)%Z)
    /\ (truthy VNull = false ->
        Fixtures.query_param "continuation" (query request) = None).
Proof.
  apply (fetchNFTsForWallet_one_request Fixtures.unreachable Fixtures.unconfigured
           "0x2222222222222222222222222222222222222222" VNull 500 (initial 0));
    discriminate.
Defined.
